(** * EcomShop: cart, wishlist, catalog and order workflow

    A shallow embedding of the storefront's business logic:
    - [src/supabase/migrations/20250904111001_square_thunder.sql]: the tables,
      their CHECK / UNIQUE / REFERENCES constraints and row-level policies;
    - [services/productService.ts], [services/wishlistService.ts],
      [services/orderService.ts]: the data-access calls;
    - [src/contexts/CartContext.tsx]: the cart provider and its totals.

    Conventions of the model.
    - [uuid] columns and TypeScript [string] identifiers are strings that are
      only ever compared for equality; [gen_random_uuid()] picks an identifier
      that is not yet a key of the table.
    - [decimal(10,2)] amounts are counted in hundredths and [integer] columns
      are integers, both as [Z]; the store refuses a value that does not fit
      its column (at most ten digits, four bytes).
    - The numbers of the cart provider's [totalAmount] are IEEE 754 binary64
      values, with their rounding. The total [createOrder] sends is rounded by
      the store to the hundredths of [decimal(10,2)]; the model stores the
      exact sum of the hundredths, which is that rounding as long as the
      error accumulated in floating point stays below half a hundredth.
    - Rows that [ORDER BY] leaves equal come in an order chosen by the store,
      statement by statement ([row_order]).
    - A table is a finite map from its primary key [id] to the other columns.
    - Every request to the store may fail in transit; the schedule of such
      failures is part of the world ([outages]). *)

From stdpp Require Import gmap strings list fin_maps sorting.
From Stdlib Require Import ZArith Ascii Floats.SpecFloat.
Open Scope Z_scope.

Abbreviation uuid := string.

(** ** Rows of the schema *)

Module ShippingAddress.
Record t := mk {
  full_name : string; phone : string; street : string; city : string;
  state : string; postal_code : string; country : string }.
End ShippingAddress.

(** [status text CHECK (status IN ('pending', ...))] *)
Inductive OrderStatus := pending | processing | shipped | delivered | cancelled.

Module ProductRow.
Record t := mk {
  name : string; description : string; price : Z;
  category_id : option uuid; image_url : option string;
  stock_quantity : Z; is_active : bool; created_at : Z }.
End ProductRow.

Module CartRow.
Record t := mk { user_id : uuid; product_id : uuid; quantity : Z }.
End CartRow.

Module WishlistRow.
Record t := mk { user_id : uuid; product_id : uuid }.
End WishlistRow.

Module OrderRow.
Record t := mk {
  user_id : uuid; total_amount : Z; status : OrderStatus;
  shipping_address : ShippingAddress.t }.
End OrderRow.

Module OrderItemRow.
Record t := mk { order_id : uuid; product_id : uuid; quantity : Z; price : Z }.
End OrderItemRow.

(** The filters the services put on a query over [products]. The last one is
    [.or('name.ilike.P,description.ilike.P')]. *)
Inductive Filter :=
  | eq_id (v : uuid)
  | eq_is_active (v : bool)
  | eq_category_id (v : string)
  | gte_price (v : Z)
  | lte_price (v : Z)
  | or_name_ilike_description_ilike (name_pattern description_pattern : string).

(** The tables, and the order in which the store hands out rows that the
    [ORDER BY] of a statement leaves equal: SQL does not fix it, and it may
    differ from one statement (its filters, its limit) to another. Among such
    rows those of lower rank come first. *)
Record Database := mkDatabase {
  products : gmap uuid ProductRow.t;
  cart_items : gmap uuid CartRow.t;
  wishlist_items : gmap uuid WishlistRow.t;
  orders : gmap uuid OrderRow.t;
  order_items : gmap uuid OrderItemRow.t;
  row_order : list Filter → option nat → uuid → nat }.

(** A store with no preference among such rows. *)
Definition no_preference : list Filter → option nat → uuid → nat := λ _ _ _, 0%nat.

(** ** Objects seen by the client (the interfaces of [types]) *)

Module Product.
Record t := mk {
  id : uuid; name : string; description : string; price : Z;
  category_id : option uuid; image_url : option string;
  stock_quantity : Z; is_active : bool; created_at : Z }.
Definition of_row (i : uuid) (r : ProductRow.t) : t :=
  mk i (ProductRow.name r) (ProductRow.description r) (ProductRow.price r)
     (ProductRow.category_id r) (ProductRow.image_url r)
     (ProductRow.stock_quantity r) (ProductRow.is_active r)
     (ProductRow.created_at r).
End Product.

(** The embedded resource [products (id, name, price, image_url,
    stock_quantity)] of a cart line. *)
Module JoinedProduct.
Record t := mk {
  id : uuid; name : string; price : Z;
  image_url : option string; stock_quantity : Z }.
Definition of_row (i : uuid) (r : ProductRow.t) : t :=
  mk i (ProductRow.name r) (ProductRow.price r) (ProductRow.image_url r)
     (ProductRow.stock_quantity r).
End JoinedProduct.

Module CartItem.
Record t := mk {
  id : uuid; user_id : uuid; product_id : uuid; quantity : Z;
  products : option JoinedProduct.t }.
End CartItem.

(** The embedded resource [products (id, name, image_url, price)] of an
    order line read back by [getOrderById]. *)
Module OrderProduct.
Record t := mk { id : uuid; name : string; image_url : option string; price : Z }.
Definition of_row (i : uuid) (r : ProductRow.t) : t :=
  mk i (ProductRow.name r) (ProductRow.image_url r) (ProductRow.price r).
End OrderProduct.

Module OrderItem.
Record t := mk {
  id : uuid; order_id : uuid; product_id : uuid; quantity : Z; price : Z;
  products : option OrderProduct.t }.
End OrderItem.

Module Order.
Record t := mk {
  id : uuid; user_id : uuid; total_amount : Z; status : OrderStatus;
  shipping_address : ShippingAddress.t;
  order_items : option (list OrderItem.t) }.
End Order.

Module FilterOptions.
Record t := mk {
  category : option string; minPrice : option Z; maxPrice : option Z;
  search : option string }.
End FilterOptions.

(** ** Errors *)

(** What a request to the store can answer in its [error] field. *)
Inductive PgError :=
  | insufficient_privilege   (* 42501: row-level security policy *)
  | check_violation          (* 23514 *)
  | unique_violation         (* 23505 *)
  | foreign_key_violation    (* 23503 *)
  | invalid_escape_sequence  (* 22025: LIKE pattern ends with the escape *)
  | value_out_of_range       (* 22003: the value does not fit the column's type *)
  | no_single_row            (* PGRST116: [.single()] on 0 or several rows *)
  | fetch_failed.            (* the request did not reach the store *)

(** What the TypeScript code can throw. *)
Inductive Thrown :=
  | PostgrestError (error : PgError)   (* [throw error] *)
  | JsError (message : string)         (* [throw new Error(message)] *)
  | TypeError.                         (* property read on null/undefined *)

(** The error taxonomy of the specification (its section on error handling),
    read on the values the code throws: a uniqueness violation is a
    [ConflictError], every other failure answered by the store (network or
    constraint) is a [StoreError]. Nothing in the code raises the three other
    kinds. *)
Inductive ErrorKind :=
  ValidationError | NotFoundError | EmptyCartError | ConflictError | StoreError.

Definition error_kind (e : Thrown) : option ErrorKind :=
  match e with
  | PostgrestError unique_violation => Some ConflictError
  | PostgrestError _ => Some StoreError
  | JsError _ => None
  | TypeError => None
  end.

(** ** The world: store, session, transport and client state *)

Record World := mkWorld {
  db : Database;
  auth_uid : option uuid;            (* [auth.uid()], also [useAuth().user] *)
  outages : list bool;               (* [true]: the next request fails in transit *)
  console : list (string * PgError); (* what [console.error] has printed *)
  cartItems : list CartItem.t;       (* React state of [CartProvider] *)
  loading : bool }.

Definition with_db (d : Database) (w : World) : World :=
  mkWorld d (auth_uid w) (outages w) (console w) (cartItems w) (loading w).
Definition with_outages (o : list bool) (w : World) : World :=
  mkWorld (db w) (auth_uid w) o (console w) (cartItems w) (loading w).
Definition with_console (c : list (string * PgError)) (w : World) : World :=
  mkWorld (db w) (auth_uid w) (outages w) c (cartItems w) (loading w).
Definition with_cartItems (l : list CartItem.t) (w : World) : World :=
  mkWorld (db w) (auth_uid w) (outages w) (console w) l (loading w).
Definition with_loading (b : bool) (w : World) : World :=
  mkWorld (db w) (auth_uid w) (outages w) (console w) (cartItems w) b.

Definition with_cart_items (m : gmap uuid CartRow.t) (d : Database) : Database :=
  mkDatabase (products d) m (wishlist_items d) (orders d) (order_items d)
    (row_order d).
Definition with_wishlist_items (m : gmap uuid WishlistRow.t) (d : Database) : Database :=
  mkDatabase (products d) (cart_items d) m (orders d) (order_items d)
    (row_order d).
Definition with_orders (m : gmap uuid OrderRow.t) (d : Database) : Database :=
  mkDatabase (products d) (cart_items d) (wishlist_items d) m (order_items d)
    (row_order d).
Definition with_order_items (m : gmap uuid OrderItemRow.t) (d : Database) : Database :=
  mkDatabase (products d) (cart_items d) (wishlist_items d) (orders d) m
    (row_order d).
Definition with_products (m : gmap uuid ProductRow.t) (d : Database) : Database :=
  mkDatabase m (cart_items d) (wishlist_items d) (orders d) (order_items d)
    (row_order d).

(** ** Asynchronous computations that may throw *)

Inductive Outcome (A : Type) :=
  | Return (a : A)
  | Throw (e : Thrown).
Arguments Return {A} a.
Arguments Throw {A} e.

Definition Async (A : Type) : Type := World → Outcome A * World.

Definition ret {A} (a : A) : Async A := λ w, (Return a, w).
Definition throw {A} (e : Thrown) : Async A := λ w, (Throw e, w).
Definition bind {A B} (m : Async A) (k : A → Async B) : Async B :=
  λ w, match m w with
       | (Return a, w') => k a w'
       | (Throw e, w') => (Throw e, w')
       end.

Declare Scope async_scope.
Delimit Scope async_scope with async.
Bind Scope async_scope with Async.
Notation "'let!' x := m 'in' k" := (bind m (λ x, k))
  (at level 10, x binder, m at level 100, k at level 200,
   format "'[v' 'let!'  x  :=  m  'in' '/' k ']'") : async_scope.
Notation "m ;;; k" := (bind m (λ _, k))
  (at level 100, k at level 200, right associativity) : async_scope.
Open Scope async_scope.

(** A pure step of the caller that may throw, run inside [Async]. *)
Definition lift {A} (o : Outcome A) : Async A := λ w, (o, w).

Definition console_error (msg : string) (e : PgError) : Async unit :=
  λ w, (Return (), with_console (console w ++ [(msg, e)]) w).

(** ** Requests to the store *)

(** The [{ data, error }] answer of a request. *)
Inductive Response (A : Type) :=
  | Data (data : A)
  | Error (error : PgError).
Arguments Data {A} data.
Arguments Error {A} error.

(** A statement run by the store for the session [uid]. *)
Definition Sql (A : Type) : Type := option uuid → Database → Response A * Database.

Definition tick (w : World) : World := with_outages (tail (outages w)) w.

(** [await supabase.from(...)...]: never throws; the statement runs unless
    the request is lost. *)
Definition await {A} (q : Sql A) : Async (Response A) :=
  λ w, match head (outages w) with
       | Some true => (Return (Error fetch_failed), tick w)
       | _ => let '(r, d) := q (auth_uid w) (db w) in (Return r, with_db d (tick w))
       end.

(** No request among the next [n] is lost. *)
Definition online (n : nat) (w : World) : Prop :=
  ∀ i, (i < n)%nat → outages w !! i ≠ Some true.

(** ** Column types

    An [integer] column holds a 4-byte integer; a [decimal(10,2)] column,
    counted in hundredths, holds at most ten digits. *)
Definition integer_column (n : Z) : Prop := -2147483648 ≤ n ≤ 2147483647.

Definition decimal_10_2 (hundredths : Z) : Prop :=
  -9999999999 ≤ hundredths ≤ 9999999999.

#[global] Instance integer_column_dec n : Decision (integer_column n).
Proof. unfold integer_column. apply _. Defined.

#[global] Instance decimal_10_2_dec n : Decision (decimal_10_2 n).
Proof. unfold decimal_10_2. apply _. Defined.

(** ** Statements on the user-owned tables

    Each statement first reads the values it is sent into the types of their
    columns, and is refused when one does not fit. It then checks, in the
    order the store does: the row-level policy of the table
    ([auth.uid() = user_id], for the role [authenticated]), the CHECK
    constraints, the UNIQUE constraint and the foreign key to [products]. A
    refused statement changes nothing. *)

(** [FROM products] under the policy "Products are viewable by everyone":
    [USING (is_active = true)]. Foreign keys are checked on [products] itself. *)
Definition visible_products (d : Database) : gmap uuid ProductRow.t :=
  filter (λ kr, ProductRow.is_active kr.2 = true) (products d).

Definition cart_line_of (user_id product_id : uuid) (r : CartRow.t) : Prop :=
  CartRow.user_id r = user_id ∧ CartRow.product_id r = product_id.

Definition wishlist_entry_of (user_id product_id : uuid) (r : WishlistRow.t) : Prop :=
  WishlistRow.user_id r = user_id ∧ WishlistRow.product_id r = product_id.

#[global] Instance cart_line_of_dec u p r : Decision (cart_line_of u p r).
Proof. unfold cart_line_of. apply _. Defined.

#[global] Instance wishlist_entry_of_dec u p r : Decision (wishlist_entry_of u p r).
Proof. unfold wishlist_entry_of. apply _. Defined.

(** [.from('cart_items').insert([{ user_id, product_id, quantity }])] *)
Definition cart_items_insert (user_id product_id : uuid) (quantity : Z) : Sql unit :=
  λ uid d,
  if decide (integer_column quantity) then
    if decide (uid = Some user_id) then
      if decide (0 < quantity) then
        if decide (map_Exists (λ _, cart_line_of user_id product_id) (cart_items d))
        then (Error unique_violation, d)
        else match products d !! product_id with
             | None => (Error foreign_key_violation, d)
             | Some _ =>
               (Data (),
                with_cart_items
                  (<[fresh (dom (cart_items d)) := CartRow.mk user_id product_id quantity]>
                     (cart_items d)) d)
             end
      else (Error check_violation, d)
    else (Error insufficient_privilege, d)
  else (Error value_out_of_range, d).

(** [.from('cart_items').update({ quantity }).eq('id', itemId)]: a row that
    is absent or hidden by the policy is not updated, without error. *)
Definition cart_items_update (itemId : uuid) (quantity : Z) : Sql unit :=
  λ uid d,
  if decide (integer_column quantity) then
    match cart_items d !! itemId with
    | Some r =>
      if decide (uid = Some (CartRow.user_id r)) then
        if decide (0 < quantity) then
          (Data (),
           with_cart_items
             (<[itemId := CartRow.mk (CartRow.user_id r) (CartRow.product_id r) quantity]>
                (cart_items d)) d)
        else (Error check_violation, d)
      else (Data (), d)
    | None => (Data (), d)
    end
  else (Error value_out_of_range, d).

(** [.from('cart_items').delete().eq('id', itemId)] *)
Definition cart_items_delete_id (itemId : uuid) : Sql unit :=
  λ uid d,
  match cart_items d !! itemId with
  | Some r =>
    if decide (uid = Some (CartRow.user_id r))
    then (Data (), with_cart_items (delete itemId (cart_items d)) d)
    else (Data (), d)
  | None => (Data (), d)
  end.

(** [.from('cart_items').delete().eq('user_id', userId)] *)
Definition cart_items_delete_user (userId : uuid) : Sql unit :=
  λ uid d,
  (Data (),
   with_cart_items
     (filter (λ kr, ¬ (CartRow.user_id kr.2 = userId ∧ uid = Some (CartRow.user_id kr.2)))
        (cart_items d)) d).

(** [.from('cart_items').select(`*, products (...)`).eq('user_id', userId)]:
    the embedded product is [null] when the policy on [products] hides it. *)
Definition cart_item_of (d : Database) (kr : uuid * CartRow.t) : CartItem.t :=
  CartItem.mk kr.1 (CartRow.user_id kr.2) (CartRow.product_id kr.2) (CartRow.quantity kr.2)
    (JoinedProduct.of_row (CartRow.product_id kr.2)
       <$> visible_products d !! CartRow.product_id kr.2).

Definition cart_items_select (userId : uuid) : Sql (list CartItem.t) :=
  λ uid d,
  (Data (cart_item_of d <$>
           map_to_list
             (filter (λ kr, CartRow.user_id kr.2 = userId ∧ uid = Some (CartRow.user_id kr.2))
                (cart_items d))), d).

(** [.from('wishlist_items').insert([{ user_id, product_id }])] *)
Definition wishlist_items_insert (user_id product_id : uuid) : Sql unit :=
  λ uid d,
  if decide (uid = Some user_id) then
    if decide (map_Exists (λ _, wishlist_entry_of user_id product_id) (wishlist_items d))
    then (Error unique_violation, d)
    else match products d !! product_id with
         | None => (Error foreign_key_violation, d)
         | Some _ =>
           (Data (),
            with_wishlist_items
              (<[fresh (dom (wishlist_items d)) := WishlistRow.mk user_id product_id]>
                 (wishlist_items d)) d)
         end
  else (Error insufficient_privilege, d).

(** [.from('wishlist_items').delete().eq('user_id', u).eq('product_id', p)] *)
Definition wishlist_items_delete (userId productId : uuid) : Sql unit :=
  λ uid d,
  (Data (),
   with_wishlist_items
     (filter (λ kr, ¬ (wishlist_entry_of userId productId kr.2
                       ∧ uid = Some (WishlistRow.user_id kr.2)))
        (wishlist_items d)) d).

(** [.from('wishlist_items').select('id').eq(...).eq(...).single()] *)
Definition wishlist_items_select_single (userId productId : uuid) : Sql uuid :=
  λ uid d,
  match map_to_list
          (filter (λ kr, wishlist_entry_of userId productId kr.2
                         ∧ uid = Some (WishlistRow.user_id kr.2))
             (wishlist_items d)) with
  | [kr] => (Data kr.1, d)
  | _ => (Error no_single_row, d)
  end.

(** [.from('orders').insert([row]).select().single()]: the inserted row comes
    back with its generated [id]. *)
Definition orders_insert (r : OrderRow.t) : Sql Order.t :=
  λ uid d,
  if decide (decimal_10_2 (OrderRow.total_amount r)) then
    if decide (uid = Some (OrderRow.user_id r)) then
      if decide (0 < OrderRow.total_amount r) then
        let i := fresh (dom (orders d)) in
        (Data (Order.mk i (OrderRow.user_id r) (OrderRow.total_amount r)
                 (OrderRow.status r) (OrderRow.shipping_address r) None),
         with_orders (<[i := r]> (orders d)) d)
      else (Error check_violation, d)
    else (Error insufficient_privilege, d)
  else (Error value_out_of_range, d).

(** Why the store refuses one row of [order_items], if it does. The policy
    is [auth.uid() IN (SELECT user_id FROM orders WHERE orders.id = order_id)]. *)
Definition order_item_violation (uid : option uuid) (d : Database)
    (r : OrderItemRow.t) : option PgError :=
  if decide (integer_column (OrderItemRow.quantity r)
             ∧ decimal_10_2 (OrderItemRow.price r)) then
    match orders d !! OrderItemRow.order_id r with
    | Some o =>
      if decide (uid = Some (OrderRow.user_id o)) then
        if decide (0 < OrderItemRow.quantity r ∧ 0 < OrderItemRow.price r) then
          match products d !! OrderItemRow.product_id r with
          | Some _ => None
          | None => Some foreign_key_violation
          end
        else Some check_violation
      else Some insufficient_privilege
    | None => Some insufficient_privilege
    end
  else Some value_out_of_range.

(** Rows inserted one after the other, each under a new [id]. *)
Fixpoint insert_rows {A} (rows : list A) (m : gmap uuid A) : gmap uuid A :=
  match rows with
  | [] => m
  | r :: rows => insert_rows rows (<[fresh (dom m) := r]> m)
  end.

(** [.from('order_items').insert(orderItems)]: one statement, all rows or none. *)
Definition order_items_insert (rows : list OrderItemRow.t) : Sql unit :=
  λ uid d,
  match head (omap (order_item_violation uid d) rows) with
  | Some e => (Error e, d)
  | None => (Data (), with_order_items (insert_rows rows (order_items d)) d)
  end.

(** [.from('orders').select(...).eq('id', orderId).single()], selecting every
    column of the order, every column of its [order_items] and, for each of
    them, [products (id, name, image_url, price)]. *)
Definition order_item_of (d : Database) (kr : uuid * OrderItemRow.t) : OrderItem.t :=
  OrderItem.mk kr.1 (OrderItemRow.order_id kr.2) (OrderItemRow.product_id kr.2)
    (OrderItemRow.quantity kr.2) (OrderItemRow.price kr.2)
    (OrderProduct.of_row (OrderItemRow.product_id kr.2)
       <$> visible_products d !! OrderItemRow.product_id kr.2).

Definition orders_select_single (orderId : uuid) : Sql Order.t :=
  λ uid d,
  match orders d !! orderId with
  | Some o =>
    if decide (uid = Some (OrderRow.user_id o)) then
      (Data (Order.mk orderId (OrderRow.user_id o) (OrderRow.total_amount o)
               (OrderRow.status o) (OrderRow.shipping_address o)
               (Some (order_item_of d <$>
                        map_to_list
                          (filter (λ kr, OrderItemRow.order_id kr.2 = orderId)
                             (order_items d))))), d)
    else (Error no_single_row, d)
  | None => (Error no_single_row, d)
  end.

(** ** Pattern matching of [ILIKE]

    Strings are lists of characters. [%] stands for any string, [_] for any
    one character, [\] makes the next character literal; a pattern must not
    end with a lone [\]. [ILIKE] compares the lower-cased string with the
    lower-cased pattern. In a filter sent to the store [*] is another
    spelling of [%]. The letters [lower_char] folds are those of ASCII; how
    the store folds the other characters depends on its locale, and the
    properties of a search are stated for ASCII text only. *)

Inductive LikeItem := any_string | any_char | literal (c : ascii).

Fixpoint like_compile (p : list ascii) : option (list LikeItem) :=
  match p with
  | [] => Some []
  | c :: p' =>
    if decide (c = "%"%char) then (any_string ::.) <$> like_compile p'
    else if decide (c = "_"%char) then (any_char ::.) <$> like_compile p'
    else if decide (c = "\"%char) then
      match p' with
      | [] => None
      | c' :: p'' => (literal c' ::.) <$> like_compile p''
      end
    else (literal c ::.) <$> like_compile p'
  end.

(** All the suffixes of a string, the string itself first. *)
Fixpoint tails (s : list ascii) : list (list ascii) :=
  s :: match s with [] => [] | _ :: s' => tails s' end.

Fixpoint like_match (p : list LikeItem) (s : list ascii) : bool :=
  match p with
  | [] => match s with [] => true | _ => false end
  | any_string :: p' => existsb (like_match p') (tails s)
  | any_char :: p' =>
    match s with _ :: s' => like_match p' s' | [] => false end
  | literal c :: p' =>
    match s with c' :: s' => bool_decide (c = c') && like_match p' s' | [] => false end
  end.

Definition lower_char (c : ascii) : ascii :=
  let n := N_of_ascii c in
  if ((65 <=? n) && (n <=? 90))%N then ascii_of_N (n + 32) else c.

Definition lower (s : list ascii) : list ascii := lower_char <$> s.

Definition star_to_percent (c : ascii) : ascii :=
  if decide (c = "*"%char) then "%"%char else c.

(** The pattern of [column ILIKE pattern] as the store reads it, if it is
    well formed, and the comparison itself. *)
Definition ilike_pattern (pattern : string) : option (list LikeItem) :=
  like_compile (lower (star_to_percent <$> String.list_ascii_of_string pattern)).

Definition ilike (pattern : string) (column : string) : bool :=
  match ilike_pattern pattern with
  | Some p => like_match p (lower (String.list_ascii_of_string column))
  | None => false
  end.

(** ** Queries on [products] *)

Definition filter_well_formed (f : Filter) : bool :=
  match f with
  | or_name_ilike_description_ilike pn pd =>
    bool_decide (is_Some (ilike_pattern pn)) && bool_decide (is_Some (ilike_pattern pd))
  | _ => true
  end.

Definition filter_holds (f : Filter) (kr : uuid * ProductRow.t) : bool :=
  match f with
  | eq_id v => bool_decide (kr.1 = v)
  | eq_is_active v => bool_decide (ProductRow.is_active kr.2 = v)
  | eq_category_id v => bool_decide (ProductRow.category_id kr.2 = Some v)
  | gte_price v => bool_decide (v ≤ ProductRow.price kr.2)
  | lte_price v => bool_decide (ProductRow.price kr.2 ≤ v)
  | or_name_ilike_description_ilike pn pd =>
    ilike pn (ProductRow.name kr.2) || ilike pd (ProductRow.description kr.2)
  end.

(** The rows of [products] a query sees: those the policy shows and every
    filter accepts. *)
Definition products_where (query : list Filter) (d : Database) : list (uuid * ProductRow.t) :=
  filter (λ kr, forallb (λ f, filter_holds f kr) query = true)
    (map_to_list (visible_products d)).

Definition newer_first (a b : uuid * ProductRow.t) : Prop :=
  ProductRow.created_at b.2 ≤ ProductRow.created_at a.2.

(** [ORDER BY created_at DESC] as the store runs it: the newer row first,
    and of two rows created at the same instant the one the store ranks
    lower for this statement. *)
Definition listed_before (rank : uuid → nat) (a b : uuid * ProductRow.t) : Prop :=
  ProductRow.created_at b.2 < ProductRow.created_at a.2
  ∨ (ProductRow.created_at a.2 = ProductRow.created_at b.2 ∧ (rank a.1 ≤ rank b.1)%nat).

#[global] Instance listed_before_dec rank a b : Decision (listed_before rank a b).
Proof. unfold listed_before. apply _. Defined.

#[local] Instance listed_before_transitive rank : Transitive (listed_before rank).
Proof. intros a b c. unfold listed_before. lia. Qed.

#[local] Instance listed_before_total rank : Total (listed_before rank).
Proof. intros a b. unfold listed_before. lia. Qed.

(** [query.order('created_at', { ascending: false })], with [.limit(n)] when
    a limit is given. *)
Definition products_select (query : list Filter) (limit : option nat) : Sql (list Product.t) :=
  λ uid d,
  if forallb filter_well_formed query then
    let rows :=
      merge_sort (listed_before (row_order d query limit)) (products_where query d) in
    let rows := match limit with Some n => take n rows | None => rows end in
    (Data (uncurry Product.of_row <$> rows), d)
  else (Error invalid_escape_sequence, d).

(** [query.single()] *)
Definition products_select_single (query : list Filter) : Sql Product.t :=
  λ uid d,
  if forallb filter_well_formed query then
    match products_where query d with
    | [kr] => (Data (uncurry Product.of_row kr), d)
    | _ => (Error no_single_row, d)
    end
  else (Error invalid_escape_sequence, d).

(** ** [ProductService] *)

(** JavaScript truthiness of an optional string: [undefined] and the empty
    string are falsy. *)
Definition truthy (s : option string) : option string :=
  match s with
  | Some v => if decide (v = EmptyString) then None else Some v
  | None => None
  end.

Definition getProducts (filters : FilterOptions.t) : Async (list Product.t) :=
  let query := [eq_is_active true] in
  let query :=
    match truthy (FilterOptions.category filters) with
    | Some category => query ++ [eq_category_id category]
    | None => query
    end in
  let query :=
    match FilterOptions.minPrice filters with
    | Some minPrice => query ++ [gte_price minPrice]
    | None => query
    end in
  let query :=
    match FilterOptions.maxPrice filters with
    | Some maxPrice => query ++ [lte_price maxPrice]
    | None => query
    end in
  let query :=
    match truthy (FilterOptions.search filters) with
    | Some search =>
      query ++ [or_name_ilike_description_ilike
                  ("%" +:+ search +:+ "%") ("%" +:+ search +:+ "%")]
    | None => query
    end in
  let! r := await (products_select query None) in
  match r with
  | Error error =>
    console_error "Error fetching products:" error;;;
    throw (PostgrestError error)
  | Data data => ret data
  end.

Definition getProductById (id : uuid) : Async (option Product.t) :=
  let! r := await (products_select_single [eq_id id; eq_is_active true]) in
  match r with
  | Error error =>
    console_error "Error fetching product:" error;;;
    ret None
  | Data data => ret (Some data)
  end.

Definition getFeaturedProducts (limit : nat) : Async (list Product.t) :=
  let! r := await (products_select [eq_is_active true] (Some limit)) in
  match r with
  | Error error =>
    console_error "Error fetching featured products:" error;;;
    throw (PostgrestError error)
  | Data data => ret data
  end.

(** ** [WishlistService] *)

Definition addToWishlist (userId productId : uuid) : Async unit :=
  let! r := await (wishlist_items_insert userId productId) in
  match r with
  | Error error =>
    console_error "Error adding to wishlist:" error;;;
    throw (PostgrestError error)
  | Data _ => ret ()
  end.

Definition removeFromWishlist (userId productId : uuid) : Async unit :=
  let! r := await (wishlist_items_delete userId productId) in
  match r with
  | Error error =>
    console_error "Error removing from wishlist:" error;;;
    throw (PostgrestError error)
  | Data _ => ret ()
  end.

Definition isInWishlist (userId productId : uuid) : Async bool :=
  let! r := await (wishlist_items_select_single userId productId) in
  match r with
  | Error error => ret false
  | Data data => ret true
  end.

(** ** [OrderService] *)

(** [array.reduce(f, init)] and [array.map(f)] for a callback that may throw. *)
Fixpoint reduce {A B} (f : B → A → Outcome B) (init : B) (l : list A) : Outcome B :=
  match l with
  | [] => Return init
  | x :: l' =>
    match f init x with
    | Return b => reduce f b l'
    | Throw e => Throw e
    end
  end.

Fixpoint map_throwing {A B} (f : A → Outcome B) (l : list A) : Outcome (list B) :=
  match l with
  | [] => Return []
  | x :: l' =>
    match f x with
    | Return y =>
      match map_throwing f l' with
      | Return ys => Return (y :: ys)
      | Throw e => Throw e
      end
    | Throw e => Throw e
    end
  end.

(** [item.products.price]: a [TypeError] when the embedded product is absent. *)
Definition products_price (item : CartItem.t) : Outcome Z :=
  match CartItem.products item with
  | Some p => Return (JoinedProduct.price p)
  | None => Throw TypeError
  end.

Definition createOrder (userId : uuid) (cartItems : list CartItem.t)
    (shippingAddress : ShippingAddress.t) : Async uuid :=
  let! totalAmount :=
    lift (reduce (λ sum item,
                    match products_price item with
                    | Return price => Return (sum + price * CartItem.quantity item)
                    | Throw e => Throw e
                    end) 0 cartItems) in
  let! r := await (orders_insert (OrderRow.mk userId totalAmount pending shippingAddress)) in
  match r with
  | Error orderError =>
    console_error "Error creating order:" orderError;;;
    throw (PostgrestError orderError)
  | Data order =>
    let! orderItems :=
      lift (map_throwing (λ item,
                            match products_price item with
                            | Return price =>
                              Return (OrderItemRow.mk (Order.id order)
                                        (CartItem.product_id item)
                                        (CartItem.quantity item) price)
                            | Throw e => Throw e
                            end) cartItems) in
    let! r := await (order_items_insert orderItems) in
    match r with
    | Error itemsError =>
      console_error "Error creating order items:" itemsError;;;
      throw (PostgrestError itemsError)
    | Data _ =>
      let! r := await (cart_items_delete_user userId) in
      match r with
      | Error cartError => console_error "Error clearing cart:" cartError
      | Data _ => ret ()
      end;;;
      ret (Order.id order)
    end
  end.

Definition getOrderById (orderId : uuid) : Async (option Order.t) :=
  let! r := await (orders_select_single orderId) in
  match r with
  | Error error =>
    console_error "Error fetching order:" error;;;
    ret None
  | Data data => ret (Some data)
  end.

(** ** [CartProvider] of [CartContext] *)

Definition setCartItems (l : list CartItem.t) : Async unit :=
  λ w, (Return (), with_cartItems l w).
Definition setLoading (b : bool) : Async unit :=
  λ w, (Return (), with_loading b w).
Definition useAuth_user : Async (option uuid) :=
  λ w, (Return (auth_uid w), w).
Definition useState_cartItems : Async (list CartItem.t) :=
  λ w, (Return (cartItems w), w).

Definition loadCartItems : Async unit :=
  let! user := useAuth_user in
  match user with
  | None => ret ()
  | Some user_id =>
    setLoading true;;;
    let! r := await (cart_items_select user_id) in
    match r with
    | Error error => console_error "Error loading cart items:" error
    | Data data => setCartItems data
    end;;;
    setLoading false
  end.

Definition removeFromCart (itemId : uuid) : Async unit :=
  let! r := await (cart_items_delete_id itemId) in
  match r with
  | Error error =>
    console_error "Error removing from cart:" error;;;
    throw (PostgrestError error)
  | Data _ => loadCartItems
  end.

Definition updateCartItem (itemId : uuid) (quantity : Z) : Async unit :=
  if decide (quantity ≤ 0) then removeFromCart itemId
  else
    let! r := await (cart_items_update itemId quantity) in
    match r with
    | Error error =>
      console_error "Error updating cart item:" error;;;
      throw (PostgrestError error)
    | Data _ => loadCartItems
    end.

(** [addToCart(productId, quantity = 1)]; see [addToCart_default] for the
    call without a quantity. *)
Definition addToCart (productId : uuid) (quantity : Z) : Async unit :=
  let! user := useAuth_user in
  match user with
  | None => throw (JsError "Must be logged in to add items to cart")
  | Some user_id =>
    let! cartItems := useState_cartItems in
    let existingItem :=
      find (λ item, bool_decide (CartItem.product_id item = productId)) cartItems in
    match existingItem with
    | Some existingItem =>
      updateCartItem (CartItem.id existingItem)
        (CartItem.quantity existingItem + quantity)
    | None =>
      let! r := await (cart_items_insert user_id productId quantity) in
      match r with
      | Error error =>
        console_error "Error adding to cart:" error;;;
        throw (PostgrestError error)
      | Data _ => loadCartItems
      end
    end
  end.

Definition addToCart_default (productId : uuid) : Async unit :=
  addToCart productId 1.

Definition clearCart : Async unit :=
  let! user := useAuth_user in
  match user with
  | None => ret ()
  | Some user_id =>
    let! r := await (cart_items_delete_user user_id) in
    match r with
    | Error error =>
      console_error "Error clearing cart:" error;;;
      throw (PostgrestError error)
    | Data _ => setCartItems []
    end
  end.

(** JavaScript numbers are IEEE 754 binary64 values; [+] and [*] round to
    the nearest number, ties to even. *)
Definition number : Type := spec_float.

Definition number_add : number → number → number := SFadd 53 1024.
Definition number_mul : number → number → number := SFmul 53 1024.

(** The number read from the JSON text of an [integer] column. *)
Definition number_of_Z (z : Z) : number := binary_normalize 53 1024 z 0 false.

(** The number read from the JSON text of a [decimal(10,2)] column holding
    [c] hundredths: the number nearest to [c / 100] (the hundredths of such a
    column are below [2 ^ 53], so [number_of_Z c] is exact and the rounded
    quotient is that nearest number). *)
Definition number_of_cents (c : Z) : number :=
  SFdiv 53 1024 (number_of_Z c) (number_of_Z 100).

(** The numbers [||] skips: the zeros and [NaN]. *)
Definition falsy (x : number) : bool :=
  match x with
  | S754_zero _ | S754_nan => true
  | _ => false
  end.

(** [item.products?.price || 0]: the right operand when the left one is
    [undefined] or falsy. *)
Definition or_zero (v : option number) : number :=
  match v with
  | Some p => if falsy p then number_of_Z 0 else p
  | None => number_of_Z 0
  end.

(** [reduce] over integers that stay far below [2 ^ 53] is exact. *)
Definition totalItems (cartItems : list CartItem.t) : Z :=
  foldl (λ sum item, sum + CartItem.quantity item) 0 cartItems.

(** [item.products?.price] *)
Definition products_optional_price (item : CartItem.t) : option number :=
  number_of_cents <$> (JoinedProduct.price <$> CartItem.products item).

Definition totalAmount (cartItems : list CartItem.t) : number :=
  foldl (λ sum item,
           let price := or_zero (products_optional_price item) in
           number_add sum (number_mul price (number_of_Z (CartItem.quantity item))))
    (number_of_Z 0) cartItems.

(** ** What the claims speak of *)

(** The sum of a list of amounts. *)
Definition sumZ (l : list Z) : Z := foldr Z.add 0 l.

(** The lines [loadCartItems] would read for the signed-in user. *)
Definition cart_view (w : World) : list CartItem.t :=
  match auth_uid w with
  | Some u =>
    cart_item_of (db w) <$>
      map_to_list
        (filter (λ kr, CartRow.user_id kr.2 = u ∧ auth_uid w = Some (CartRow.user_id kr.2))
           (cart_items (db w)))
  | None => []
  end.

(** The React state shows the user's cart as the store has it. *)
Definition synced (w : World) : Prop := cartItems w = cart_view w.

(** A change of a product's price by the catalog's administrator, who is not
    subject to the shoppers' policies. *)
Definition reprice (productId : uuid) (newPrice : Z) (d : Database) : Database :=
  with_products
    (alter (λ r, ProductRow.mk (ProductRow.name r) (ProductRow.description r) newPrice
                   (ProductRow.category_id r) (ProductRow.image_url r)
                   (ProductRow.stock_quantity r) (ProductRow.is_active r)
                   (ProductRow.created_at r)) productId (products d)) d.





(** Characters with a meaning of their own in the filter sent for a search:
    the wildcards and the escape of [ILIKE], [*], and the characters reserved
    by the syntax of the [or] filter (comma, dot, colon, parentheses and the
    double quote, character 34). *)
Definition special_char (c : ascii) : Prop :=
  c ∈ ["%"; "_"; "\"; "*"; ","; "."; ":"; "("; ")"; ascii_of_N 34]%char.

Definition plain (s : string) : Prop :=
  Forall (λ c, ¬ special_char c) (String.list_ascii_of_string s).

(** The price a cart line shows: that of its embedded product, [0] when the
    product is absent. *)
Definition present_price_or_0 (item : CartItem.t) : Z :=
  match CartItem.products item with
  | Some p => JoinedProduct.price p
  | None => 0
  end.

(** The totals as the specification words them: the amount is a sum of
    hundredths, shown as the number nearest to it. *)
Definition totalAmount_spec (cartItems : list CartItem.t) : Z :=
  sumZ ((λ item, present_price_or_0 item * CartItem.quantity item) <$> cartItems).

(** The amount accumulated line by line in floating point, each line adding
    the product's price, if the product is present, else 0, times the
    quantity. *)
Definition line_amount (item : CartItem.t) : number :=
  number_mul (number_of_cents (present_price_or_0 item))
    (number_of_Z (CartItem.quantity item)).

Definition totalAmount_accumulated (cartItems : list CartItem.t) : number :=
  foldl (λ sum item, number_add sum (line_amount item)) (number_of_Z 0) cartItems.

(** Numbers that are neither negative nor [NaN]: [+0], the positive numbers
    and [+Infinity]. *)
Definition unsigned_number (sx : bool) (x : number) : Prop :=
  match x with
  | S754_zero s | S754_finite s _ _ | S754_infinity s => s = sx
  | S754_nan => False
  end.

(** Numbers that are not negative: the former and [NaN]. *)
Definition not_negative (x : number) : Prop :=
  match x with
  | S754_zero s | S754_finite s _ _ | S754_infinity s => s = false
  | S754_nan => True
  end.

(** A cart line with a price and a quantity that are not negative, as the
    CHECK constraints of [products] and [cart_items] have them. *)
Definition not_negative_line (item : CartItem.t) : Prop :=
  0 ≤ present_price_or_0 item ∧ 0 ≤ CartItem.quantity item.

Definition totalItems_spec (cartItems : list CartItem.t) : Z :=
  sumZ (CartItem.quantity <$> cartItems).

(** The callbacks [createOrder] passes to [reduce] and to [map]. *)
Definition order_total_step (sum : Z) (item : CartItem.t) : Outcome Z :=
  match products_price item with
  | Return price => Return (sum + price * CartItem.quantity item)
  | Throw e => Throw e
  end.

Definition order_line_step (orderId : uuid) (item : CartItem.t) : Outcome OrderItemRow.t :=
  match products_price item with
  | Return price =>
    Return (OrderItemRow.mk orderId (CartItem.product_id item)
              (CartItem.quantity item) price)
  | Throw e => Throw e
  end.

(** The total and the order lines the specification words: quantity times
    the product's price, and the price copied from the product. *)
Definition order_total_spec (cartItems : list CartItem.t) : Z :=
  sumZ ((λ item, CartItem.quantity item * present_price_or_0 item) <$> cartItems).

Definition order_line_spec (orderId : uuid) (item : CartItem.t) : OrderItemRow.t :=
  OrderItemRow.mk orderId (CartItem.product_id item) (CartItem.quantity item)
    (present_price_or_0 item).

(** A cart line the store can turn into an order line: its product is
    embedded, its quantity and price are positive (the CHECK constraints of
    [cart_items], [products] and [order_items]) and fit their columns
    ([integer] and [decimal(10,2)]), and its [product_id] names a row of
    [products] (the foreign keys). *)
Definition orderable (d : Database) (item : CartItem.t) : Prop :=
  is_Some (CartItem.products item)
  ∧ 0 < CartItem.quantity item ≤ 2147483647
  ∧ 0 < present_price_or_0 item ≤ 9999999999
  ∧ is_Some (products d !! CartItem.product_id item).

(** The [price] fields of the order lines [getOrderById] reads back. *)
Definition read_order_line_prices (orderId : uuid) (w : World) : option (list Z) :=
  match (getOrderById orderId w).1 with
  | Return (Some order) =>
    match Order.order_items order with
    | Some lines => Some (OrderItem.price <$> lines)
    | None => None
    end
  | _ => None
  end.

(** The table [cart_items] once the statement that deletes the lines of
    [userId] has run for [userId]. *)
Definition cleared_cart (userId : uuid) (m : gmap uuid CartRow.t) : gmap uuid CartRow.t :=
  filter (λ kr, ¬ (CartRow.user_id kr.2 = userId
                   ∧ Some userId = Some (CartRow.user_id kr.2))) m.

(** ** A shop to run the operations on

    The cart of the specification's scenario: headphones at 199.99 once and
    a T-shirt at 24.99 twice; a lamp that is no longer active. *)
Module Sample.
Definition headphones : ProductRow.t :=
  ProductRow.mk "Wireless Bluetooth Headphones"
    "High-quality wireless headphones with noise cancellation"
    19999 (Some "electronics") None 50 true 10.
Definition tshirt : ProductRow.t :=
  ProductRow.mk "Casual Cotton T-Shirt"
    "Comfortable 100% cotton t-shirt in various colors"
    2499 (Some "clothing") None 100 true 20.
Definition lamp : ProductRow.t :=
  ProductRow.mk "Modern Table Lamp" "Elegant table lamp with adjustable brightness"
    8999 (Some "home") None 25 false 5.
Definition catalog : gmap uuid ProductRow.t :=
  <["headphones" := headphones]> (<["tshirt" := tshirt]> (<["lamp" := lamp]> ∅)).
Definition address : ShippingAddress.t :=
  ShippingAddress.mk "Alice Doe" "555-0100" "1 Main St" "Springfield" "IL" "62701"
    "United States".
(** Alice is signed in; her cart is empty and so is every other table. *)
Definition shop : World :=
  mkWorld (mkDatabase catalog ∅ ∅ ∅ ∅ no_preference) (Some "alice") [] [] [] false.
Definition cart : list CartItem.t :=
  [ CartItem.mk "line-1" "alice" "headphones" 1
      (Some (JoinedProduct.of_row "headphones" headphones));
    CartItem.mk "line-2" "alice" "tshirt" 2
      (Some (JoinedProduct.of_row "tshirt" tshirt)) ].
(** The same shop with that cart in the store and on the screen. *)
Definition cart_rows : gmap uuid CartRow.t :=
  <["line-1" := CartRow.mk "alice" "headphones" 1]>
    (<["line-2" := CartRow.mk "alice" "tshirt" 2]> ∅).
Definition shop_with_cart : World :=
  mkWorld (mkDatabase catalog cart_rows ∅ ∅ ∅ no_preference) (Some "alice") [] []
    (cart_view (mkWorld (mkDatabase catalog cart_rows ∅ ∅ ∅ no_preference)
                  (Some "alice") [] [] [] false))
    false.
(** The third request of the next operation is lost. *)
Definition shop_losing_third : World :=
  mkWorld (mkDatabase catalog cart_rows ∅ ∅ ∅ no_preference) (Some "alice") [false; false; true] []
    cart false.
(** A cart line whose product the policy on [products] hides. *)
Definition lamp_line : CartItem.t := CartItem.mk "line-3" "alice" "lamp" 1 None.
(** One T-shirt, one pair of jeans and one lamp at the prices of the sample
    data: 24.99, 79.99 and 89.99. *)
Definition three_lines : list CartItem.t :=
  [ CartItem.mk "line-a" "alice" "tshirt" 1
      (Some (JoinedProduct.mk "tshirt" "Casual Cotton T-Shirt" 2499 None 100));
    CartItem.mk "line-b" "alice" "jeans" 1
      (Some (JoinedProduct.mk "jeans" "Premium Denim Jeans" 7999 None 75));
    CartItem.mk "line-c" "alice" "lamp" 1
      (Some (JoinedProduct.mk "lamp" "Modern Table Lamp" 8999 None 25)) ].
End Sample.

(** The constraints of the table [cart_items]: [quantity integer],
    [CHECK (quantity > 0)] and [UNIQUE(user_id, product_id)]. *)
Definition cart_constraints (m : gmap uuid CartRow.t) : Prop :=
  (∀ i r, m !! i = Some r → 0 < CartRow.quantity r ≤ 2147483647)
  ∧ (∀ i j r r', m !! i = Some r → m !! j = Some r' →
       CartRow.user_id r = CartRow.user_id r' →
       CartRow.product_id r = CartRow.product_id r' → i = j).

(** The constraint [UNIQUE(user_id, product_id)] of [wishlist_items]. *)
Definition wishlist_constraints (m : gmap uuid WishlistRow.t) : Prop :=
  ∀ i j r r', m !! i = Some r → m !! j = Some r' →
    WishlistRow.user_id r = WishlistRow.user_id r' →
    WishlistRow.product_id r = WishlistRow.product_id r' → i = j.

(** The query [getProducts] builds from its filters. *)
Definition getProducts_query (filters : FilterOptions.t) : list Filter :=
  [eq_is_active true]
  ++ match truthy (FilterOptions.category filters) with
     | Some category => [eq_category_id category]
     | None => []
     end
  ++ match FilterOptions.minPrice filters with
     | Some minPrice => [gte_price minPrice]
     | None => []
     end
  ++ match FilterOptions.maxPrice filters with
     | Some maxPrice => [lte_price maxPrice]
     | None => []
     end
  ++ match truthy (FilterOptions.search filters) with
     | Some search =>
       [or_name_ilike_description_ilike
          ("%" +:+ search +:+ "%") ("%" +:+ search +:+ "%")]
     | None => []
     end.


(** No character of [t] is a wildcard or the escape of a pattern. *)
Definition wildcard_free (t : list ascii) : Prop :=
  Forall (λ c, c ≠ "%"%char ∧ c ≠ "_"%char ∧ c ≠ "\"%char) t.

(** [createOrder] has inserted the order and its lines: the total was
    computed, the insert of the order reached the store and was accepted,
    giving [order], and so was the insert of the lines, leaving the store in
    [stored]. *)
Definition order_and_lines_inserted (userId : uuid) (cartItems : list CartItem.t)
    (shippingAddress : ShippingAddress.t) (w : World)
    (order : Order.t) (stored : Database) : Prop :=
  ∃ totalAmount orderItems d,
    reduce order_total_step 0 cartItems = Return totalAmount
    ∧ online 2 w
    ∧ orders_insert (OrderRow.mk userId totalAmount pending shippingAddress)
        (auth_uid w) (db w) = (Data order, d)
    ∧ map_throwing (order_line_step (Order.id order)) cartItems = Return orderItems
    ∧ order_items_insert orderItems (auth_uid w) d = (Data (), stored).

(** ** What a page can ask of the cart provider

    The operations [CartContextType] exposes. The pages call them inside
    [try ... catch] and only log what they throw, so a sequence of calls is
    run whatever each call ends in. *)
Inductive CartCall :=
  | call_addToCart (productId : uuid) (quantity : Z)
  | call_updateCartItem (itemId : uuid) (quantity : Z)
  | call_removeFromCart (itemId : uuid)
  | call_clearCart.

Definition run_call (c : CartCall) : Async unit :=
  match c with
  | call_addToCart productId quantity => addToCart productId quantity
  | call_updateCartItem itemId quantity => updateCartItem itemId quantity
  | call_removeFromCart itemId => removeFromCart itemId
  | call_clearCart => clearCart
  end.

Definition run_calls (cs : list CartCall) (w : World) : World :=
  foldl (λ w c, (run_call c w).2) w cs.

(** Alice's cart is in the store but the provider has not loaded it. *)
Definition shop_not_loaded : World :=
  mkWorld (mkDatabase Sample.catalog Sample.cart_rows ∅ ∅ ∅ no_preference) (Some "alice") [] [] []
    false.

(** Nobody is signed in. *)
Definition shop_signed_out : World :=
  mkWorld (mkDatabase Sample.catalog Sample.cart_rows ∅ ∅ ∅ no_preference) None [] [] [] false.

(** ** The quantity buttons of [CartPage]

    A line whose product is absent is not rendered ([if (!product) return
    null]); a button whose [disabled] attribute holds does not run its
    [onClick]. *)
Definition CartPage_minus (item : CartItem.t) : Async unit :=
  match CartItem.products item with
  | None => ret ()
  | Some product =>
    if decide (CartItem.quantity item ≤ 1) then ret ()
    else updateCartItem (CartItem.id item) (CartItem.quantity item - 1)
  end.

Definition CartPage_plus (item : CartItem.t) : Async unit :=
  match CartItem.products item with
  | None => ret ()
  | Some product =>
    if decide (JoinedProduct.stock_quantity product ≤ CartItem.quantity item) then ret ()
    else updateCartItem (CartItem.id item) (CartItem.quantity item + 1)
  end.

(** ** What [createOrder] may do to the store

    [d'] has the products and the wishlist of [d], every order and order
    line of [d], and every cart line of [d] that is not [userId]'s. *)
Definition order_placed_over (userId : uuid) (d d' : Database) : Prop :=
  products d' = products d
  ∧ wishlist_items d' = wishlist_items d
  ∧ orders d ⊆ orders d'
  ∧ order_items d ⊆ order_items d'
  ∧ (∀ i r, cart_items d !! i = Some r → CartRow.user_id r ≠ userId →
       cart_items d' !! i = Some r).

(** The foreign key of [order_items] to [orders]. *)
Definition order_items_reference_orders (d : Database) : Prop :=
  ∀ i r, order_items d !! i = Some r → is_Some (orders d !! OrderItemRow.order_id r).

(** The columns of an order line as read back, without its [id] and its
    embedded product. *)
Definition order_item_columns (line : OrderItem.t) : OrderItemRow.t :=
  OrderItemRow.mk (OrderItem.order_id line) (OrderItem.product_id line)
    (OrderItem.quantity line) (OrderItem.price line).

(** Alice's shop with her cart on the screen, the second request of the next
    operation being lost. *)
Definition shop_losing_second : World :=
  mkWorld (mkDatabase Sample.catalog Sample.cart_rows ∅ ∅ ∅ no_preference) (Some "alice")
    [false; true] [] Sample.cart false.

(** The same shop, every request going through. *)
Definition shop_at_checkout : World :=
  mkWorld (mkDatabase Sample.catalog Sample.cart_rows ∅ ∅ ∅ no_preference) (Some "alice")
    [] [] Sample.cart false.

(** ** [CheckoutPage]: the [handleSubmit] of the order form

    The page has its own [loading] flag; [location] is the last route the
    handler has navigated to, and [console] what the handler's own
    [console.error] has printed (it prints whatever was thrown). *)
Module CheckoutPage.
Record t := mk {
  world : World;
  loading : bool;
  location : option string;
  console : list (string * Thrown) }.
End CheckoutPage.

Definition CheckoutPage_handleSubmit (shippingAddress : ShippingAddress.t)
    (p : CheckoutPage.t) : CheckoutPage.t :=
  let w := CheckoutPage.world p in
  match auth_uid w with
  | None => p
  | Some user_id =>
    let p := CheckoutPage.mk w true (CheckoutPage.location p) (CheckoutPage.console p) in
    let p :=
      match (let! orderId := createOrder user_id (cartItems w) shippingAddress in
             clearCart;;;
             ret orderId) w with
      | (Return orderId, w') =>
        CheckoutPage.mk w' (CheckoutPage.loading p) (Some ("/orders/" +:+ orderId))
          (CheckoutPage.console p)
      | (Throw error, w') =>
        CheckoutPage.mk w' (CheckoutPage.loading p) (CheckoutPage.location p)
          (CheckoutPage.console p ++ [("Error creating order:"%string, error)])
      end in
    CheckoutPage.mk (CheckoutPage.world p) false (CheckoutPage.location p)
      (CheckoutPage.console p)
  end.

(** The checkout page of Alice's shop, before the form is submitted; in the
    second one the fourth request of the submission is lost. *)
Definition checkout_page : CheckoutPage.t :=
  CheckoutPage.mk shop_at_checkout false None [].

Definition checkout_page_losing_fourth : CheckoutPage.t :=
  CheckoutPage.mk
    (mkWorld (mkDatabase Sample.catalog Sample.cart_rows ∅ ∅ ∅ no_preference) (Some "alice")
       [false; false; false; true] [] Sample.cart false)
    false None [].

(** ** [ProductCard]: the heart button

    The card of one product, rendered without the optional
    [onWishlistChange] callback. [console] is what the card's own
    [console.error] has printed. *)
Module ProductCard.
Record t := mk {
  world : World;
  product_id : uuid;
  isInWishlist : bool;
  isLoading : bool;
  console : list (string * Thrown) }.
End ProductCard.

Definition ProductCard_checkWishlistStatus (c : ProductCard.t) : ProductCard.t :=
  match auth_uid (ProductCard.world c) with
  | None => c
  | Some user_id =>
    match isInWishlist user_id (ProductCard.product_id c) (ProductCard.world c) with
    | (Return inWishlist, w') =>
      ProductCard.mk w' (ProductCard.product_id c) inWishlist (ProductCard.isLoading c)
        (ProductCard.console c)
    | (Throw error, w') =>
      ProductCard.mk w' (ProductCard.product_id c) (ProductCard.isInWishlist c)
        (ProductCard.isLoading c)
        (ProductCard.console c ++ [("Error checking wishlist status:"%string, error)])
    end
  end.

Definition ProductCard_handleWishlistToggle (c : ProductCard.t) : ProductCard.t :=
  match auth_uid (ProductCard.world c) with
  | None => c
  | Some user_id =>
    match (if ProductCard.isInWishlist c
           then removeFromWishlist user_id (ProductCard.product_id c);;; ret false
           else addToWishlist user_id (ProductCard.product_id c);;; ret true)
            (ProductCard.world c) with
    | (Return inWishlist, w') =>
      ProductCard.mk w' (ProductCard.product_id c) inWishlist false (ProductCard.console c)
    | (Throw error, w') =>
      ProductCard.mk w' (ProductCard.product_id c) (ProductCard.isInWishlist c) false
        (ProductCard.console c ++ [("Error toggling wishlist:"%string, error)])
    end
  end.

(** The store holds a wishlist entry of the user for the product. *)
Definition wishlisted (d : Database) (userId productId : uuid) : Prop :=
  ∃ i r, wishlist_items d !! i = Some r ∧ wishlist_entry_of userId productId r.

(** Alice's card of the t-shirt, not in her wishlist; and the card of the
    t-shirt when it is in her wishlist and the next request is lost. *)
Definition tshirt_card : ProductCard.t :=
  ProductCard.mk Sample.shop "tshirt" false false [].

Definition tshirt_card_wishlisted : ProductCard.t :=
  ProductCard.mk
    (mkWorld (mkDatabase Sample.catalog ∅ (<["wish-1" := WishlistRow.mk "alice" "tshirt"]> ∅)
                ∅ ∅ no_preference)
       (Some "alice") [true] [] [] false)
    "tshirt" false false [].

(** ** [UserService] and the table [user_profiles]

    The table is keyed by the user's identifier. Timestamps are instants:
    [now] is the clock of the store ([DEFAULT now()]), [Date_now] that of the
    browser ([new Date()]). The policies let the role [authenticated] see,
    insert and update the row with [auth.uid() = id] only. *)
Module Address.
Record t := mk {
  street : string; city : string; state : string; postal_code : string;
  country : string }.
End Address.

Module ProfileRow.
Record t := mk {
  full_name : option string; phone : option string; address : option Address.t;
  created_at : Z; updated_at : Z }.
End ProfileRow.

Module UserProfile.
Record t := mk {
  id : uuid; full_name : option string; phone : option string;
  address : option Address.t; created_at : Z; updated_at : Z }.
Definition of_row (i : uuid) (r : ProfileRow.t) : t :=
  mk i (ProfileRow.full_name r) (ProfileRow.phone r) (ProfileRow.address r)
    (ProfileRow.created_at r) (ProfileRow.updated_at r).
End UserProfile.

(** [Partial<Omit<UserProfile, 'id' | 'created_at' | 'updated_at'>>]: [None]
    for a key that is not given. *)
Module ProfileUpdates.
Record t := mk {
  full_name : option string; phone : option string; address : option Address.t }.
End ProfileUpdates.

Module Accounts.
Record t := mk {
  user_profiles : gmap uuid ProfileRow.t;
  auth_uid : option uuid;
  outages : list bool;
  console : list (string * PgError);
  now : Z;
  Date_now : Z }.
Definition tick (a : t) : t :=
  mk (user_profiles a) (auth_uid a) (tail (outages a)) (console a) (now a) (Date_now a).
Definition with_user_profiles (m : gmap uuid ProfileRow.t) (a : t) : t :=
  mk m (auth_uid a) (outages a) (console a) (now a) (Date_now a).
Definition console_error (msg : string) (e : PgError) (a : t) : t :=
  mk (user_profiles a) (auth_uid a) (outages a) (console a ++ [(msg, e)]) (now a)
    (Date_now a).
(** A statement on [user_profiles], run for a session at an instant. *)
Definition Sql (A : Type) : Type :=
  option uuid → Z → gmap uuid ProfileRow.t → Response A * gmap uuid ProfileRow.t.
Definition await {A} (q : Sql A) (a : t) : Response A * t :=
  match head (outages a) with
  | Some true => (Error fetch_failed, tick a)
  | _ =>
    let '(r, m) := q (auth_uid a) (now a) (user_profiles a) in
    (r, with_user_profiles m (tick a))
  end.
End Accounts.

(** [.from('user_profiles').select('*').eq('id', userId).single()] *)
Definition user_profiles_select_single (userId : uuid) : Accounts.Sql UserProfile.t :=
  λ uid _ m,
  match m !! userId with
  | Some r =>
    if decide (uid = Some userId) then (Data (UserProfile.of_row userId r), m)
    else (Error no_single_row, m)
  | None => (Error no_single_row, m)
  end.

(** [.from('user_profiles').insert([{ id: userId }]).select().single()] *)
Definition user_profiles_insert (userId : uuid) : Accounts.Sql UserProfile.t :=
  λ uid now m,
  if decide (uid = Some userId) then
    match m !! userId with
    | Some _ => (Error unique_violation, m)
    | None =>
      let r := ProfileRow.mk None None None now now in
      (Data (UserProfile.of_row userId r), <[userId := r]> m)
    end
  else (Error insufficient_privilege, m).

(** [.from('user_profiles').update({ ...updates, updated_at }).eq('id', userId)
    .select().single()] *)
Definition updated_profile (updates : ProfileUpdates.t) (updated_at : Z)
    (r : ProfileRow.t) : ProfileRow.t :=
  ProfileRow.mk
    (match ProfileUpdates.full_name updates with
     | Some v => Some v
     | None => ProfileRow.full_name r
     end)
    (match ProfileUpdates.phone updates with
     | Some v => Some v
     | None => ProfileRow.phone r
     end)
    (match ProfileUpdates.address updates with
     | Some v => Some v
     | None => ProfileRow.address r
     end)
    (ProfileRow.created_at r) updated_at.

Definition user_profiles_update (userId : uuid) (updates : ProfileUpdates.t)
    (updated_at : Z) : Accounts.Sql UserProfile.t :=
  λ uid _ m,
  match m !! userId with
  | Some r =>
    if decide (uid = Some userId) then
      (Data (UserProfile.of_row userId (updated_profile updates updated_at r)),
       <[userId := updated_profile updates updated_at r]> m)
    else (Error no_single_row, m)
  | None => (Error no_single_row, m)
  end.

Definition UserService_createProfile (userId : uuid) (a : Accounts.t)
    : Outcome (option UserProfile.t) * Accounts.t :=
  match Accounts.await (user_profiles_insert userId) a with
  | (Error error, a') =>
    (Return None, Accounts.console_error "Error creating profile:" error a')
  | (Data data, a') => (Return (Some data), a')
  end.

(** [error.code === 'PGRST116'] is the code of [no_single_row]. *)
Definition UserService_getProfile (userId : uuid) (a : Accounts.t)
    : Outcome (option UserProfile.t) * Accounts.t :=
  match Accounts.await (user_profiles_select_single userId) a with
  | (Error error, a') =>
    match error with
    | no_single_row => UserService_createProfile userId a'
    | _ => (Return None, Accounts.console_error "Error fetching profile:" error a')
    end
  | (Data data, a') => (Return (Some data), a')
  end.

Definition UserService_updateProfile (userId : uuid) (updates : ProfileUpdates.t)
    (a : Accounts.t) : Outcome (option UserProfile.t) * Accounts.t :=
  match Accounts.await
          (user_profiles_update userId updates (Accounts.Date_now a)) a with
  | (Error error, a') =>
    (Throw (PostgrestError error),
     Accounts.console_error "Error updating profile:" error a')
  | (Data data, a') => (Return (Some data), a')
  end.

(** Alice signed in, before her profile exists; and with a profile. *)
Definition alice_account : Accounts.t := Accounts.mk ∅ (Some "alice") [] [] 100 105.

Definition alice_account_with_profile : Accounts.t :=
  Accounts.mk (<["alice" := ProfileRow.mk (Some "Alice") None None 100 100]> ∅)
    (Some "alice") [] [] 200 205.

(** A store in which the headphones and the T-shirt were created at the same
    instant, and which hands them out in one order when the statement has a
    limit and in the other when it has none. *)
Definition twin_catalog : gmap uuid ProductRow.t :=
  <["headphones" := Sample.headphones]>
    (<["tshirt" := ProductRow.mk "Casual Cotton T-Shirt"
                     "Comfortable 100% cotton t-shirt in various colors"
                     2499 (Some "clothing") None 100 true 10]> ∅).

Definition limit_first_tshirt : list Filter → option nat → uuid → nat :=
  λ _ limit i,
  match limit with
  | Some _ => if decide (i = "tshirt") then 0%nat else 1%nat
  | None => if decide (i = "tshirt") then 1%nat else 0%nat
  end.

Definition twin_shop : World :=
  mkWorld (mkDatabase twin_catalog ∅ ∅ ∅ ∅ limit_first_tshirt) (Some "alice") [] [] []
    false.

(** * Properties *)

(** ** Totals of the cart *)

Lemma sumZ_cons (x : Z) (l : list Z) : sumZ (x :: l) = x + sumZ l.
Proof. reflexivity. Qed.

Lemma sumZ_app (l1 l2 : list Z) : sumZ (l1 ++ l2) = sumZ l1 + sumZ l2.
Proof.
  induction l1 as [|x l1 IH]; [done|].
  rewrite <- app_comm_cons, !sumZ_cons, IH. lia.
Qed.

Section Reduce.
Context {A : Type} (f : A → Z).

Lemma foldl_add_sumZ (l : list A) (acc : Z) :
  foldl (λ sum x, sum + f x) acc l = acc + sumZ (f <$> l).
Proof.
  revert acc. induction l as [|x l IH]; intros acc.
  - unfold sumZ; simpl; lia.
  - rewrite fmap_cons, sumZ_cons. simpl. rewrite IH. lia.
Qed.

End Reduce.

(** *** Signs and exact values of numbers *)

Lemma shr_1_nonneg (mrs : shr_record) : 0 ≤ shr_m mrs → 0 ≤ shr_m (shr_1 mrs).
Proof. destruct mrs as [[|[p|p|]|p] r s]; simpl; lia. Qed.

Lemma iter_pos_shr_1_nonneg (n : positive) (mrs : shr_record) :
  0 ≤ shr_m mrs → 0 ≤ shr_m (iter_pos shr_1 n mrs).
Proof.
  revert mrs. induction n as [n IH|n IH|]; intros mrs Hm; simpl.
  - by apply IH, IH, shr_1_nonneg.
  - by apply IH, IH.
  - by apply shr_1_nonneg.
Qed.

Lemma shr_fexp_nonneg (m e : Z) (l : location) :
  0 ≤ m → 0 ≤ shr_m (shr_fexp 53 1024 m e l).1.
Proof.
  intros Hm. unfold shr_fexp, shr.
  assert (0 ≤ shr_m (shr_record_of_loc m l)) by (by destruct l as [|[]]).
  destruct (fexp 53 1024 (Zdigits2 m + e) - e); simpl; [done| |done].
  by apply iter_pos_shr_1_nonneg.
Qed.

Lemma round_nearest_even_nonneg (m : Z) (l : location) :
  0 ≤ m → 0 ≤ round_nearest_even m l.
Proof.
  intros Hm. destruct l as [|[]]; simpl; try done; [|lia].
  destruct (Z.even m); lia.
Qed.

Lemma binary_round_aux_unsigned (sx : bool) (m e : Z) (l : location) :
  0 ≤ m → unsigned_number sx (binary_round_aux 53 1024 sx m e l).
Proof.
  intros Hm. unfold binary_round_aux.
  pose proof (shr_fexp_nonneg m e l Hm) as H1.
  destruct (shr_fexp 53 1024 m e l) as [mrs' e']. simpl in H1.
  pose proof (shr_fexp_nonneg _ e' loc_Exact
                (round_nearest_even_nonneg _ (loc_of_shr_record mrs') H1)) as H2.
  destruct (shr_fexp 53 1024 _ e' loc_Exact) as [mrs'' e'']. simpl in H2.
  destruct (shr_m mrs'') as [|p|p]; [done| |lia].
  by destruct (e'' <=? 1024 - 53).
Qed.

Lemma number_of_Z_unsigned (z : Z) : 0 ≤ z → unsigned_number false (number_of_Z z).
Proof.
  intros Hz. destruct z as [|p|p]; [done| |lia].
  unfold number_of_Z, binary_normalize, binary_round.
  destruct (shl_align _ _ _) as [mz ez]. by apply binary_round_aux_unsigned.
Qed.

Lemma number_of_cents_unsigned (c : Z) :
  0 ≤ c → unsigned_number false (number_of_cents c).
Proof.
  intros Hc. pose proof (number_of_Z_unsigned c Hc) as Hx.
  unfold number_of_cents.
  change (number_of_Z 100) with (S754_finite false 7036874417766400 (-46)).
  destruct (number_of_Z c) as [s|s| |s mx ex]; simpl in Hx; subst; try done.
  unfold SFdiv.
  destruct (SFdiv_core_binary _ _ _ _ _ _) as [[mz ez] lz] eqn:Hdiv.
  apply binary_round_aux_unsigned.
  unfold SFdiv_core_binary in Hdiv.
  set (m' := match _ with Z0 => _ | Zpos _ => _ | Zneg _ => _ end) in Hdiv.
  assert (0 ≤ m') as Hm'.
  { subst m'. destruct (_ - _ - _) as [|s|s]; [done| |done].
    apply Z.shiftl_nonneg. done. }
  pose proof (Z_div_mod m' 7036874417766400 eq_refl) as Hqr.
  destruct (Z.div_eucl m' 7036874417766400) as [q r].
  injection Hdiv as <- _ _. nia.
Qed.

Lemma or_zero_number_of_cents (c : Z) :
  0 ≤ c → or_zero (Some (number_of_cents c)) = number_of_cents c.
Proof.
  intros Hc. pose proof (number_of_cents_unsigned c Hc) as Hx. simpl.
  destruct (number_of_cents c) as [s|s| |s mx ex]; simpl in *; subst; done.
Qed.

Lemma number_mul_not_negative (x y : number) :
  not_negative x → not_negative y → not_negative (number_mul x y).
Proof.
  intros Hx Hy.
  destruct x as [s|s| |s mx ex], y as [t|t| |t my ey]; simpl in *; subst; try done.
  pose proof (binary_round_aux_unsigned false (Z.pos (mx * my)) (ex + ey) loc_Exact) as H.
  destruct (binary_round_aux _ _ _ _ _ _); simpl in *; try done; by apply H.
Qed.

Lemma number_add_not_negative (x y : number) :
  not_negative x → not_negative y → not_negative (number_add x y).
Proof.
  intros Hx Hy.
  destruct x as [s|s| |s mx ex], y as [t|t| |t my ey]; simpl in *; subst; try done.
  generalize (shl_align mx ex (Z.min ex ey)).1 (shl_align my ey (Z.min ex ey)).1.
  intros m1 m2. unfold cond_Zopp, binary_normalize, binary_round.
  change (Z.pos m1 + Z.pos m2) with (Z.pos (m1 + m2)). cbv beta iota.
  destruct (shl_align (m1 + m2) _ _) as [mz ez].
  pose proof (binary_round_aux_unsigned false (Z.pos mz) ez loc_Exact) as H.
  destruct (binary_round_aux _ _ _ _ _ _); simpl in *; try done; by apply H.
Qed.

Lemma unsigned_not_negative (x : number) : unsigned_number false x → not_negative x.
Proof. by destruct x. Qed.

Lemma number_add_zero_r (x : number) :
  not_negative x → number_add x (number_of_Z 0) = x.
Proof. intros Hx. destruct x as [s|s| |s mx ex]; simpl in *; subst; done. Qed.

Lemma digits2_pos_iter_xO (m k : positive) :
  digits2_pos (Pos.iter xO m k) = (digits2_pos m + k)%positive.
Proof.
  induction k as [|k IH] using Pos.peano_ind.
  - simpl. lia.
  - rewrite Pos.iter_succ. simpl. rewrite IH. lia.
Qed.

Lemma digits2_pos_log2 (p : positive) : Z.pos (digits2_pos p) = Z.log2 (Z.pos p) + 1.
Proof.
  assert (∀ q, digits2_pos q = Pos.size q) as Hsize.
  { intros q. induction q; simpl; congruence. }
  destruct p as [p|p|]; simpl; rewrite ?Hsize; lia.
Qed.

Lemma binary_round_aux_exact (sx : bool) (m : positive) (e : Z) :
  Z.pos (digits2_pos m) = 53 → -1074 ≤ e ≤ 971 →
  binary_round_aux 53 1024 sx (Z.pos m) e loc_Exact = S754_finite sx m e.
Proof.
  intros Hd He. unfold binary_round_aux.
  assert (shr_fexp 53 1024 (Z.pos m) e loc_Exact
          = ({| shr_m := Z.pos m; shr_r := false; shr_s := false |}, e)) as Hshr.
  { unfold shr_fexp, fexp, emin. cbn [Zdigits2]. rewrite Hd.
    replace (Z.max (53 + e - 53) (3 - 1024 - 53) - e) with 0 by lia. done. }
  rewrite Hshr. cbn [shr_m loc_of_shr_record round_nearest_even]. rewrite Hshr.
  cbn [shr_m]. by rewrite Zle_imp_le_bool by lia.
Qed.

Lemma number_of_Z_finite (z : Z) :
  0 < z < 2 ^ 53 → ∃ m e, number_of_Z z = S754_finite false m e.
Proof.
  intros Hz. destruct z as [|p|p]; [lia| |lia].
  assert (Z.pos (digits2_pos p) ≤ 53) as Hd.
  { rewrite digits2_pos_log2.
    pose proof (proj1 (Z.log2_lt_pow2 (Z.pos p) 53 ltac:(lia)) ltac:(lia)). lia. }
  unfold number_of_Z, binary_normalize, binary_round, shl_align, fexp, emin.
  replace (Z.max (Z.pos (digits2_pos p) + 0 - 53) (3 - 1024 - 53) - 0)
    with (Z.pos (digits2_pos p) - 53) by lia.
  destruct (Z.pos (digits2_pos p) - 53) as [|d|d] eqn:Hsub; [|lia|].
  - rewrite binary_round_aux_exact by lia. eauto.
  - replace (Z.max (Z.pos (digits2_pos p) + 0 - 53) (3 - 1024 - 53))
      with (Z.neg d) by lia.
    rewrite binary_round_aux_exact; [eauto| |lia].
    rewrite digits2_pos_iter_xO. lia.
Qed.

Lemma number_mul_zero_l (z : Z) :
  0 ≤ z < 2 ^ 53 → number_mul (number_of_Z 0) (number_of_Z z) = number_of_Z 0.
Proof.
  intros Hz. destruct (decide (z = 0)) as [->|]; [done|].
  destruct (number_of_Z_finite z) as (m & e & ->); [lia|done].
Qed.

(** *** The two totals *)

Lemma or_zero_products_optional_price (item : CartItem.t) :
  0 ≤ present_price_or_0 item →
  or_zero (products_optional_price item) = number_of_cents (present_price_or_0 item).
Proof.
  unfold products_optional_price, present_price_or_0.
  destruct (CartItem.products item) as [p|]; [|done].
  apply or_zero_number_of_cents.
Qed.

Lemma totalAmount_step_not_negative (sum : number) (item : CartItem.t) :
  not_negative sum → not_negative_line item →
  not_negative (number_add sum
                  (number_mul (or_zero (products_optional_price item))
                     (number_of_Z (CartItem.quantity item)))).
Proof.
  intros Hsum [Hp Hq]. rewrite or_zero_products_optional_price by done.
  apply number_add_not_negative; [done|].
  apply number_mul_not_negative; apply unsigned_not_negative.
  - by apply number_of_cents_unsigned.
  - by apply number_of_Z_unsigned.
Qed.

Lemma totalAmount_not_negative (cartItems : list CartItem.t) :
  Forall not_negative_line cartItems → not_negative (totalAmount cartItems).
Proof.
  unfold totalAmount. assert (not_negative (number_of_Z 0)) as Hacc by done.
  revert Hacc. generalize (number_of_Z 0).
  induction cartItems as [|item l IH]; intros acc Hacc Hall; [done|].
  apply Forall_cons in Hall as [Hitem Hall]. simpl.
  apply IH; [|done]. by apply totalAmount_step_not_negative.
Qed.

Lemma totalAmount_accumulates (cartItems : list CartItem.t) :
  Forall (λ item, 0 ≤ present_price_or_0 item) cartItems →
  totalAmount cartItems = totalAmount_accumulated cartItems.
Proof.
  unfold totalAmount, totalAmount_accumulated. generalize (number_of_Z 0).
  induction cartItems as [|item l IH]; intros acc Hall; [done|].
  apply Forall_cons in Hall as [Hitem Hall]. simpl.
  rewrite or_zero_products_optional_price by done. by apply IH.
Qed.

Lemma totalItems_eq_spec (cartItems : list CartItem.t) :
  totalItems cartItems = totalItems_spec cartItems.
Proof.
  unfold totalItems, totalItems_spec.
  rewrite (foldl_add_sumZ CartItem.quantity). lia.
Qed.

(** C10 as stated does not hold: [totalAmount] is not the sum of the lines'
    amounts. The sum of 24.99, 79.99 and 89.99 is 194.97; added from left to
    right in floating point they give 194.96999999999997, the number just
    below the one nearest to 194.97. *)
Lemma totalAmount_differs_from_exact_sum :
  totalAmount_spec Sample.three_lines = 19497
  ∧ totalAmount Sample.three_lines = S754_finite false 6859897026159574 (-45)
  ∧ number_of_cents 19497 = S754_finite false 6859897026159575 (-45)
  ∧ totalAmount Sample.three_lines
    ≠ number_of_cents (totalAmount_spec Sample.three_lines).
Proof. vm_compute. split_and!; [reflexivity..|]. intros [=]. Qed.

(** C10, amended. [totalAmount] is computed in floating point: for cart
    lines whose prices are not negative it is the amount accumulated from
    left to right, starting from 0, of (the product's price if the product is
    present, else 0) times the quantity, each sum and product rounded to the
    nearest number; [totalItems] is the sum of the quantities. A line whose
    product is absent, with a quantity that is not negative and below
    [2 ^ 53], adds its full quantity to the item count and leaves the amount
    as it is without that line, the lines before it having prices and
    quantities that are not negative. *)
Theorem cart_totals_with_absent_product
    (cartItems before after : list CartItem.t) (id user_id product_id : uuid)
    (quantity : Z) :
  (Forall (λ item, 0 ≤ present_price_or_0 item) cartItems →
   totalAmount cartItems = totalAmount_accumulated cartItems)
  ∧ totalItems cartItems = totalItems_spec cartItems
  ∧ (Forall not_negative_line before → 0 ≤ quantity < 9007199254740992 →
     totalAmount (before ++ CartItem.mk id user_id product_id quantity None :: after)
     = totalAmount (before ++ after))
  ∧ totalItems (before ++ CartItem.mk id user_id product_id quantity None :: after)
    = totalItems (before ++ after) + quantity.
Proof.
  split; [apply totalAmount_accumulates|].
  split; [apply totalItems_eq_spec|].
  split.
  - intros Hbefore Hq. unfold totalAmount. rewrite !foldl_app. cbn [foldl].
    fold (totalAmount before).
    change (or_zero (products_optional_price
                       (CartItem.mk id user_id product_id quantity None)))
      with (number_of_Z 0).
    cbn [CartItem.quantity]. rewrite number_mul_zero_l by done.
    by rewrite number_add_zero_r by (by apply totalAmount_not_negative).
  - rewrite !totalItems_eq_spec. unfold totalItems_spec.
    rewrite !fmap_app, fmap_cons, !sumZ_app, sumZ_cons. cbn [CartItem.quantity]. lia.
Qed.

Lemma cart_totals_with_absent_product_witness :
  totalAmount (Sample.cart ++ [Sample.lamp_line]) = totalAmount (Sample.cart ++ [])
  ∧ totalAmount Sample.three_lines = totalAmount_accumulated Sample.three_lines.
Proof.
  split.
  - apply (cart_totals_with_absent_product [] Sample.cart [] "line-3" "alice" "lamp" 1).
    + unfold Sample.cart. repeat (constructor; [split; cbn; lia|]). constructor.
    + lia.
  - apply (cart_totals_with_absent_product Sample.three_lines [] [] "line-3" "alice"
             "lamp" 1).
    unfold Sample.three_lines. repeat (constructor; [cbn; lia|]). constructor.
Defined.

(** ** Requests and the transport *)

Lemma await_reached {A} (q : Sql A) (w : World) :
  head (outages w) ≠ Some true →
  await q w
  = (Return (q (auth_uid w) (db w)).1, with_db (q (auth_uid w) (db w)).2 (tick w)).
Proof.
  intros Hup. unfold await.
  destruct (head (outages w)) as [[]|]; try done; by destruct (q _ _).
Qed.

Lemma await_lost {A} (q : Sql A) (w : World) :
  head (outages w) = Some true →
  await q w = (Return (Error fetch_failed), tick w).
Proof. intros Hdown. unfold await. by rewrite Hdown. Qed.

Lemma await_returns {A} (q : Sql A) (w : World) :
  ∃ r w', await q w = (Return r, w') ∧ outages w' = tail (outages w)
          ∧ auth_uid w' = auth_uid w.
Proof.
  unfold await. destruct (head (outages w)) as [[]|]; try destruct (q _ _); eauto.
Qed.

Lemma online_head (n : nat) (w : World) :
  online (S n) w → head (outages w) ≠ Some true.
Proof. intros Hup. rewrite head_lookup. apply Hup. lia. Qed.

Lemma online_tail (n : nat) (w w' : World) :
  outages w' = tail (outages w) → online (S n) w → online n w'.
Proof.
  intros Ho Hup i Hi. rewrite Ho, lookup_tail. apply Hup. lia.
Qed.

Lemma online_same (n : nat) (w w' : World) :
  outages w' = outages w → online n w → online n w'.
Proof. intros Ho Hup i Hi. rewrite Ho. by apply Hup. Qed.

(** ** The order workflow reads [item.products.price] unguarded *)

Lemma reduce_order_total_throws (cartItems : list CartItem.t) (acc : Z) :
  Exists (λ item, CartItem.products item = None) cartItems →
  reduce order_total_step acc cartItems = Throw TypeError.
Proof.
  intros Hex. revert acc.
  induction cartItems as [|item l IH]; intros acc; [by inversion Hex|].
  simpl. unfold order_total_step at 1, products_price.
  destruct (CartItem.products item) as [p|] eqn:Hp; [|done].
  apply IH. inversion Hex; [congruence|done].
Qed.

Lemma reduce_order_total_returns (cartItems : list CartItem.t) (acc : Z) :
  Forall (λ item, is_Some (CartItem.products item)) cartItems →
  reduce order_total_step acc cartItems = Return (acc + order_total_spec cartItems).
Proof.
  intros Hall. revert acc.
  induction Hall as [|item l [p Hp] _ IH]; intros acc.
  - simpl. f_equal. unfold order_total_spec, sumZ. simpl. lia.
  - simpl. unfold order_total_step at 1, products_price. rewrite Hp.
    rewrite IH. f_equal.
    change (order_total_spec (item :: l))
      with (CartItem.quantity item * present_price_or_0 item + order_total_spec l).
    unfold present_price_or_0. rewrite Hp. lia.
Qed.

Lemma map_order_lines_returns (orderId : uuid) (cartItems : list CartItem.t) :
  Forall (λ item, is_Some (CartItem.products item)) cartItems →
  map_throwing (order_line_step orderId) cartItems
  = Return (order_line_spec orderId <$> cartItems).
Proof.
  induction 1 as [|item l [p Hp] _ IH]; [done|].
  simpl. rewrite IH. unfold order_line_step, order_line_spec, products_price,
    present_price_or_0. by rewrite Hp.
Qed.

(** The shape of [createOrder] once the total is known. *)
Lemma createOrder_unfold (userId : uuid) (cartItems : list CartItem.t)
    (shippingAddress : ShippingAddress.t) :
  createOrder userId cartItems shippingAddress
  = (let! totalAmount := lift (reduce order_total_step 0 cartItems) in
     let! r := await (orders_insert (OrderRow.mk userId totalAmount pending shippingAddress)) in
     match r with
     | Error orderError =>
       console_error "Error creating order:" orderError;;;
       throw (PostgrestError orderError)
     | Data order =>
       let! orderItems := lift (map_throwing (order_line_step (Order.id order)) cartItems) in
       let! r := await (order_items_insert orderItems) in
       match r with
       | Error itemsError =>
         console_error "Error creating order items:" itemsError;;;
         throw (PostgrestError itemsError)
       | Data _ =>
         let! r := await (cart_items_delete_user userId) in
         match r with
         | Error cartError => console_error "Error clearing cart:" cartError
         | Data _ => ret ()
         end;;;
         ret (Order.id order)
       end
     end).
Proof. reflexivity. Qed.

(** C9. [createOrder] reads [item.products.price] without a guard: when
    every cart line carries its embedded product it never ends in the
    [TypeError] of a property read on a missing object, and when some line
    lacks its product it ends in that [TypeError] (a crash, which is none of
    the kinds of the error taxonomy) before any request is sent. *)
Theorem createOrder_defined_iff_products_present
    (userId : uuid) (cartItems : list CartItem.t)
    (shippingAddress : ShippingAddress.t) (w : World) :
  (Forall (λ item, is_Some (CartItem.products item)) cartItems →
   (createOrder userId cartItems shippingAddress w).1 ≠ Throw TypeError)
  ∧ (Exists (λ item, CartItem.products item = None) cartItems →
     createOrder userId cartItems shippingAddress w = (Throw TypeError, w)
     ∧ error_kind TypeError = None).
Proof.
  rewrite createOrder_unfold. split.
  - intros Hall. unfold bind at 1, lift at 1.
    rewrite reduce_order_total_returns by done.
    unfold bind at 1.
    destruct (await_returns (orders_insert
      (OrderRow.mk userId (0 + order_total_spec cartItems) pending shippingAddress)) w)
      as (r & w1 & -> & _).
    destruct r as [order|e]; [|done].
    unfold bind at 1, lift at 1. rewrite map_order_lines_returns by done.
    unfold bind at 1.
    destruct (await_returns (order_items_insert
      (order_line_spec (Order.id order) <$> cartItems)) w1) as (r & w2 & -> & _).
    destruct r as [[]|e]; [|done].
    unfold bind at 1. unfold bind at 1.
    destruct (await_returns (cart_items_delete_user userId) w2) as (r & w3 & -> & _).
    by destruct r.
  - intros Hex. split; [|done]. unfold bind at 1, lift at 1.
    by rewrite reduce_order_total_throws.
Qed.

(** ** Statements the store accepts *)

Lemma orders_insert_accepts (r : OrderRow.t) (uid : option uuid) (d : Database) :
  uid = Some (OrderRow.user_id r) → 0 < OrderRow.total_amount r ≤ 9999999999 →
  orders_insert r uid d
  = (Data (Order.mk (fresh (dom (orders d))) (OrderRow.user_id r)
             (OrderRow.total_amount r) (OrderRow.status r)
             (OrderRow.shipping_address r) None),
     with_orders (<[fresh (dom (orders d)) := r]> (orders d)) d).
Proof.
  intros Huid Hpos. unfold orders_insert.
  rewrite decide_True by (unfold decimal_10_2; lia).
  rewrite decide_True by done. by rewrite decide_True by lia.
Qed.

Lemma order_items_insert_accepts (rows : list OrderItemRow.t)
    (uid : option uuid) (d : Database) :
  Forall (λ r, order_item_violation uid d r = None) rows →
  order_items_insert rows uid d
  = (Data (), with_order_items (insert_rows rows (order_items d)) d).
Proof.
  intros Hok. unfold order_items_insert.
  replace (omap (order_item_violation uid d) rows) with (@nil PgError); [done|].
  induction Hok as [|r l Hr _ IH]; [done|]. simpl. by rewrite Hr.
Qed.

Lemma fresh_key_unused {A} (m : gmap uuid A) : m !! fresh (dom m) = None.
Proof. apply not_elem_of_dom, is_fresh. Qed.

(** The rows [insert_rows] adds: one new key per row, in order, the rest of
    the table untouched. *)
Lemma insert_rows_lookup {A} (rows : list A) (m : gmap uuid A) :
  ∃ ids : list uuid,
    length ids = length rows
    ∧ NoDup ids
    ∧ Forall (λ i, m !! i = None) ids
    ∧ (∀ (k : nat) i r, ids !! k = Some i → rows !! k = Some r →
         insert_rows rows m !! i = Some r)
    ∧ (∀ i, i ∉ ids → insert_rows rows m !! i = m !! i).
Proof.
  revert m. induction rows as [|r rows IH]; intros m.
  - exists []. repeat split; try constructor; done.
  - destruct (IH (<[fresh (dom m) := r]> m)) as (ids & Hlen & Hnd & Hnew & Hin & Hout).
    pose proof (fresh_key_unused m) as Hfresh.
    assert (Hnotin : fresh (dom m) ∉ ids).
    { intros Hel. rewrite Forall_forall in Hnew. specialize (Hnew _ Hel).
      by rewrite lookup_insert_eq in Hnew. }
    exists (fresh (dom m) :: ids). split_and!.
    + simpl. by rewrite Hlen.
    + by constructor.
    + constructor; [done|]. eapply Forall_impl; [exact Hnew|].
      intros i Hi. simpl in Hi. destruct (decide (fresh (dom m) = i)) as [<-|Hne].
      * by rewrite lookup_insert_eq in Hi.
      * by rewrite lookup_insert_ne in Hi.
    + intros [|k] i r' Hi Hr; simpl in *.
      * injection Hi as <-. injection Hr as <-.
        rewrite Hout by done. apply lookup_insert_eq.
      * eauto.
    + intros i Hi. apply not_elem_of_cons in Hi as [Hne Hi].
      simpl. rewrite Hout by done. by rewrite lookup_insert_ne.
Qed.

(** ** A run of [createOrder] on an orderable cart *)

Lemma order_total_spec_cons (item : CartItem.t) (l : list CartItem.t) :
  order_total_spec (item :: l)
  = CartItem.quantity item * present_price_or_0 item + order_total_spec l.
Proof. reflexivity. Qed.

Lemma order_total_spec_nonneg (d : Database) (l : list CartItem.t) :
  Forall (orderable d) l → 0 ≤ order_total_spec l.
Proof.
  induction 1 as [|item l (_ & [Hq _] & [Hp _] & _) _ IH]; [done|].
  rewrite order_total_spec_cons. nia.
Qed.

Lemma order_total_spec_pos (d : Database) (l : list CartItem.t) :
  l ≠ [] → Forall (orderable d) l → 0 < order_total_spec l.
Proof.
  intros Hne Hall. destruct Hall as [|item l (_ & [Hq _] & [Hp _] & _) Hall]; [done|].
  rewrite order_total_spec_cons.
  pose proof (order_total_spec_nonneg d l Hall). nia.
Qed.

Lemma orderable_products_present (d : Database) (l : list CartItem.t) :
  Forall (orderable d) l → Forall (λ item, is_Some (CartItem.products item)) l.
Proof. intros Hall. eapply Forall_impl; [exact Hall|]. by intros item (? & _). Qed.

Lemma order_lines_accepted (userId orderId : uuid) (row : OrderRow.t)
    (d : Database) (l : list CartItem.t) :
  orders d !! orderId = Some row → OrderRow.user_id row = userId →
  Forall (orderable d) l →
  Forall (λ r, order_item_violation (Some userId) d r = None)
    (order_line_spec orderId <$> l).
Proof.
  intros Ho Hu Hall. apply Forall_fmap. eapply Forall_impl; [exact Hall|].
  intros item (_ & Hq & Hp & [pr Hpr]). simpl.
  unfold order_item_violation, order_line_spec. simpl.
  rewrite decide_True by (unfold integer_column, decimal_10_2; lia).
  rewrite Ho, Hu, decide_True by done.
  rewrite decide_True by lia. by rewrite Hpr.
Qed.

Lemma createOrder_run (userId : uuid) (cartItems : list CartItem.t)
    (shippingAddress : ShippingAddress.t) (w : World) :
  auth_uid w = Some userId → online 2 w → cartItems ≠ [] →
  Forall (orderable (db w)) cartItems →
  order_total_spec cartItems ≤ 9999999999 →
  ∃ w',
    createOrder userId cartItems shippingAddress w
    = (Return (fresh (dom (orders (db w)))), w')
    ∧ orders (db w')
      = <[fresh (dom (orders (db w)))
          := OrderRow.mk userId (order_total_spec cartItems) pending shippingAddress]>
          (orders (db w))
    ∧ order_items (db w')
      = insert_rows (order_line_spec (fresh (dom (orders (db w)))) <$> cartItems)
          (order_items (db w))
    ∧ products (db w') = products (db w)
    ∧ auth_uid w' = auth_uid w
    ∧ (outages w !! 2%nat ≠ Some true →
       cart_items (db w') = cleared_cart userId (cart_items (db w))
       ∧ console w' = console w)
    ∧ (outages w !! 2%nat = Some true →
       cart_items (db w') = cart_items (db w)
       ∧ console w' = console w ++ [("Error clearing cart:"%string, fetch_failed)]).
Proof.
  intros Hauth Hup Hne Hall Hfits.
  pose proof (orderable_products_present _ _ Hall) as Hprod.
  pose proof (order_total_spec_pos _ _ Hne Hall) as Hpos.
  rewrite createOrder_unfold.
  unfold bind at 1, lift at 1. rewrite reduce_order_total_returns by done.
  unfold bind at 1. rewrite await_reached by (by eapply online_head).
  rewrite Hauth, orders_insert_accepts by (cbn; (done || lia)). cbn [fst snd].
  unfold bind at 1, lift at 1. cbn [Order.id].
  rewrite map_order_lines_returns by done.
  unfold bind at 1. rewrite await_reached; cycle 1.
  { eapply (online_head 0), online_tail; [|exact Hup]. done. }
  cbn [auth_uid with_db tick with_outages db]. rewrite Hauth.
  rewrite order_items_insert_accepts; cycle 1.
  { eapply order_lines_accepted; [apply lookup_insert_eq|done|done]. }
  cbn [fst snd]. unfold bind at 1. unfold bind at 1.
  set (w2 := with_db _ (tick (with_db _ (tick w)))).
  assert (Hthird : head (outages w2) = outages w !! 2%nat).
  { subst w2. cbn. rewrite head_lookup, !lookup_tail. done. }
  destruct (decide (outages w !! 2%nat = Some true)) as [Hdown|Hok].
  - rewrite await_lost by congruence.
    eexists. split; [reflexivity|]. subst w2. cbn. split_and!; try done.
  - rewrite await_reached by congruence.
    eexists. split; [reflexivity|]. subst w2. cbn. rewrite Hauth. split_and!; done.
Qed.

Lemma online_no_outage (n : nat) (w : World) : outages w = [] → online n w.
Proof. intros Ho i _. by rewrite Ho, lookup_nil. Qed.

Lemma sample_cart_orderable_shop : Forall (orderable (db Sample.shop)) Sample.cart.
Proof.
  unfold Sample.cart.
  repeat (constructor;
          [unfold orderable; split_and!; first [by eexists | cbn; lia]|]).
  constructor.
Qed.

(** C9, on the sample shop: the cart of the scenario does not crash
    [createOrder]; with the lamp's line, whose product is absent, it does. *)
Lemma createOrder_defined_iff_products_present_witness :
  (createOrder "alice" Sample.cart Sample.address Sample.shop).1 ≠ Throw TypeError
  ∧ createOrder "alice" (Sample.cart ++ [Sample.lamp_line]) Sample.address Sample.shop
    = (Throw TypeError, Sample.shop).
Proof.
  split.
  - apply (proj1 (createOrder_defined_iff_products_present
                    "alice" Sample.cart Sample.address Sample.shop)).
    repeat constructor; by eexists.
  - apply (proj2 (createOrder_defined_iff_products_present
                    "alice" (Sample.cart ++ [Sample.lamp_line])
                    Sample.address Sample.shop)).
    do 2 apply Exists_cons_tl. by apply Exists_cons_hd.
Defined.

(** ** The price stored on an order line *)

Lemma reprice_keeps_read_prices (orderId productId : uuid) (newPrice : Z) (w : World) :
  read_order_line_prices orderId (with_db (reprice productId newPrice (db w)) w)
  = read_order_line_prices orderId w.
Proof.
  unfold read_order_line_prices, getOrderById, bind, await.
  cbn [outages with_db auth_uid db].
  destruct (head (outages w)) as [[]|]; [done| |];
    unfold orders_select_single; cbn [orders reprice with_products order_items];
    (destruct (orders (db w) !! orderId) as [o|]; [|done]);
    (case_decide; [|done]); cbn;
    f_equal; rewrite <- !list_fmap_compose; by apply list_fmap_ext.
Qed.

(** C1. For a non-empty list of cart lines, each carrying its product,
    [createOrder] run by the signed-in user creates an order whose
    [total_amount] is the sum over the lines of quantity times product price
    as passed to the call, creates exactly one order line per cart line with
    [price] copied from that line's product, and returns the identifier of
    the new order; a later change of a product's price alters neither the
    stored order lines nor the prices read back by [getOrderById]. The lines
    are cart lines of the schema (positive quantity and price within their
    columns, existing product), the total fits the [decimal(10,2)] column
    [total_amount], and the two inserts reach the store. *)
Theorem createOrder_snapshots_cart (userId : uuid) (cartItems : list CartItem.t)
    (shippingAddress : ShippingAddress.t) (w : World) :
  auth_uid w = Some userId → online 2 w → cartItems ≠ [] →
  Forall (orderable (db w)) cartItems →
  order_total_spec cartItems ≤ 9999999999 →
  ∃ (orderId : uuid) (w' : World) (ids : list uuid),
    createOrder userId cartItems shippingAddress w = (Return orderId, w')
    ∧ orders (db w) !! orderId = None
    ∧ orders (db w')
      = <[orderId := OrderRow.mk userId (order_total_spec cartItems) pending shippingAddress]>
          (orders (db w))
    ∧ length ids = length cartItems
    ∧ NoDup ids
    ∧ Forall (λ i, order_items (db w) !! i = None) ids
    ∧ (∀ (k : nat) i item, ids !! k = Some i → cartItems !! k = Some item →
         order_items (db w') !! i
         = Some (OrderItemRow.mk orderId (CartItem.product_id item)
                   (CartItem.quantity item) (present_price_or_0 item)))
    ∧ (∀ i, i ∉ ids → order_items (db w') !! i = order_items (db w) !! i)
    ∧ (∀ productId newPrice,
         order_items (reprice productId newPrice (db w')) = order_items (db w')
         ∧ read_order_line_prices orderId (with_db (reprice productId newPrice (db w')) w')
           = read_order_line_prices orderId w').
Proof.
  intros Hauth Hup Hne Hall Hfits.
  destruct (createOrder_run userId cartItems shippingAddress w Hauth Hup Hne Hall Hfits)
    as (w' & Hrun & Horders & Hitems & _).
  destruct (insert_rows_lookup
              (order_line_spec (fresh (dom (orders (db w)))) <$> cartItems)
              (order_items (db w))) as (ids & Hlen & Hnd & Hnew & Hin & Hout).
  exists (fresh (dom (orders (db w)))), w', ids.
  split_and!; try done.
  - apply fresh_key_unused.
  - by rewrite Hlen, length_fmap.
  - intros k i item Hi Hitem. rewrite Hitems.
    apply (Hin k). { done. } by rewrite list_lookup_fmap, Hitem.
  - intros i Hi. rewrite Hitems. by apply Hout.
  - intros productId newPrice. split; [done|]. apply reprice_keeps_read_prices.
Qed.

Lemma createOrder_snapshots_cart_witness :
  ∃ (orderId : uuid) (w' : World),
    createOrder "alice" Sample.cart Sample.address Sample.shop = (Return orderId, w')
    ∧ orders (db w') !! orderId
      = Some (OrderRow.mk "alice" 24997 pending Sample.address).
Proof.
  destruct (createOrder_snapshots_cart "alice" Sample.cart Sample.address Sample.shop)
    as (orderId & w' & ids & Hrun & _ & Horders & _).
  - reflexivity.
  - by apply online_no_outage.
  - discriminate.
  - apply sample_cart_orderable_shop.
  - discriminate.
  - exists orderId, w'. split; [exact Hrun|].
    rewrite Horders. apply lookup_insert_eq.
Defined.

(** ** Clearing the cart after the order *)

Lemma cleared_cart_lookup (userId : uuid) (m : gmap uuid CartRow.t) i r :
  cleared_cart userId m !! i = Some r ↔ m !! i = Some r ∧ CartRow.user_id r ≠ userId.
Proof.
  unfold cleared_cart. rewrite map_lookup_filter_Some. simpl.
  split; intros [Hm Hr]; (split; [done|]).
  - intros Hu. apply Hr. by rewrite Hu.
  - by intros [Hu _].
Qed.

Lemma orders_insert_signed_in (r : OrderRow.t) (uid : option uuid) (d d' : Database)
    (order : Order.t) :
  orders_insert r uid d = (Data order, d') →
  uid = Some (OrderRow.user_id r) ∧ cart_items d' = cart_items d.
Proof.
  unfold orders_insert.
  destruct (decide (decimal_10_2 _)); [|done].
  destruct (decide (uid = _)) as [Hu|]; [|done].
  destruct (decide (0 < _)); [|done].
  intros Heq. by simplify_eq.
Qed.

Lemma order_items_insert_keeps_cart (rows : list OrderItemRow.t) (uid : option uuid)
    (d d' : Database) (u : unit) :
  order_items_insert rows uid d = (Data u, d') → cart_items d' = cart_items d.
Proof.
  unfold order_items_insert. destruct (head _); [done|].
  intros Heq. by simplify_eq.
Qed.

(** C3. Whenever [createOrder] has inserted the order and its lines, it
    returns the identifier of the order, the order and its lines are in the
    store as inserted, and: when the deletion of the cart reaches the store,
    every cart line of the user is deleted and no line of anyone else; when
    it fails, nothing is thrown, the failure is printed on the console and
    the cart stays as it was. *)
Theorem createOrder_clears_cart_or_logs (userId : uuid) (cartItems : list CartItem.t)
    (shippingAddress : ShippingAddress.t) (w : World)
    (order : Order.t) (stored : Database) :
  order_and_lines_inserted userId cartItems shippingAddress w order stored →
  ∃ w',
    createOrder userId cartItems shippingAddress w = (Return (Order.id order), w')
    ∧ orders (db w') = orders stored
    ∧ order_items (db w') = order_items stored
    ∧ (outages w !! 2%nat ≠ Some true →
       (∀ i r, cart_items (db w') !! i = Some r
               ↔ cart_items (db w) !! i = Some r ∧ CartRow.user_id r ≠ userId)
       ∧ console w' = console w)
    ∧ (outages w !! 2%nat = Some true →
       cart_items (db w') = cart_items (db w)
       ∧ console w' = console w ++ [("Error clearing cart:"%string, fetch_failed)]).
Proof.
  intros (totalAmount & orderItems & d & Htotal & Hup & Horder & Hlines & Hitems).
  destruct (orders_insert_signed_in _ _ _ _ _ Horder) as [Hauth Hcart1].
  pose proof (order_items_insert_keeps_cart _ _ _ _ _ Hitems) as Hcart2.
  cbn [OrderRow.user_id] in Hauth.
  rewrite createOrder_unfold.
  unfold bind at 1, lift at 1. rewrite Htotal.
  unfold bind at 1. rewrite await_reached by (by eapply online_head).
  rewrite Horder. cbn [fst snd].
  unfold bind at 1, lift at 1. rewrite Hlines.
  unfold bind at 1. rewrite await_reached; cycle 1.
  { eapply (online_head 0), online_tail; [|exact Hup]. done. }
  cbn [auth_uid with_db tick with_outages db]. rewrite Hitems.
  cbn [fst snd]. unfold bind at 1. unfold bind at 1.
  set (w2 := with_db _ (tick (with_db _ (tick w)))).
  assert (Hthird : head (outages w2) = outages w !! 2%nat).
  { subst w2. cbn. rewrite head_lookup, !lookup_tail. done. }
  destruct (decide (outages w !! 2%nat = Some true)) as [Hdown|Hok].
  - rewrite await_lost by congruence.
    eexists. split; [reflexivity|]. subst w2. cbn.
    split_and!; try done. intros _. by rewrite Hcart2, Hcart1.
  - rewrite await_reached by congruence.
    eexists. split; [reflexivity|]. subst w2. cbn. rewrite Hauth.
    split_and!; try done. intros _. split; [|done].
    intros i r. rewrite Hcart2, Hcart1. apply cleared_cart_lookup.
Qed.

Lemma createOrder_clears_cart_or_logs_witness :
  ∃ (orderId : uuid) (w' : World),
    createOrder "alice" Sample.cart Sample.address Sample.shop_losing_third
    = (Return orderId, w')
    ∧ is_Some (orders (db w') !! orderId)
    ∧ cart_items (db w') = Sample.cart_rows
    ∧ console w' = [("Error clearing cart:"%string, fetch_failed)].
Proof.
  destruct (createOrder_clears_cart_or_logs "alice" Sample.cart Sample.address
              Sample.shop_losing_third
              (Order.mk "0" "alice" 24997 pending Sample.address None)
              (with_order_items
                 (insert_rows (order_line_spec "0" <$> Sample.cart) ∅)
                 (with_orders {[ "0"%string := OrderRow.mk "alice" 24997 pending
                                                 Sample.address ]}
                    (db Sample.shop_losing_third))))
    as (w' & Hrun & Horders & _ & _ & Hlost).
  - exists 24997, (order_line_spec "0" <$> Sample.cart),
      (with_orders {[ "0"%string := OrderRow.mk "alice" 24997 pending Sample.address ]}
         (db Sample.shop_losing_third)).
    split_and!.
    + reflexivity.
    + intros [|[|i]] Hi; [done|done|]. exfalso. lia.
    + vm_compute. reflexivity.
    + reflexivity.
    + vm_compute. reflexivity.
  - destruct Hlost as [Hcart Hconsole]; [reflexivity|].
    exists "0"%string, w'. split_and!; [exact Hrun| |exact Hcart|exact Hconsole].
    rewrite Horders. by eexists.
Defined.

(** ** Checking out an empty cart *)

(** C2 as stated does not hold: on an empty cart [createOrder] sends the
    insert of an order of total 0 and throws the check violation the store
    answers, which is no [EmptyCartError]. *)
Lemma createOrder_empty_cart_not_EmptyCartError :
  (∃ w',
     createOrder "alice" [] Sample.address Sample.shop
     = (Throw (PostgrestError check_violation), w')
     ∧ console w' = [("Error creating order:"%string, check_violation)])
  ∧ ¬ (∃ e w',
         createOrder "alice" [] Sample.address Sample.shop = (Throw e, w')
         ∧ error_kind e = Some EmptyCartError).
Proof.
  split.
  - eexists. split; [vm_compute; reflexivity|reflexivity].
  - intros (e & w' & Hrun & Hkind). vm_compute in Hrun. by simplify_eq.
Qed.

(** C2, amended. For every user, [createOrder] on an empty list of cart
    lines throws the store's error for the insert of the order (the check
    violation of [total_amount > 0] when the request reaches the store for
    the signed-in user), a [StoreError] of the taxonomy, and leaves every
    table as it was: no order and no order line is created. *)
Theorem createOrder_empty_cart_rejected (userId : uuid)
    (shippingAddress : ShippingAddress.t) (w : World) :
  ∃ w',
    createOrder userId [] shippingAddress w
    = (Throw (PostgrestError
                (if decide (head (outages w) = Some true) then fetch_failed
                 else if decide (auth_uid w = Some userId) then check_violation
                 else insufficient_privilege)), w')
    ∧ error_kind (PostgrestError
                (if decide (head (outages w) = Some true) then fetch_failed
                 else if decide (auth_uid w = Some userId) then check_violation
                 else insufficient_privilege)) = Some StoreError
    ∧ db w' = db w.
Proof.
  rewrite createOrder_unfold. unfold bind at 1, lift at 1. cbn [reduce].
  unfold bind at 1. case_decide as Hdown.
  - rewrite await_lost by done. eexists. by split_and!.
  - rewrite await_reached by done. unfold orders_insert.
    cbn [OrderRow.user_id OrderRow.total_amount].
    rewrite (decide_True (P := decimal_10_2 0)) by (unfold decimal_10_2; lia).
    destruct (decide (auth_uid w = Some userId)) as [Hauth|Hauth].
    + rewrite decide_False by lia. eexists. by split_and!.
    + eexists. by split_and!.
Qed.

(** ** The cart provider *)

Lemma cart_view_same (w w' : World) :
  db w' = db w → auth_uid w' = auth_uid w → cart_view w' = cart_view w.
Proof. intros Hd Ha. unfold cart_view. by rewrite Hd, Ha. Qed.

Lemma loadCartItems_run (w : World) (u : uuid) :
  auth_uid w = Some u →
  ∃ w',
    loadCartItems w = (Return (), w')
    ∧ db w' = db w
    ∧ auth_uid w' = auth_uid w
    ∧ outages w' = tail (outages w)
    ∧ (head (outages w) ≠ Some true → synced w').
Proof.
  intros Hauth. unfold loadCartItems, useAuth_user.
  unfold bind at 1. rewrite Hauth. unfold bind at 1, setLoading at 1.
  unfold bind at 1. unfold bind at 1.
  destruct (decide (head (outages (with_loading true w)) = Some true)) as [Hdown|Hok].
  - rewrite await_lost by done. eexists. split; [reflexivity|].
    split_and!; try done.
  - rewrite await_reached by done. eexists. split; [reflexivity|].
    split_and!; try done. intros _.
    unfold synced, cart_view. cbn. by rewrite Hauth.
Qed.

Lemma cart_view_elem (w : World) (u : uuid) (item : CartItem.t) :
  auth_uid w = Some u →
  item ∈ cart_view w ↔
  ∃ r, cart_items (db w) !! CartItem.id item = Some r
       ∧ CartRow.user_id r = u
       ∧ item = cart_item_of (db w) (CartItem.id item, r).
Proof.
  intros Hauth. unfold cart_view. rewrite Hauth, list_elem_of_fmap. split.
  - intros ([i r] & -> & Hin).
    apply elem_of_map_to_list, map_lookup_filter_Some in Hin as [Hm [Hu _]].
    exists r. by simpl in *.
  - intros (r & Hm & Hu & Hitem). exists (CartItem.id item, r). split; [done|].
    apply elem_of_map_to_list, map_lookup_filter_Some. simpl.
    split_and!; [done|done|by rewrite Hu].
Qed.

(** What [cartItems.find(item => item.product_id === productId)] tells about
    the store when the provider's state is in step with it. *)
Lemma find_in_synced_cart_Some (w : World) (u productId : uuid) (item : CartItem.t) :
  auth_uid w = Some u → synced w →
  find (λ item, bool_decide (CartItem.product_id item = productId)) (cartItems w)
  = Some item →
  ∃ r, cart_items (db w) !! CartItem.id item = Some r
       ∧ cart_line_of u productId r
       ∧ CartItem.quantity item = CartRow.quantity r.
Proof.
  intros Hauth Hsync Hfind. apply find_some in Hfind as [Hin Hp].
  apply bool_decide_eq_true in Hp.
  rewrite Hsync in Hin. apply list_elem_of_In, (cart_view_elem w u) in Hin; [|done].
  destruct Hin as (r & Hm & Hu & Hitem). exists r. split; [done|].
  rewrite Hitem in Hp |- *. by simpl in *.
Qed.

Lemma find_in_synced_cart_None (w : World) (u productId : uuid) :
  auth_uid w = Some u → synced w →
  find (λ item, bool_decide (CartItem.product_id item = productId)) (cartItems w)
  = None →
  ∀ i r, cart_items (db w) !! i = Some r → ¬ cart_line_of u productId r.
Proof.
  intros Hauth Hsync Hfind i r Hm [Hu Hp].
  eapply find_none in Hfind; cycle 1.
  { apply list_elem_of_In. rewrite Hsync.
    apply (cart_view_elem w u (cart_item_of (db w) (i, r))); [done|].
    exists r. by simpl. }
  apply bool_decide_eq_false in Hfind. by simpl in Hfind.
Qed.

(** The pattern shared by [removeFromCart], [updateCartItem] and the insert
    of [addToCart]: one statement, then a reload of the cart when the store
    accepted it, a logged error thrown to the caller otherwise. *)
Section MutateThenReload.
Context {A : Type} (q : Sql A) (msg : string).

Let mutate_then_reload : Async unit :=
  let! r := await q in
  match r with
  | Error error => console_error msg error;;; throw (PostgrestError error)
  | Data _ => loadCartItems
  end.

Lemma mutate_accepted (w : World) (u : uuid) (a : A) (d' : Database) :
  auth_uid w = Some u → head (outages w) ≠ Some true →
  q (Some u) (db w) = (Data a, d') →
  ∃ w',
    mutate_then_reload w = (Return (), w')
    ∧ db w' = d'
    ∧ auth_uid w' = auth_uid w
    ∧ outages w' = tail (tail (outages w))
    ∧ (outages w !! 1%nat ≠ Some true → synced w').
Proof.
  intros Hauth Hup Hq. unfold mutate_then_reload, bind.
  rewrite await_reached, Hauth, Hq by done. cbn [fst snd].
  destruct (loadCartItems_run (with_db d' (tick w)) u Hauth)
    as (w' & -> & Hdb & Ha & Ho & Hsync).
  exists w'. split_and!; [done|by rewrite Hdb|by rewrite Ha|by rewrite Ho|].
  intros Hsecond. apply Hsync. cbn. by rewrite head_lookup, lookup_tail.
Qed.



End MutateThenReload.

Lemma removeFromCart_run (itemId : uuid) (w : World) (r : CartRow.t) :
  cart_items (db w) !! itemId = Some r →
  auth_uid w = Some (CartRow.user_id r) → online 1 w →
  ∃ w',
    removeFromCart itemId w = (Return (), w')
    ∧ db w' = with_cart_items (delete itemId (cart_items (db w))) (db w)
    ∧ auth_uid w' = auth_uid w
    ∧ outages w' = tail (tail (outages w))
    ∧ (outages w !! 1%nat ≠ Some true → synced w').
Proof.
  intros Hrow Hauth Hup.
  apply (mutate_accepted _ _ w (CartRow.user_id r) ());
    [done|by eapply online_head|].
  unfold cart_items_delete_id. rewrite Hrow. by rewrite decide_True.
Qed.

Lemma updateCartItem_positive_run (itemId : uuid) (quantity : Z) (w : World)
    (r : CartRow.t) :
  cart_items (db w) !! itemId = Some r →
  auth_uid w = Some (CartRow.user_id r) → online 1 w →
  0 < quantity ≤ 2147483647 →
  ∃ w',
    updateCartItem itemId quantity w = (Return (), w')
    ∧ db w'
      = with_cart_items
          (<[itemId := CartRow.mk (CartRow.user_id r) (CartRow.product_id r) quantity]>
             (cart_items (db w))) (db w)
    ∧ auth_uid w' = auth_uid w
    ∧ outages w' = tail (tail (outages w))
    ∧ (outages w !! 1%nat ≠ Some true → synced w').
Proof.
  intros Hrow Hauth Hup Hpos. unfold updateCartItem.
  rewrite decide_False by lia.
  apply (mutate_accepted _ _ w (CartRow.user_id r) ());
    [done|by eapply online_head|].
  unfold cart_items_update.
  rewrite decide_True by (unfold integer_column; lia). rewrite Hrow.
  rewrite decide_True by done. by rewrite decide_True by lia.
Qed.

(** C5. For a cart line of the signed-in user, [updateCartItem] with a
    quantity of zero or less is [removeFromCart] and deletes the line; with a
    positive quantity it sets the line's quantity to it. Nothing else in the
    store changes. In particular quantities 0 and -1 delete the line. The
    quantity is one the [integer] column [quantity] can hold (at most
    2147483647; no lower bound is needed, a quantity of zero or less is
    never sent to the store). *)
Theorem updateCartItem_removes_or_sets (itemId : uuid) (quantity : Z) (w : World)
    (r : CartRow.t) :
  cart_items (db w) !! itemId = Some r →
  auth_uid w = Some (CartRow.user_id r) → online 1 w →
  quantity ≤ 2147483647 →
  (quantity ≤ 0 → updateCartItem itemId quantity w = removeFromCart itemId w)
  ∧ (∃ w',
       updateCartItem itemId quantity w = (Return (), w')
       ∧ db w'
         = with_cart_items
             (if decide (quantity ≤ 0) then delete itemId (cart_items (db w))
              else <[itemId := CartRow.mk (CartRow.user_id r) (CartRow.product_id r)
                                 quantity]> (cart_items (db w)))
             (db w))
  ∧ (∃ w0 w1,
       updateCartItem itemId 0 w = (Return (), w0)
       ∧ cart_items (db w0) !! itemId = None
       ∧ updateCartItem itemId (-1) w = (Return (), w1)
       ∧ cart_items (db w1) !! itemId = None).
Proof.
  intros Hrow Hauth Hup Hfits. split_and!.
  - intros Hle. unfold updateCartItem. by rewrite decide_True.
  - case_decide as Hq.
    + unfold updateCartItem. rewrite decide_True by done.
      destruct (removeFromCart_run itemId w r) as (w' & ? & ? & _); eauto.
    + destruct (updateCartItem_positive_run itemId quantity w r)
        as (w' & ? & ? & _); [done|done|done|lia|]. eauto.
  - destruct (removeFromCart_run itemId w r) as (w' & Hrun & Hdb & _); try done.
    exists w', w'. unfold updateCartItem. rewrite !decide_True by lia.
    rewrite Hdb. cbn. by rewrite lookup_delete_eq.
Qed.

Lemma updateCartItem_removes_or_sets_witness :
  (∃ w', updateCartItem "line-2" 7 Sample.shop_with_cart = (Return (), w')
         ∧ cart_items (db w') !! "line-2" = Some (CartRow.mk "alice" "tshirt" 7))
  ∧ (∃ w0 w1,
       updateCartItem "line-2" 0 Sample.shop_with_cart = (Return (), w0)
       ∧ cart_items (db w0) !! "line-2" = None
       ∧ updateCartItem "line-2" (-1) Sample.shop_with_cart = (Return (), w1)
       ∧ cart_items (db w1) !! "line-2" = None).
Proof.
  destruct (updateCartItem_removes_or_sets "line-2" 7 Sample.shop_with_cart
              (CartRow.mk "alice" "tshirt" 2))
    as (_ & (w' & Hrun & Hdb) & Hgone).
  - reflexivity.
  - reflexivity.
  - by apply online_no_outage.
  - discriminate.
  - split; [|exact Hgone]. exists w'. split; [exact Hrun|].
    rewrite Hdb. apply lookup_insert_eq.
Defined.

(** ** Adding to the cart *)

Lemma addToCart_existing (productId : uuid) (quantity : Z) (w : World)
    (u : uuid) (item : CartItem.t) :
  auth_uid w = Some u →
  find (λ item, bool_decide (CartItem.product_id item = productId)) (cartItems w)
  = Some item →
  addToCart productId quantity w
  = updateCartItem (CartItem.id item) (CartItem.quantity item + quantity) w.
Proof.
  intros Hauth Hfind. unfold addToCart, useAuth_user, useState_cartItems.
  unfold bind at 1. rewrite Hauth. unfold bind at 1. by rewrite Hfind.
Qed.

Lemma addToCart_absent (productId : uuid) (quantity : Z) (w : World) (u : uuid) :
  auth_uid w = Some u →
  find (λ item, bool_decide (CartItem.product_id item = productId)) (cartItems w)
  = None →
  addToCart productId quantity w
  = (let! r := await (cart_items_insert u productId quantity) in
     match r with
     | Error error =>
       console_error "Error adding to cart:" error;;; throw (PostgrestError error)
     | Data _ => loadCartItems
     end) w.
Proof.
  intros Hauth Hfind. unfold addToCart, useAuth_user, useState_cartItems.
  unfold bind at 1. rewrite Hauth. unfold bind at 1. by rewrite Hfind.
Qed.

(** With the provider in step with the store, the line [find] returns is
    the line the store holds for the user and the product. *)
Lemma find_in_synced_cart (w : World) (u productId i : uuid) (r : CartRow.t) :
  auth_uid w = Some u → synced w → cart_constraints (cart_items (db w)) →
  cart_items (db w) !! i = Some r → cart_line_of u productId r →
  ∃ item,
    find (λ item, bool_decide (CartItem.product_id item = productId)) (cartItems w)
    = Some item
    ∧ CartItem.id item = i
    ∧ CartItem.quantity item = CartRow.quantity r.
Proof.
  intros Hauth Hsync [_ Huniq] Hrow Hline.
  destruct (find _ (cartItems w)) as [item|] eqn:Hfind.
  - destruct (find_in_synced_cart_Some w u productId item Hauth Hsync Hfind)
      as (r' & Hrow' & [Hu' Hp'] & Hq).
    destruct Hline as [Hu Hp].
    assert (CartItem.id item = i) as Hi by (eapply Huniq; eauto; congruence).
    exists item. split_and!; [done|done|]. rewrite Hi in Hrow'. congruence.
  - by destruct (find_in_synced_cart_None w u productId Hauth Hsync Hfind i r Hrow).
Qed.

Lemma addToCart_existing_run (productId : uuid) (quantity : Z) (w : World)
    (u i : uuid) (r : CartRow.t) :
  auth_uid w = Some u → synced w → cart_constraints (cart_items (db w)) →
  cart_items (db w) !! i = Some r → cart_line_of u productId r →
  online 1 w → 0 < CartRow.quantity r + quantity ≤ 2147483647 →
  ∃ w',
    addToCart productId quantity w = updateCartItem i (CartRow.quantity r + quantity) w
    ∧ addToCart productId quantity w = (Return (), w')
    ∧ db w'
      = with_cart_items
          (<[i := CartRow.mk u productId (CartRow.quantity r + quantity)]>
             (cart_items (db w))) (db w).
Proof.
  intros Hauth Hsync Hcons Hrow Hline Hup Hpos.
  destruct (find_in_synced_cart w u productId i r) as (item & Hfind & <- & Hq); try done.
  rewrite (addToCart_existing productId quantity w u item), Hq by done.
  destruct Hline as [Hu Hp].
  destruct (updateCartItem_positive_run (CartItem.id item)
              (CartRow.quantity r + quantity) w r)
    as (w' & Hrun & Hdb & _); [done|congruence|done|done|].
  exists w'. split_and!; [done|done|]. by rewrite Hdb, Hu, Hp.
Qed.

Lemma cart_items_insert_accepts (u productId : uuid) (quantity : Z) (d : Database) :
  0 < quantity ≤ 2147483647 → is_Some (products d !! productId) →
  (∀ i r, cart_items d !! i = Some r → ¬ cart_line_of u productId r) →
  cart_items_insert u productId quantity (Some u) d
  = (Data (),
     with_cart_items
       (<[fresh (dom (cart_items d)) := CartRow.mk u productId quantity]> (cart_items d)) d).
Proof.
  intros Hpos [pr Hpr] Hnone. unfold cart_items_insert.
  rewrite decide_True by (unfold integer_column; lia).
  rewrite decide_True by done. rewrite decide_True by lia.
  rewrite decide_False; [by rewrite Hpr|].
  intros (i & r & Hrow & Hline)%map_Exists_lookup. by eapply Hnone.
Qed.

Lemma cart_constraints_insert (m : gmap uuid CartRow.t) (i u p : uuid) (q : Z) :
  cart_constraints m → m !! i = None → 0 < q ≤ 2147483647 →
  (∀ j r, m !! j = Some r → ¬ cart_line_of u p r) →
  cart_constraints (<[i := CartRow.mk u p q]> m).
Proof.
  intros [Hcheck Huniq] Hfresh Hq Hnone. split.
  - intros j r [[<- <-]|[Hne Hm]]%lookup_insert_Some; [done|by eapply Hcheck].
  - intros j k r r' [[<- <-]|[Hj Hm]]%lookup_insert_Some
                    [[<- <-]|[Hk Hm']]%lookup_insert_Some Hu Hp; simpl in *.
    + done.
    + by destruct (Hnone k r' Hm').
    + by destruct (Hnone j r Hm).
    + by eapply Huniq.
Qed.

(** C4 as stated does not hold: [addToCart] looks for the line in the
    provider's list, not in the store. With a list that is out of date (the
    store holds Alice's line of two T-shirts, the list is still empty),
    adding three T-shirts sends an insert, which the store refuses as a
    conflict; the quantity of the line is not raised. *)
Lemma addToCart_stale_list_inserts :
  ∃ w',
    cartItems shop_not_loaded = []
    ∧ cart_items (db shop_not_loaded) !! "line-2" = Some (CartRow.mk "alice" "tshirt" 2)
    ∧ addToCart "tshirt" 3 shop_not_loaded
      = (Throw (PostgrestError unique_violation), w')
    ∧ cart_items (db w') !! "line-2" = Some (CartRow.mk "alice" "tshirt" 2).
Proof.
  eexists. split; [reflexivity|]. split; [reflexivity|].
  split; [vm_compute; reflexivity|reflexivity].
Qed.

(** C4, amended. With the cart provider in step with the store: when a cart
    line for the user and the product exists, [addToCart] goes through
    [updateCartItem], raises that line's quantity by the quantity added and
    inserts nothing; when none exists it inserts one line with the quantity
    added. Adding [q1] and then [q2] of a product not yet in the cart leaves
    exactly one line for the user and the product, of quantity [q1 + q2]
    (5 for 2 and 3). Quantities are positive, the resulting quantity is one
    the [integer] column can hold, the product exists and the requests reach
    the store. *)
Theorem addToCart_merges_lines (productId : uuid) (q1 q2 : Z) (w : World)
    (userId : uuid) :
  auth_uid w = Some userId → synced w → online 4 w →
  cart_constraints (cart_items (db w)) →
  is_Some (products (db w) !! productId) →
  0 < q1 → 0 < q2 →
  (∀ i r, cart_items (db w) !! i = Some r → cart_line_of userId productId r →
     CartRow.quantity r + q1 ≤ 2147483647 →
     ∃ w',
       addToCart productId q1 w = updateCartItem i (CartRow.quantity r + q1) w
       ∧ addToCart productId q1 w = (Return (), w')
       ∧ db w'
         = with_cart_items
             (<[i := CartRow.mk userId productId (CartRow.quantity r + q1)]>
                (cart_items (db w))) (db w))
  ∧ ((∀ i r, cart_items (db w) !! i = Some r → ¬ cart_line_of userId productId r) →
     q1 + q2 ≤ 2147483647 →
     ∃ i w1 w2,
       cart_items (db w) !! i = None
       ∧ addToCart productId q1 w = (Return (), w1)
       ∧ db w1
         = with_cart_items
             (<[i := CartRow.mk userId productId q1]> (cart_items (db w))) (db w)
       ∧ addToCart productId q2 w1 = (Return (), w2)
       ∧ db w2
         = with_cart_items
             (<[i := CartRow.mk userId productId (q1 + q2)]> (cart_items (db w))) (db w)
       ∧ (∀ j r, cart_items (db w2) !! j = Some r → cart_line_of userId productId r →
            j = i ∧ CartRow.quantity r = q1 + q2)).
Proof.
  intros Hauth Hsync Hup Hcons Hprod Hq1 Hq2. split.
  - intros i r Hrow Hline Hfits.
    apply addToCart_existing_run; try done.
    + eapply online_same; [done|]. intros k Hk. apply Hup. lia.
    + destruct Hcons as [Hcheck _]. specialize (Hcheck i r Hrow). lia.
  - intros Hnone Hfits.
    pose proof (fresh_key_unused (cart_items (db w))) as Hfresh.
    set (i := fresh (dom (cart_items (db w)))) in *.
    assert (Hfind : find (λ item, bool_decide (CartItem.product_id item = productId))
                      (cartItems w) = None).
    { destruct (find _ (cartItems w)) as [item|] eqn:Hfind; [|done].
      destruct (find_in_synced_cart_Some w userId productId item Hauth Hsync Hfind)
        as (r & Hrow & Hline & _).
      by destruct (Hnone _ _ Hrow). }
    destruct (mutate_accepted (cart_items_insert userId productId q1)
                "Error adding to cart:" w userId ()
                (with_cart_items
                   (<[i := CartRow.mk userId productId q1]> (cart_items (db w))) (db w)))
      as (w1 & Hrun1 & Hdb1 & Hauth1 & Hout1 & Hsync1).
    { done. }
    { by eapply online_head. }
    { apply cart_items_insert_accepts; [lia|done|done]. }
    rewrite <- (addToCart_absent productId q1 w userId) in Hrun1 by done.
    destruct (addToCart_existing_run productId q2 w1 userId i
                (CartRow.mk userId productId q1))
      as (w2 & _ & Hrun2 & Hdb2).
    { congruence. }
    { apply Hsync1. apply Hup. lia. }
    { rewrite Hdb1. cbn. apply cart_constraints_insert; [done|done|lia|done]. }
    { rewrite Hdb1. cbn. apply lookup_insert_eq. }
    { done. }
    { intros k Hk. rewrite Hout1, !lookup_tail. apply Hup. lia. }
    { cbn. lia. }
    exists i, w1, w2. split_and!; try done.
    + rewrite Hdb2, Hdb1. cbn. by rewrite insert_insert_eq.
    + intros j r. rewrite Hdb2, Hdb1. cbn. rewrite insert_insert_eq.
      intros [[<- <-]|[Hne Hrow]]%lookup_insert_Some Hline; [done|].
      by destruct (Hnone _ _ Hrow).
Qed.

Lemma addToCart_merges_lines_witness :
  ∃ i w1 w2,
    addToCart "headphones" 2 Sample.shop = (Return (), w1)
    ∧ addToCart "headphones" 3 w1 = (Return (), w2)
    ∧ cart_items (db w2) = {[ i := CartRow.mk "alice" "headphones" 5 ]}.
Proof.
  destruct (addToCart_merges_lines "headphones" 2 3 Sample.shop "alice")
    as [_ Hnew].
  - reflexivity.
  - reflexivity.
  - by apply online_no_outage.
  - split; intros i; intros; by simplify_map_eq.
  - by eexists.
  - lia.
  - lia.
  - destruct Hnew as (i & w1 & w2 & _ & Hrun1 & _ & Hrun2 & Hdb2 & _).
    { intros i r Hrow. by simplify_map_eq. }
    { lia. }
    exists i, w1, w2. split_and!; [done|done|]. by rewrite Hdb2.
Defined.

(** ** Adding a quantity below one *)



Lemma sample_cart_rows_constraints : cart_constraints Sample.cart_rows.
Proof.
  unfold Sample.cart_rows. split.
  - intros i r Hi.
    apply lookup_insert_Some in Hi as [[<- <-]|[? Hi]]; [done|].
    apply lookup_insert_Some in Hi as [[<- <-]|[? Hi]]; [done|].
    by rewrite lookup_empty in Hi.
  - intros i j r r' Hi Hj Hu Hp.
    apply lookup_insert_Some in Hi as [[<- <-]|[? Hi]];
      [|apply lookup_insert_Some in Hi as [[<- <-]|[? Hi]];
        [|by rewrite lookup_empty in Hi]];
      (apply lookup_insert_Some in Hj as [[<- <-]|[? Hj]];
       [|apply lookup_insert_Some in Hj as [[<- <-]|[? Hj]];
         [|by rewrite lookup_empty in Hj]]); done.
Qed.


(** ** The wishlist *)

Lemma addToWishlist_lost (userId productId : uuid) (w : World) :
  head (outages w) = Some true →
  ∃ w',
    addToWishlist userId productId w = (Throw (PostgrestError fetch_failed), w')
    ∧ db w' = db w ∧ auth_uid w' = auth_uid w.
Proof.
  intros Hdown. unfold addToWishlist, bind. rewrite await_lost by done.
  eexists. by split_and!.
Qed.

Lemma addToWishlist_duplicate (userId productId : uuid) (w : World) i r :
  auth_uid w = Some userId → head (outages w) ≠ Some true →
  wishlist_items (db w) !! i = Some r → wishlist_entry_of userId productId r →
  ∃ w',
    addToWishlist userId productId w = (Throw (PostgrestError unique_violation), w')
    ∧ db w' = db w ∧ auth_uid w' = auth_uid w.
Proof.
  intros Hauth Hup Hrow Hentry. unfold addToWishlist, bind.
  rewrite await_reached by done. unfold wishlist_items_insert.
  rewrite decide_True by done.
  rewrite decide_True by (apply map_Exists_lookup; eauto).
  eexists. by split_and!.
Qed.

Lemma addToWishlist_new (userId productId : uuid) (w : World) :
  auth_uid w = Some userId → head (outages w) ≠ Some true →
  is_Some (products (db w) !! productId) →
  (∀ i r, wishlist_items (db w) !! i = Some r → ¬ wishlist_entry_of userId productId r) →
  ∃ w',
    addToWishlist userId productId w = (Return (), w')
    ∧ db w'
      = with_wishlist_items
          (<[fresh (dom (wishlist_items (db w))) := WishlistRow.mk userId productId]>
             (wishlist_items (db w))) (db w)
    ∧ auth_uid w' = auth_uid w
    ∧ outages w' = tail (outages w).
Proof.
  intros Hauth Hup [pr Hpr] Hnone. unfold addToWishlist, bind.
  rewrite await_reached by done. unfold wishlist_items_insert.
  rewrite decide_True by done.
  rewrite decide_False; cycle 1.
  { intros (i & r & Hrow & Hentry)%map_Exists_lookup. by eapply Hnone. }
  rewrite Hpr. eexists. by split_and!.
Qed.

(** The second of two [addToWishlist] in a row changes nothing. *)
Lemma addToWishlist_again (userId productId : uuid) (w : World) i r :
  auth_uid w = Some userId →
  wishlist_items (db w) !! i = Some r → wishlist_entry_of userId productId r →
  ∃ e w',
    addToWishlist userId productId w = (Throw (PostgrestError e), w')
    ∧ db w' = db w
    ∧ e = (if decide (head (outages w) = Some true) then fetch_failed
           else unique_violation).
Proof.
  intros Hauth Hrow Hentry. case_decide as Hdown.
  - destruct (addToWishlist_lost userId productId w Hdown) as (w' & ? & ? & _). eauto.
  - destruct (addToWishlist_duplicate userId productId w i r) as (w' & ? & ? & _); eauto.
Qed.

(** C7. Calling [addToWishlist] twice for the same user and product leaves
    exactly one wishlist entry for the pair, and the second call changes
    nothing in the store: it is refused by the uniqueness constraint (a
    [ConflictError], thrown to the caller) unless it is lost in transit. The
    user is signed in, the product exists and the first request reaches the
    store. *)
Theorem addToWishlist_twice_one_entry (userId productId : uuid) (w : World) :
  auth_uid w = Some userId → online 1 w →
  is_Some (products (db w) !! productId) →
  wishlist_constraints (wishlist_items (db w)) →
  ∃ r1 w1 e2 w2 i,
    addToWishlist userId productId w = (r1, w1)
    ∧ addToWishlist userId productId w1 = (Throw (PostgrestError e2), w2)
    ∧ db w2 = db w1
    ∧ wishlist_items (db w2) !! i = Some (WishlistRow.mk userId productId)
    ∧ (∀ j r, wishlist_items (db w2) !! j = Some r →
         wishlist_entry_of userId productId r → j = i)
    ∧ e2 = (if decide (head (outages w1) = Some true) then fetch_failed
            else unique_violation)
    ∧ error_kind (PostgrestError unique_violation) = Some ConflictError.
Proof.
  intros Hauth Hup Hprod Huniq.
  pose proof (online_head 0 w Hup) as Hfirst.
  destruct (decide (map_Exists (λ _, wishlist_entry_of userId productId)
                      (wishlist_items (db w)))) as [Hex|Hnone].
  - apply map_Exists_lookup in Hex as (i & r & Hrow & Hentry).
    destruct (addToWishlist_duplicate userId productId w i r)
      as (w1 & Hrun1 & Hdb1 & Hauth1); try done.
    destruct (addToWishlist_again userId productId w1 i r)
      as (e2 & w2 & Hrun2 & Hdb2 & He2); try congruence.
    exists (Throw (PostgrestError unique_violation)), w1, e2, w2, i.
    split_and!; try done.
    + rewrite Hdb2, Hdb1, Hrow. destruct r, Hentry as [Hu Hp]; simpl in *. congruence.
    + intros j r' Hrow' [Hu' Hp']. rewrite Hdb2, Hdb1 in Hrow'.
      destruct Hentry as [Hu Hp]. eapply Huniq; eauto; congruence.
  - assert (Hno : ∀ i r, wishlist_items (db w) !! i = Some r →
                         ¬ wishlist_entry_of userId productId r).
    { intros i r Hrow Hentry. apply Hnone, map_Exists_lookup. eauto. }
    destruct (addToWishlist_new userId productId w) as (w1 & Hrun1 & Hdb1 & Hauth1 & _);
      try done.
    set (i := fresh (dom (wishlist_items (db w)))) in *.
    destruct (addToWishlist_again userId productId w1 i (WishlistRow.mk userId productId))
      as (e2 & w2 & Hrun2 & Hdb2 & He2); [congruence| |done|].
    { rewrite Hdb1. cbn. apply lookup_insert_eq. }
    exists (Return ()), w1, e2, w2, i. split_and!; try done.
    + rewrite Hdb2, Hdb1. cbn. apply lookup_insert_eq.
    + intros j r. rewrite Hdb2, Hdb1. cbn.
      intros [[<- <-]|[Hne Hrow]]%lookup_insert_Some Hentry; [done|].
      by destruct (Hno _ _ Hrow).
Qed.

Lemma addToWishlist_twice_one_entry_witness :
  ∃ r1 w1 e2 w2 i,
    addToWishlist "alice" "tshirt" Sample.shop = (r1, w1)
    ∧ addToWishlist "alice" "tshirt" w1 = (Throw (PostgrestError e2), w2)
    ∧ db w2 = db w1
    ∧ wishlist_items (db w2) !! i = Some (WishlistRow.mk "alice" "tshirt")
    ∧ (∀ j r, wishlist_items (db w2) !! j = Some r →
         wishlist_entry_of "alice" "tshirt" r → j = i).
Proof.
  destruct (addToWishlist_twice_one_entry "alice" "tshirt" Sample.shop)
    as (r1 & w1 & e2 & w2 & i & Hrun1 & Hrun2 & Hdb & Hin & Hone & _).
  - reflexivity.
  - by apply online_no_outage.
  - by eexists.
  - intros i j r r' Hi. change ((∅ : gmap uuid WishlistRow.t) !! i = Some r) in Hi.
    by rewrite lookup_empty in Hi.
  - by exists r1, w1, e2, w2, i.
Defined.

(** ** Patterns of the form [%term%] *)





Lemma like_compile_literals (t rest : list ascii) :
  wildcard_free t →
  like_compile (t ++ rest) = ((literal <$> t) ++.) <$> like_compile rest.
Proof.
  induction 1 as [|c t (H1 & H2 & H3) _ IH]; simpl.
  - by destruct (like_compile rest).
  - rewrite !decide_False by done. rewrite IH. by destruct (like_compile rest).
Qed.

Lemma list_ascii_of_string_app (s1 s2 : string) :
  String.list_ascii_of_string (s1 +:+ s2)
  = String.list_ascii_of_string s1 ++ String.list_ascii_of_string s2.
Proof. induction s1 as [|c s1 IH]; simpl; [done|by rewrite IH]. Qed.

Lemma plain_char_survives (c : ascii) :
  ¬ special_char c →
  star_to_percent c = c
  ∧ lower_char c ≠ "%"%char ∧ lower_char c ≠ "_"%char ∧ lower_char c ≠ "\"%char.
Proof.
  intros Hc.
  assert (c ≠ "%" ∧ c ≠ "_" ∧ c ≠ "\" ∧ c ≠ "*")%char as (H1 & H2 & H3 & H4).
  { unfold special_char in Hc. rewrite !elem_of_cons in Hc. naive_solver. }
  split; [unfold star_to_percent; by rewrite decide_False|].
  clear Hc H4.
  destruct c as [[] [] [] [] [] [] [] []]; vm_compute; split_and!; congruence.
Qed.

Lemma plain_pattern (s : string) :
  plain s →
  ilike_pattern ("%" +:+ s +:+ "%")
  = Some (any_string :: (literal <$> lower (String.list_ascii_of_string s))
            ++ [any_string]).
Proof.
  intros Hs. unfold ilike_pattern.
  rewrite !list_ascii_of_string_app, !fmap_app. unfold lower.
  rewrite !fmap_app. simpl.
  replace (star_to_percent <$> String.list_ascii_of_string s)
    with (String.list_ascii_of_string s); cycle 1.
  { unfold plain in Hs. induction Hs as [|c t Hc _ IH]; [done|].
    rewrite fmap_cons, <- IH. f_equal. symmetry. by apply plain_char_survives. }
  rewrite like_compile_literals; [done|].
  apply Forall_fmap. eapply Forall_impl; [exact Hs|].
  intros c Hc. simpl. by apply plain_char_survives.
Qed.







(** ** The catalog *)

Lemma getProducts_unfold (filters : FilterOptions.t) :
  getProducts filters
  = (let! r := await (products_select (getProducts_query filters) None) in
     match r with
     | Error error =>
       console_error "Error fetching products:" error;;; throw (PostgrestError error)
     | Data data => ret data
     end).
Proof.
  unfold getProducts, getProducts_query.
  destruct (truthy (FilterOptions.category filters)),
    (FilterOptions.minPrice filters), (FilterOptions.maxPrice filters),
    (truthy (FilterOptions.search filters)); reflexivity.
Qed.

Lemma products_where_elem (query : list Filter) (d : Database) (kr : uuid * ProductRow.t) :
  kr ∈ products_where query d
  ↔ products d !! kr.1 = Some kr.2
    ∧ ProductRow.is_active kr.2 = true
    ∧ forallb (λ f, filter_holds f kr) query = true.
Proof.
  unfold products_where, visible_products.
  rewrite list_elem_of_filter, elem_of_map_to_list', map_lookup_filter_Some.
  simpl. tauto.
Qed.

Lemma products_select_elem (query : list Filter) (limit : option nat)
    (uid : option uuid) (d : Database) (l : list Product.t) (p : Product.t) :
  (products_select query limit uid d).1 = Data l → p ∈ l →
  ∃ i r, products d !! i = Some r
         ∧ ProductRow.is_active r = true
         ∧ forallb (λ f, filter_holds f (i, r)) query = true
         ∧ p = Product.of_row i r.
Proof.
  unfold products_select. destruct (forallb filter_well_formed query); [|done].
  simpl. intros [= <-] ([i r] & -> & Hin)%list_elem_of_fmap.
  assert ((i, r) ∈ merge_sort (listed_before (row_order d query limit))
                     (products_where query d)) as Hsorted.
  { destruct limit as [n|]; [|done].
    apply elem_of_take in Hin as (k & Hk & _). by eapply list_elem_of_lookup_2. }
  rewrite merge_sort_Permutation in Hsorted.
  apply products_where_elem in Hsorted as (? & ? & ?). by exists i, r.
Qed.

Lemma products_select_all (query : list Filter) (uid : option uuid) (d : Database)
    (i : uuid) (r : ProductRow.t) :
  forallb filter_well_formed query = true →
  products d !! i = Some r → ProductRow.is_active r = true →
  forallb (λ f, filter_holds f (i, r)) query = true →
  ∃ l, products_select query None uid d = (Data l, d) ∧ Product.of_row i r ∈ l.
Proof.
  intros Hwf Hrow Hact Hq. unfold products_select. rewrite Hwf.
  eexists. split; [done|].
  apply list_elem_of_fmap. exists (i, r). split; [done|].
  rewrite merge_sort_Permutation. by apply products_where_elem.
Qed.

Lemma getProducts_query_holds (filters : FilterOptions.t) (kr : uuid * ProductRow.t) :
  forallb (λ f, filter_holds f kr) (getProducts_query filters) = true
  ↔ ProductRow.is_active kr.2 = true
    ∧ (∀ category, truthy (FilterOptions.category filters) = Some category →
         ProductRow.category_id kr.2 = Some category)
    ∧ (∀ minPrice, FilterOptions.minPrice filters = Some minPrice →
         minPrice ≤ ProductRow.price kr.2)
    ∧ (∀ maxPrice, FilterOptions.maxPrice filters = Some maxPrice →
         ProductRow.price kr.2 ≤ maxPrice)
    ∧ (∀ search, truthy (FilterOptions.search filters) = Some search →
         ilike ("%" +:+ search +:+ "%") (ProductRow.name kr.2)
         || ilike ("%" +:+ search +:+ "%") (ProductRow.description kr.2) = true).
Proof.
  unfold getProducts_query.
  destruct (truthy (FilterOptions.category filters)) as [c|],
    (FilterOptions.minPrice filters) as [lo|],
    (FilterOptions.maxPrice filters) as [hi|],
    (truthy (FilterOptions.search filters)) as [s|];
    cbn [app forallb filter_holds];
    rewrite ?andb_true_iff, ?bool_decide_eq_true;
    (split;
     [intros Hall; destruct_and?; split_and!; [done|intros ? ?; by simplify_eq..]
     |intros (Ha & Hc & Hlo & Hhi & Hs); split_and?; eauto]).
Qed.

Lemma getProducts_query_well_formed (filters : FilterOptions.t) :
  (∀ search, truthy (FilterOptions.search filters) = Some search → plain search) →
  forallb filter_well_formed (getProducts_query filters) = true.
Proof.
  intros Hplain. unfold getProducts_query.
  destruct (truthy (FilterOptions.category filters)) as [c|],
    (FilterOptions.minPrice filters) as [lo|],
    (FilterOptions.maxPrice filters) as [hi|],
    (truthy (FilterOptions.search filters)) as [term|];
    cbn [app forallb filter_well_formed]; try done;
    rewrite (plain_pattern term) by eauto; done.
Qed.

Lemma getProducts_returned (filters : FilterOptions.t) (w : World) (l : list Product.t) :
  (getProducts filters w).1 = Return l →
  (products_select (getProducts_query filters) None (auth_uid w) (db w)).1 = Data l.
Proof.
  rewrite getProducts_unfold. unfold bind, await.
  destruct (head (outages w)) as [[]|]; [done| |];
    by destruct (products_select _ _ _ _) as [[data|e] d]; intros [= ->].
Qed.

Lemma getFeaturedProducts_returned (limit : nat) (w : World) (l : list Product.t) :
  (getFeaturedProducts limit w).1 = Return l →
  (products_select [eq_is_active true] (Some limit) (auth_uid w) (db w)).1 = Data l.
Proof.
  unfold getFeaturedProducts, bind, await.
  destruct (head (outages w)) as [[]|]; [done| |];
    by destruct (products_select _ _ _ _) as [[data|e] d]; intros [= ->].
Qed.






(** ** The constraints of the schema are invariants of the statements

    The hypotheses [cart_constraints] and [wishlist_constraints] of the
    properties above hold of the empty tables and are kept by every
    statement the services send. *)

Lemma cart_constraints_empty : cart_constraints ∅.
Proof. split; intros i; intros; by simplify_map_eq. Qed.

Lemma cart_constraints_subset (m m' : gmap uuid CartRow.t) :
  m' ⊆ m → cart_constraints m → cart_constraints m'.
Proof.
  intros Hsub [Hcheck Huniq]. split.
  - intros i r Hi. eapply Hcheck, lookup_weaken; eauto.
  - intros i j r r' Hi Hj. eapply Huniq; eapply lookup_weaken; eauto.
Qed.

Lemma cart_items_insert_keeps_constraints (u p : uuid) (q : Z)
    (uid : option uuid) (d : Database) :
  cart_constraints (cart_items d) →
  cart_constraints (cart_items (cart_items_insert u p q uid d).2).
Proof.
  intros Hcons. unfold cart_items_insert.
  destruct (decide (integer_column q)) as [[_ Hfits]|]; [|done].
  destruct (decide (uid = Some u)); [|done].
  destruct (decide (0 < q)); [|done].
  destruct (decide (map_Exists _ _)) as [|Hnone]; [done|].
  destruct (products d !! p); [|done]. cbn.
  apply cart_constraints_insert; [done|apply fresh_key_unused|done|].
  intros j r Hj Hline. apply Hnone, map_Exists_lookup. eauto.
Qed.

Lemma cart_items_update_keeps_constraints (i : uuid) (q : Z)
    (uid : option uuid) (d : Database) :
  cart_constraints (cart_items d) →
  cart_constraints (cart_items (cart_items_update i q uid d).2).
Proof.
  intros [Hcheck Huniq]. unfold cart_items_update.
  destruct (decide (integer_column q)) as [[_ Hfits]|]; [|done].
  destruct (cart_items d !! i) as [r|] eqn:Hrow; [|done].
  destruct (decide (uid = _)); [|done].
  destruct (decide (0 < q)); [|done]. cbn. split.
  - intros j r' [[<- <-]|[Hne Hj]]%lookup_insert_Some; [done|by eapply Hcheck].
  - intros j k r1 r2 [[<- <-]|[Hj H1]]%lookup_insert_Some
                     [[<- <-]|[Hk H2]]%lookup_insert_Some Hu Hp; simpl in *.
    + done.
    + by eapply (Huniq i k r r2).
    + by eapply (Huniq j i r1 r).
    + by eapply Huniq.
Qed.

Lemma cart_items_delete_id_keeps_constraints (i : uuid)
    (uid : option uuid) (d : Database) :
  cart_constraints (cart_items d) →
  cart_constraints (cart_items (cart_items_delete_id i uid d).2).
Proof.
  intros Hcons. unfold cart_items_delete_id.
  destruct (cart_items d !! i) as [r|]; [|done].
  destruct (decide (uid = _)); [|done]. cbn.
  eapply cart_constraints_subset; [apply delete_subseteq|done].
Qed.

Lemma cart_items_delete_user_keeps_constraints (u : uuid)
    (uid : option uuid) (d : Database) :
  cart_constraints (cart_items d) →
  cart_constraints (cart_items (cart_items_delete_user u uid d).2).
Proof.
  intros Hcons. unfold cart_items_delete_user. cbn.
  eapply cart_constraints_subset; [apply map_filter_subseteq|done].
Qed.

Lemma wishlist_items_insert_keeps_constraints (u p : uuid)
    (uid : option uuid) (d : Database) :
  wishlist_constraints (wishlist_items d) →
  wishlist_constraints (wishlist_items (wishlist_items_insert u p uid d).2).
Proof.
  intros Huniq. unfold wishlist_items_insert.
  destruct (decide (uid = Some u)); [|done].
  destruct (decide (map_Exists _ _)) as [|Hnone]; [done|].
  destruct (products d !! p); [|done]. cbn.
  assert (∀ j r, wishlist_items d !! j = Some r → ¬ wishlist_entry_of u p r) as Hno.
  { intros j r Hj Hentry. apply Hnone, map_Exists_lookup. eauto. }
  pose proof (fresh_key_unused (wishlist_items d)) as Hfresh.
  intros j k r r' [[<- <-]|[Hj H1]]%lookup_insert_Some
                  [[<- <-]|[Hk H2]]%lookup_insert_Some Hu Hp; simpl in *.
  - done.
  - by destruct (Hno k r' H2).
  - by destruct (Hno j r H1).
  - by eapply Huniq.
Qed.

Lemma wishlist_items_delete_keeps_constraints (u p : uuid)
    (uid : option uuid) (d : Database) :
  wishlist_constraints (wishlist_items d) →
  wishlist_constraints (wishlist_items (wishlist_items_delete u p uid d).2).
Proof.
  intros Huniq. unfold wishlist_items_delete. cbn.
  intros j k r r' Hj%map_lookup_filter_Some_1_1 Hk%map_lookup_filter_Some_1_1.
  by eapply Huniq.
Qed.

(** * More of the cart provider *)

Lemma loadCartItems_keeps_store (w : World) :
  ∃ w',
    loadCartItems w = (Return (), w')
    ∧ db w' = db w ∧ auth_uid w' = auth_uid w.
Proof.
  destruct (auth_uid w) as [u|] eqn:Hauth.
  - destruct (loadCartItems_run w u Hauth) as (w' & ? & ? & ? & _).
    exists w'. split_and!; congruence.
  - unfold loadCartItems, useAuth_user, bind. rewrite Hauth. by eexists.
Qed.

(** Where the store ends after the shared pattern of one statement followed
    by a reload: as it was, or as the statement left it. *)
Lemma mutate_store {A} (q : Sql A) (msg : string) (w : World) :
  ∃ r w',
    (let! r := await q in
     match r with
     | Error error => console_error msg error;;; throw (PostgrestError error)
     | Data _ => loadCartItems
     end) w = (r, w')
    ∧ auth_uid w' = auth_uid w
    ∧ (db w' = db w ∨ db w' = (q (auth_uid w) (db w)).2).
Proof.
  unfold bind at 1.
  destruct (decide (head (outages w) = Some true)) as [Hdown|Hup].
  - rewrite await_lost by done. cbn. eexists _, _. split_and!; [done|done|by left].
  - rewrite await_reached by done.
    destruct (q (auth_uid w) (db w)) as [[a|e] d']; cbn [fst snd].
    + destruct (loadCartItems_keeps_store (with_db d' (tick w))) as (w' & -> & Hdb & Ha).
      eexists _, _. split_and!; [done|done|]. right. by rewrite Hdb.
    + cbn. eexists _, _. split_and!; [done|done|by right].
Qed.

Lemma clearCart_store (w : World) :
  ∃ r w',
    clearCart w = (r, w')
    ∧ auth_uid w' = auth_uid w
    ∧ (db w' = db w
       ∨ ∃ u, auth_uid w = Some u
              ∧ db w' = (cart_items_delete_user u (auth_uid w) (db w)).2).
Proof.
  unfold clearCart, useAuth_user. unfold bind at 1.
  destruct (auth_uid w) as [u|] eqn:Hauth;
    [|eexists _, _; split_and!; [done|done|by left]].
  unfold bind at 1.
  destruct (decide (head (outages w) = Some true)) as [Hdown|Hup].
  - rewrite await_lost by done. cbn. eexists _, _. split_and!; [done|done|by left].
  - rewrite await_reached by done. cbn. eexists _, _. split_and!; [done|done|].
    right. exists u. by rewrite Hauth.
Qed.

(** One call of the provider: the session is kept and the store ends as it
    was or as one statement on [cart_items] left it. *)
Lemma run_call_store (c : CartCall) (w : World) :
  auth_uid (run_call c w).2 = auth_uid w
  ∧ (db (run_call c w).2 = db w
     ∨ ∃ q : Sql unit,
         db (run_call c w).2 = (q (auth_uid w) (db w)).2
         ∧ ((∃ u p n, q = cart_items_insert u p n)
            ∨ (∃ i n, q = cart_items_update i n)
            ∨ (∃ i, q = cart_items_delete_id i)
            ∨ (∃ u, q = cart_items_delete_user u))).
Proof.
  assert (Hremove : ∀ i,
    auth_uid (removeFromCart i w).2 = auth_uid w
    ∧ (db (removeFromCart i w).2 = db w
       ∨ db (removeFromCart i w).2 = (cart_items_delete_id i (auth_uid w) (db w)).2)).
  { intros i.
    destruct (mutate_store (cart_items_delete_id i) "Error removing from cart:" w)
      as (r & w' & Hrun & Ha & Hdb).
    unfold removeFromCart. by rewrite Hrun. }
  assert (Hupdate : ∀ i n,
    auth_uid (updateCartItem i n w).2 = auth_uid w
    ∧ (db (updateCartItem i n w).2 = db w
       ∨ db (updateCartItem i n w).2 = (cart_items_delete_id i (auth_uid w) (db w)).2
       ∨ db (updateCartItem i n w).2 = (cart_items_update i n (auth_uid w) (db w)).2)).
  { intros i n. unfold updateCartItem. case_decide.
    - destruct (Hremove i) as [? [?|?]]; eauto.
    - destruct (mutate_store (cart_items_update i n) "Error updating cart item:" w)
        as (r & w' & Hrun & Ha & Hdb).
      rewrite Hrun. cbn. split; [done|]. destruct Hdb; eauto. }
  destruct c as [p n|i n|i|]; cbn [run_call].
  - destruct (auth_uid w) as [u|] eqn:Hauth.
    + destruct (find (λ item, bool_decide (CartItem.product_id item = p)) (cartItems w))
        as [item|] eqn:Hfind.
      * rewrite (addToCart_existing p n w u item Hauth Hfind).
        destruct (Hupdate (CartItem.id item) (CartItem.quantity item + n))
          as [Ha [Hdb|[Hdb|Hdb]]]; (split; [done|]);
          [by left|right..]; eexists; (split; [exact Hdb|]); eauto 10.
      * rewrite (addToCart_absent p n w u Hauth Hfind).
        destruct (mutate_store (cart_items_insert u p n) "Error adding to cart:" w)
          as (r & w' & Hrun & Ha & Hdb).
        rewrite Hauth in Ha, Hdb. rewrite Hrun. cbn. split; [done|].
        destruct Hdb as [Hdb|Hdb]; [by left|right].
        eexists. split; [exact Hdb|]. eauto 10.
    + unfold addToCart, useAuth_user, throw. unfold bind at 1. rewrite Hauth.
      cbn. rewrite Hauth. split; [done|by left].
  - destruct (Hupdate i n) as [Ha [Hdb|[Hdb|Hdb]]]; (split; [done|]);
      [by left|right..]; eexists; (split; [exact Hdb|]); eauto 10.
  - destruct (Hremove i) as [Ha [Hdb|Hdb]]; (split; [done|]);
      [by left|right]; eexists; (split; [exact Hdb|]); eauto 10.
  - destruct (clearCart_store w) as (r & w' & Hrun & Ha & Hdb).
    rewrite Hrun. cbn. split; [done|].
    destruct Hdb as [Hdb|(u & Hu & Hdb)]; [by left|right].
    eexists. split; [exact Hdb|]. eauto 10.
Qed.

Lemma cart_statement_keeps_schema (q : Sql unit) (uid : option uuid) (d : Database) :
  (∃ u p n, q = cart_items_insert u p n)
  ∨ (∃ i n, q = cart_items_update i n)
  ∨ (∃ i, q = cart_items_delete_id i)
  ∨ (∃ u, q = cart_items_delete_user u) →
  (cart_constraints (cart_items d) → cart_constraints (cart_items (q uid d).2))
  ∧ products (q uid d).2 = products d
  ∧ wishlist_items (q uid d).2 = wishlist_items d
  ∧ orders (q uid d).2 = orders d
  ∧ order_items (q uid d).2 = order_items d.
Proof.
  intros [(u & p & n & ->)|[(i & n & ->)|[(i & ->)|(u & ->)]]].
  - split; [apply cart_items_insert_keeps_constraints|].
    unfold cart_items_insert. repeat case_decide; try done.
    by destruct (products d !! p).
  - split; [apply cart_items_update_keeps_constraints|].
    unfold cart_items_update. case_decide; [|done].
    destruct (cart_items d !! i); [|done].
    by repeat case_decide.
  - split; [apply cart_items_delete_id_keeps_constraints|].
    unfold cart_items_delete_id. destruct (cart_items d !! i); [|done].
    by repeat case_decide.
  - split; [apply cart_items_delete_user_keeps_constraints|]. done.
Qed.

(** X1. Whatever sequence of calls the pages make on the cart provider
    ([addToCart], [updateCartItem], [removeFromCart], [clearCart], with any
    arguments, whether requests are lost or not), the table [cart_items]
    keeps its constraints (positive quantities, at most one line per user
    and product), and the tables [products], [wishlist_items], [orders] and
    [order_items] and the session are left untouched. *)
Theorem cart_calls_keep_schema (cs : list CartCall) (w : World) :
  cart_constraints (cart_items (db w)) →
  cart_constraints (cart_items (db (run_calls cs w)))
  ∧ products (db (run_calls cs w)) = products (db w)
  ∧ wishlist_items (db (run_calls cs w)) = wishlist_items (db w)
  ∧ orders (db (run_calls cs w)) = orders (db w)
  ∧ order_items (db (run_calls cs w)) = order_items (db w)
  ∧ auth_uid (run_calls cs w) = auth_uid w.
Proof.
  revert w. induction cs as [|c cs IH]; intros w Hcons; [done|].
  unfold run_calls in *. cbn [foldl].
  destruct (run_call_store c w) as [Ha Hdb].
  assert (cart_constraints (cart_items (db (run_call c w).2))
          ∧ products (db (run_call c w).2) = products (db w)
          ∧ wishlist_items (db (run_call c w).2) = wishlist_items (db w)
          ∧ orders (db (run_call c w).2) = orders (db w)
          ∧ order_items (db (run_call c w).2) = order_items (db w))
    as (Hcons' & Hp & Hw & Ho & Hi).
  { destruct Hdb as [->|(q & -> & Hq)]; [done|].
    destruct (cart_statement_keeps_schema q (auth_uid w) (db w) Hq) as (? & ? & ? & ? & ?).
    auto. }
  destruct (IH _ Hcons') as (? & ? & ? & ? & ? & ?).
  split_and!; congruence.
Qed.

Lemma cart_calls_keep_schema_witness :
  cart_constraints
    (cart_items
       (db (run_calls [call_addToCart "headphones" 2; call_addToCart "tshirt" 0;
                       call_updateCartItem "0" (-3); call_clearCart] Sample.shop)))
  ∧ products
      (db (run_calls [call_addToCart "headphones" 2; call_addToCart "tshirt" 0;
                      call_updateCartItem "0" (-3); call_clearCart] Sample.shop))
    = Sample.catalog.
Proof.
  destruct (cart_calls_keep_schema
              [call_addToCart "headphones" 2; call_addToCart "tshirt" 0;
               call_updateCartItem "0" (-3); call_clearCart] Sample.shop)
    as (Hcons & Hproducts & _).
  - exact cart_constraints_empty.
  - split; [exact Hcons|exact Hproducts].
Defined.

Lemma cart_items_delete_id_answers (itemId : uuid) (uid : option uuid) (d : Database) :
  cart_items_delete_id itemId uid d
  = (Data (), (cart_items_delete_id itemId uid d).2).
Proof.
  unfold cart_items_delete_id. destruct (cart_items d !! itemId); [|done].
  by case_decide.
Qed.

(** X2. [removeFromCart] deletes the line when it belongs to the signed-in
    user; for an identifier that names no line, or a line of somebody else,
    it returns normally and deletes nothing. No other line changes, and the
    provider's state is in step with the store afterwards. *)
Theorem removeFromCart_only_own_line (itemId : uuid) (w : World) (u : uuid) :
  auth_uid w = Some u → online 2 w →
  ∃ w',
    removeFromCart itemId w = (Return (), w')
    ∧ cart_items (db w') !! itemId
      = match cart_items (db w) !! itemId with
        | Some r => if decide (CartRow.user_id r = u) then None else Some r
        | None => None
        end
    ∧ (∀ j, j ≠ itemId → cart_items (db w') !! j = cart_items (db w) !! j)
    ∧ products (db w') = products (db w)
    ∧ synced w'.
Proof.
  intros Hauth Hup.
  destruct (mutate_accepted (cart_items_delete_id itemId) "Error removing from cart:"
              w u () (cart_items_delete_id itemId (Some u) (db w)).2)
    as (w' & Hrun & Hdb & _ & _ & Hsync); [done|by eapply online_head| |].
  { apply cart_items_delete_id_answers. }
  exists w'. split; [exact Hrun|]. rewrite Hdb.
  split_and!; [| | |apply Hsync, Hup; lia];
    unfold cart_items_delete_id;
    destruct (cart_items (db w) !! itemId) as [r|] eqn:Hrow; try done.
  - destruct (decide (Some u = Some (CartRow.user_id r))) as [[= ->]|Hne].
    + rewrite decide_True by done. cbn. apply lookup_delete_eq.
    + rewrite decide_False by congruence. done.
  - intros j Hj. case_decide; [|done]. cbn. by rewrite lookup_delete_ne.
  - by case_decide.
Qed.

Lemma removeFromCart_only_own_line_witness :
  (∃ w', removeFromCart "line-1" Sample.shop_with_cart = (Return (), w')
         ∧ cart_items (db w') !! "line-1" = None
         ∧ cart_items (db w') !! "line-2" = Some (CartRow.mk "alice" "tshirt" 2))
  ∧ (∃ w', removeFromCart "no-such-line" Sample.shop_with_cart = (Return (), w')
           ∧ cart_items (db w') !! "line-1" = Some (CartRow.mk "alice" "headphones" 1)).
Proof.
  split.
  - destruct (removeFromCart_only_own_line "line-1" Sample.shop_with_cart "alice")
      as (w' & Hrun & Hgone & Hothers & _);
      [reflexivity|by apply online_no_outage|].
    exists w'. split_and!; [done|done|]. by rewrite Hothers.
  - destruct (removeFromCart_only_own_line "no-such-line" Sample.shop_with_cart "alice")
      as (w' & Hrun & _ & Hothers & _);
      [reflexivity|by apply online_no_outage|].
    exists w'. split; [done|]. by rewrite Hothers.
Defined.

Lemma cleared_cart_view_empty (w : World) (u : uuid) (m : gmap uuid CartRow.t) :
  auth_uid w = Some u →
  cart_items (db w) = cleared_cart u m → cart_view w = [].
Proof.
  intros Hauth Hm. unfold cart_view. rewrite Hauth, Hm.
  replace (filter _ (cleared_cart u m)) with (∅ : gmap uuid CartRow.t); [done|].
  symmetry. apply map_empty. intros i. apply map_lookup_filter_None. right.
  intros r [Hrow Hu]%cleared_cart_lookup [Hu' _]. done.
Qed.

(** X3. [clearCart], for a signed-in user: when its request reaches the
    store, every cart line of the user is deleted and no line of anyone
    else, the provider's list is emptied and is in step with the store; when
    the request is lost, the store's error is thrown and neither the store
    nor the provider's list changes. *)
Theorem clearCart_empties_own_cart (w : World) (u : uuid) :
  auth_uid w = Some u →
  (head (outages w) ≠ Some true →
   ∃ w',
     clearCart w = (Return (), w')
     ∧ (∀ i r, cart_items (db w') !! i = Some r
               ↔ cart_items (db w) !! i = Some r ∧ CartRow.user_id r ≠ u)
     ∧ cartItems w' = []
     ∧ synced w')
  ∧ (head (outages w) = Some true →
     ∃ w',
       clearCart w = (Throw (PostgrestError fetch_failed), w')
       ∧ db w' = db w
       ∧ cartItems w' = cartItems w
       ∧ console w' = console w ++ [("Error clearing cart:"%string, fetch_failed)]).
Proof.
  intros Hauth. unfold clearCart, useAuth_user. split; intros Hfirst.
  - unfold bind at 1. rewrite Hauth. unfold bind at 1.
    rewrite await_reached by done. cbn [fst snd cart_items_delete_user].
    eexists. split; [reflexivity|]. rewrite Hauth. cbn.
    split_and!; [intros i r; apply cleared_cart_lookup|done|].
    unfold synced. cbn [cartItems with_cartItems]. symmetry.
    apply (cleared_cart_view_empty _ u (cart_items (db w))); [done|]. done.
  - unfold bind at 1. rewrite Hauth. unfold bind at 1.
    rewrite await_lost by done. eexists. by split_and!.
Qed.

Lemma clearCart_empties_own_cart_witness :
  ∃ w',
    clearCart Sample.shop_with_cart = (Return (), w')
    ∧ cart_items (db w') !! "line-1" = None
    ∧ cartItems w' = [].
Proof.
  destruct (clearCart_empties_own_cart Sample.shop_with_cart "alice")
    as [Hreached _]; [reflexivity|].
  destruct Hreached as (w' & Hrun & Hlines & Hstate & _); [done|].
  exists w'. split_and!; [done| |done].
  destruct (cart_items (db w') !! "line-1") as [r|] eqn:Hrow; [|done].
  apply Hlines in Hrow as [Hrow Hu]. by injection Hrow as <-.
Defined.

(** X4. When the provider's list has no line for the product although the
    store holds one for the user (the list is out of date), [addToCart],
    for a positive quantity the [integer] column can hold, sends an insert,
    which the uniqueness constraint refuses: the conflict is logged and
    thrown, and neither the store nor the list changes -- no second line is
    ever created. *)
Theorem addToCart_stale_list_conflict (productId : uuid) (quantity : Z) (w : World)
    (u i : uuid) (r : CartRow.t) :
  auth_uid w = Some u → head (outages w) ≠ Some true → 0 < quantity ≤ 2147483647 →
  find (λ item, bool_decide (CartItem.product_id item = productId)) (cartItems w)
  = None →
  cart_items (db w) !! i = Some r → cart_line_of u productId r →
  ∃ w',
    addToCart productId quantity w = (Throw (PostgrestError unique_violation), w')
    ∧ error_kind (PostgrestError unique_violation) = Some ConflictError
    ∧ db w' = db w
    ∧ cartItems w' = cartItems w
    ∧ console w' = console w ++ [("Error adding to cart:"%string, unique_violation)].
Proof.
  intros Hauth Hup Hq Hfind Hrow Hline.
  rewrite (addToCart_absent productId quantity w u Hauth Hfind).
  unfold bind at 1. rewrite await_reached, Hauth by done.
  unfold cart_items_insert.
  rewrite decide_True by (unfold integer_column; lia).
  rewrite decide_True by done. rewrite decide_True by lia.
  rewrite decide_True by (apply map_Exists_lookup; eauto).
  cbn. eexists. by split_and!.
Qed.

Lemma addToCart_stale_list_conflict_witness :
  ∃ w',
    addToCart "tshirt" 1 shop_not_loaded
    = (Throw (PostgrestError unique_violation), w')
    ∧ db w' = db shop_not_loaded.
Proof.
  destruct (addToCart_stale_list_conflict "tshirt" 1 shop_not_loaded "alice" "line-2"
              (CartRow.mk "alice" "tshirt" 2))
    as (w' & Hrun & _ & Hdb & _).
  - reflexivity.
  - done.
  - done.
  - reflexivity.
  - reflexivity.
  - done.
  - exists w'. split; [exact Hrun|exact Hdb].
Defined.

Lemma signed_out_statement (q : Sql unit) (d : Database) :
  (∃ u p n, q = cart_items_insert u p n)
  ∨ (∃ i n, q = cart_items_update i n)
  ∨ (∃ i, q = cart_items_delete_id i)
  ∨ (∃ u, q = cart_items_delete_user u) →
  (q None d).2 = d.
Proof.
  intros [(u & p & n & ->)|[(i & n & ->)|[(i & ->)|(u & ->)]]].
  - unfold cart_items_insert. by case_decide.
  - unfold cart_items_update. case_decide; [|done]. by destruct (cart_items d !! i).
  - unfold cart_items_delete_id. by destruct (cart_items d !! i).
  - unfold cart_items_delete_user. cbn.
    rewrite map_filter_id; [by destruct d|]. by intros i r _ [_ ?].
Qed.

(** X5. Without a signed-in user, [addToCart] throws "Must be logged in to
    add items to cart" before any request is sent, [clearCart] and
    [loadCartItems] do nothing, and no call on the provider changes the
    store, [updateCartItem] and [removeFromCart] included. *)
Theorem cart_provider_signed_out (w : World) :
  auth_uid w = None →
  (∀ productId quantity,
     addToCart productId quantity w
     = (Throw (JsError "Must be logged in to add items to cart"), w))
  ∧ clearCart w = (Return (), w)
  ∧ loadCartItems w = (Return (), w)
  ∧ (∀ c, db (run_call c w).2 = db w).
Proof.
  intros Hauth. split_and!.
  - intros p n. unfold addToCart, useAuth_user, bind. by rewrite Hauth.
  - unfold clearCart, useAuth_user, bind. by rewrite Hauth.
  - unfold loadCartItems, useAuth_user, bind. by rewrite Hauth.
  - intros c. destruct (run_call_store c w) as [_ [Hdb|(q & Hdb & Hq)]]; [done|].
    rewrite Hdb, Hauth. by apply signed_out_statement.
Qed.

Lemma cart_provider_signed_out_witness :
  addToCart "tshirt" 1 shop_signed_out
  = (Throw (JsError "Must be logged in to add items to cart"), shop_signed_out)
  ∧ cart_items (db (run_call (call_removeFromCart "line-1") shop_signed_out).2)
    = Sample.cart_rows.
Proof.
  destruct (cart_provider_signed_out shop_signed_out)
    as (Hadd & _ & _ & Hcalls); [reflexivity|].
  split; [apply Hadd|]. by rewrite Hcalls.
Defined.

Lemma sumZ_Permutation (l l' : list Z) : l ≡ₚ l' → sumZ l = sumZ l'.
Proof.
  induction 1 as [|x l l' _ IH|x y l|l l' l'' _ IH1 _ IH2];
    rewrite ?sumZ_cons; lia.
Qed.

(** X6. [loadCartItems] asks the store for no ordering of the lines. The
    item count does not depend on the order in which the lines arrive: two
    lists with the same lines in any order have the same [totalItems]. The
    amount does, being accumulated in floating point: one T-shirt, one pair
    of jeans and one lamp (24.99, 79.99, 89.99) give 194.96999999999997 in
    this order and 194.97 in the reverse order. *)
Theorem cart_totals_and_line_order :
  (∀ l l' : list CartItem.t, l ≡ₚ l' → totalItems l = totalItems l')
  ∧ Sample.three_lines ≡ₚ reverse Sample.three_lines
  ∧ totalAmount Sample.three_lines = S754_finite false 6859897026159574 (-45)
  ∧ totalAmount (reverse Sample.three_lines) = number_of_cents 19497
  ∧ totalAmount Sample.three_lines ≠ totalAmount (reverse Sample.three_lines).
Proof.
  split_and!.
  - intros l l' Hperm. rewrite !totalItems_eq_spec. unfold totalItems_spec.
    apply sumZ_Permutation. by apply fmap_Permutation.
  - symmetry. apply reverse_Permutation.
  - by vm_compute.
  - by vm_compute.
  - vm_compute. intros [=].
Qed.

Lemma cart_totals_and_line_order_witness :
  totalItems (reverse Sample.cart) = totalItems Sample.cart.
Proof.
  apply (proj1 cart_totals_and_line_order). apply reverse_Permutation.
Defined.

Lemma sumZ_positive (l : list Z) :
  Forall (λ x, 0 < x) l → 0 ≤ sumZ l ∧ (sumZ l = 0 ↔ l = []).
Proof.
  induction 1 as [|x l Hx _ [IH1 IH2]]; [done|].
  rewrite sumZ_cons. split; [lia|]. split; [lia|done].
Qed.

(** X7. With the provider in step with a store that satisfies
    [CHECK (quantity > 0)], every line of the cart has a positive quantity,
    so [totalItems], the number on the header's cart badge, is never
    negative and is zero exactly when the cart is empty. *)
Theorem cart_badge_counts_lines (w : World) :
  synced w → cart_constraints (cart_items (db w)) →
  Forall (λ item, 0 < CartItem.quantity item) (cartItems w)
  ∧ 0 ≤ totalItems (cartItems w)
  ∧ (totalItems (cartItems w) = 0 ↔ cartItems w = []).
Proof.
  intros Hsync [Hcheck _].
  assert (Forall (λ item, 0 < CartItem.quantity item) (cartItems w)) as Hpos.
  { rewrite Hsync. unfold cart_view. destruct (auth_uid w) as [u|]; [|done].
    apply Forall_fmap, Forall_forall. intros [i r] Hin.
    apply elem_of_map_to_list, map_lookup_filter_Some in Hin as [Hrow _].
    simpl. by eapply Hcheck. }
  split; [done|]. rewrite totalItems_eq_spec. unfold totalItems_spec.
  destruct (sumZ_positive (CartItem.quantity <$> cartItems w)) as [Hge Hzero].
  { by apply Forall_fmap. }
  split; [done|]. rewrite Hzero. split; [apply fmap_nil_inv|by intros ->].
Qed.

Lemma cart_badge_counts_lines_witness :
  0 ≤ totalItems (cartItems Sample.shop_with_cart)
  ∧ (totalItems (cartItems Sample.shop_with_cart) = 0
     ↔ cartItems Sample.shop_with_cart = []).
Proof.
  destruct (cart_badge_counts_lines Sample.shop_with_cart) as (_ & Hge & Hzero).
  - reflexivity.
  - exact sample_cart_rows_constraints.
  - by split.
Defined.

(** X8. Adding a product that is not yet in the cart (in a positive quantity
    the [integer] column can hold) and then removing the line that was
    created puts the store back exactly as it was, with the provider in step
    with it. *)
Theorem addToCart_then_removeFromCart (productId : uuid) (quantity : Z) (w : World)
    (u : uuid) :
  auth_uid w = Some u → synced w → online 4 w → 0 < quantity ≤ 2147483647 →
  is_Some (products (db w) !! productId) →
  (∀ i r, cart_items (db w) !! i = Some r → ¬ cart_line_of u productId r) →
  ∃ i w1 w2,
    addToCart productId quantity w = (Return (), w1)
    ∧ cart_items (db w) !! i = None
    ∧ cart_items (db w1) !! i = Some (CartRow.mk u productId quantity)
    ∧ removeFromCart i w1 = (Return (), w2)
    ∧ db w2 = db w
    ∧ synced w2.
Proof.
  intros Hauth Hsync Hup Hq Hprod Hnone.
  pose proof (fresh_key_unused (cart_items (db w))) as Hfresh.
  set (i := fresh (dom (cart_items (db w)))) in *.
  assert (Hfind : find (λ item, bool_decide (CartItem.product_id item = productId))
                    (cartItems w) = None).
  { destruct (find _ (cartItems w)) as [item|] eqn:Hfind; [|done].
    destruct (find_in_synced_cart_Some w u productId item Hauth Hsync Hfind)
      as (r & Hrow & Hline & _).
    by destruct (Hnone _ _ Hrow). }
  destruct (mutate_accepted (cart_items_insert u productId quantity)
              "Error adding to cart:" w u ()
              (with_cart_items
                 (<[i := CartRow.mk u productId quantity]> (cart_items (db w))) (db w)))
    as (w1 & Hrun1 & Hdb1 & Hauth1 & Hout1 & _);
    [done|by eapply online_head|by apply cart_items_insert_accepts|].
  rewrite <- (addToCart_absent productId quantity w u) in Hrun1 by done.
  destruct (removeFromCart_run i w1 (CartRow.mk u productId quantity))
    as (w2 & Hrun2 & Hdb2 & _ & _ & Hsync2).
  { rewrite Hdb1. cbn. apply lookup_insert_eq. }
  { cbn. congruence. }
  { intros k Hk. rewrite Hout1, !lookup_tail. apply Hup. lia. }
  exists i, w1, w2. split_and!; try done.
  - rewrite Hdb1. cbn. apply lookup_insert_eq.
  - rewrite Hdb2, Hdb1. cbn. rewrite delete_insert_id by done. by destruct (db w).
  - apply Hsync2. rewrite Hout1, !lookup_tail. apply Hup. lia.
Qed.

Lemma addToCart_then_removeFromCart_witness :
  ∃ i w1 w2,
    addToCart "lamp" 3 Sample.shop = (Return (), w1)
    ∧ removeFromCart i w1 = (Return (), w2)
    ∧ db w2 = db Sample.shop.
Proof.
  destruct (addToCart_then_removeFromCart "lamp" 3 Sample.shop "alice")
    as (i & w1 & w2 & Hrun1 & _ & _ & Hrun2 & Hdb & _).
  - reflexivity.
  - reflexivity.
  - by apply online_no_outage.
  - done.
  - by eexists.
  - intros i r Hrow. change ((∅ : gmap uuid CartRow.t) !! i = Some r) in Hrow.
    by rewrite lookup_empty in Hrow.
  - by exists i, w1, w2.
Defined.

(** X9. When the update of a quantity (positive and within the [integer]
    column) is accepted but the reload that follows is lost,
    [updateCartItem] still returns normally: the store has the new quantity,
    the provider's list keeps the old one, and the only trace is "Error
    loading cart items:" on the console. *)
Theorem updateCartItem_reload_lost (itemId : uuid) (quantity : Z) (w : World)
    (r : CartRow.t) :
  cart_items (db w) !! itemId = Some r →
  auth_uid w = Some (CartRow.user_id r) → 0 < quantity ≤ 2147483647 →
  head (outages w) ≠ Some true → outages w !! 1%nat = Some true →
  ∃ w',
    updateCartItem itemId quantity w = (Return (), w')
    ∧ cart_items (db w') !! itemId
      = Some (CartRow.mk (CartRow.user_id r) (CartRow.product_id r) quantity)
    ∧ cartItems w' = cartItems w
    ∧ console w' = console w ++ [("Error loading cart items:"%string, fetch_failed)].
Proof.
  intros Hrow Hauth Hq Hfirst Hsecond. unfold updateCartItem.
  rewrite decide_False by lia. unfold bind at 1.
  rewrite await_reached, Hauth by done.
  unfold cart_items_update.
  rewrite decide_True by (unfold integer_column; lia). rewrite Hrow.
  rewrite decide_True by done. rewrite decide_True by lia.
  cbn [fst snd]. unfold loadCartItems, useAuth_user. unfold bind at 1.
  cbn [auth_uid with_db tick with_outages]. rewrite Hauth.
  unfold bind at 1, setLoading at 1. unfold bind at 1. unfold bind at 1.
  rewrite await_lost; cycle 1.
  { cbn. by rewrite head_lookup, lookup_tail. }
  cbn. eexists. split; [reflexivity|]. cbn. split_and!; [|done|done].
  apply lookup_insert_eq.
Qed.

Lemma updateCartItem_reload_lost_witness :
  ∃ w',
    updateCartItem "line-2" 5
      (mkWorld (db shop_not_loaded) (Some "alice") [false; true] [] Sample.cart false)
    = (Return (), w')
    ∧ cart_items (db w') !! "line-2" = Some (CartRow.mk "alice" "tshirt" 5)
    ∧ cartItems w' = Sample.cart.
Proof.
  destruct (updateCartItem_reload_lost "line-2" 5
              (mkWorld (db shop_not_loaded) (Some "alice") [false; true] []
                 Sample.cart false)
              (CartRow.mk "alice" "tshirt" 2))
    as (w' & Hrun & Hrow & Hlist & _).
  - reflexivity.
  - reflexivity.
  - done.
  - done.
  - reflexivity.
  - by exists w'.
Defined.

(** * The cart page *)

(** X10. On [CartPage], for a line shown from a provider in step with a
    store that satisfies its constraints, the [-] button lowers the stored
    quantity by one but never below 1 (it never removes the line) and the
    [+] button raises it by one but never above the product's stock; so a
    quantity between 1 and the stock stays there. The stock is a value of
    its [integer] column. *)
Theorem CartPage_buttons_keep_quantity_in_range (item : CartItem.t)
    (product : JoinedProduct.t) (w : World) (u : uuid) :
  auth_uid w = Some u → synced w → online 1 w →
  cart_constraints (cart_items (db w)) →
  item ∈ cartItems w → CartItem.products item = Some product →
  JoinedProduct.stock_quantity product ≤ 2147483647 →
  ∃ w1 w2 r1 r2,
    CartPage_minus item w = (Return (), w1)
    ∧ cart_items (db w1) !! CartItem.id item = Some r1
    ∧ CartRow.quantity r1
      = (if decide (CartItem.quantity item ≤ 1) then CartItem.quantity item
         else CartItem.quantity item - 1)
    ∧ CartPage_plus item w = (Return (), w2)
    ∧ cart_items (db w2) !! CartItem.id item = Some r2
    ∧ CartRow.quantity r2
      = (if decide (JoinedProduct.stock_quantity product ≤ CartItem.quantity item)
         then CartItem.quantity item else CartItem.quantity item + 1)
    ∧ (1 ≤ CartItem.quantity item ≤ JoinedProduct.stock_quantity product →
       1 ≤ CartRow.quantity r1 ≤ JoinedProduct.stock_quantity product
       ∧ 1 ≤ CartRow.quantity r2 ≤ JoinedProduct.stock_quantity product).
Proof.
  intros Hauth Hsync Hup [Hcheck _] Hin Hprod Hstock.
  rewrite Hsync in Hin. apply (cart_view_elem w u) in Hin as (r & Hrow & Hu & Hitem); [|done].
  assert (CartItem.quantity item = CartRow.quantity r) as Hq by (by rewrite Hitem).
  pose proof (Hcheck _ _ Hrow) as Hpos.
  assert (∃ w1 r1,
    CartPage_minus item w = (Return (), w1)
    ∧ cart_items (db w1) !! CartItem.id item = Some r1
    ∧ CartRow.quantity r1
      = (if decide (CartItem.quantity item ≤ 1) then CartItem.quantity item
         else CartItem.quantity item - 1)) as (w1 & r1 & Hrun1 & Hrow1 & Hq1).
  { unfold CartPage_minus. rewrite Hprod. cbn beta iota. case_decide as Hle.
    - exists w, r. by split_and!.
    - destruct (updateCartItem_positive_run (CartItem.id item)
                  (CartItem.quantity item - 1) w r)
        as (w1 & Hrun & Hdb & _); [done|congruence|done|lia|].
      eexists w1, _. split; [exact Hrun|]. rewrite Hdb. cbn.
      split; [apply lookup_insert_eq|done]. }
  assert (∃ w2 r2,
    CartPage_plus item w = (Return (), w2)
    ∧ cart_items (db w2) !! CartItem.id item = Some r2
    ∧ CartRow.quantity r2
      = (if decide (JoinedProduct.stock_quantity product ≤ CartItem.quantity item)
         then CartItem.quantity item else CartItem.quantity item + 1))
    as (w2 & r2 & Hrun2 & Hrow2 & Hq2).
  { unfold CartPage_plus. rewrite Hprod. cbn beta iota.
    destruct (decide (JoinedProduct.stock_quantity product ≤ CartItem.quantity item))
      as [Hle|Hle].
    - exists w, r. by split_and!.
    - destruct (updateCartItem_positive_run (CartItem.id item)
                  (CartItem.quantity item + 1) w r)
        as (w2 & Hrun & Hdb & _); [done|congruence|done|lia|].
      eexists w2, _. split; [exact Hrun|]. rewrite Hdb. cbn.
      split; [apply lookup_insert_eq|done]. }
  exists w1, w2, r1, r2. split_and!; try done.
  intros Hrange. rewrite Hq1, Hq2. repeat case_decide; lia.
Qed.

Lemma CartPage_buttons_keep_quantity_in_range_witness :
  ∃ w1 w2 r1 r2,
    CartPage_minus (CartItem.mk "line-1" "alice" "headphones" 1
                      (Some (JoinedProduct.of_row "headphones" Sample.headphones)))
      Sample.shop_with_cart = (Return (), w1)
    ∧ cart_items (db w1) !! "line-1" = Some r1 ∧ CartRow.quantity r1 = 1
    ∧ CartPage_plus (CartItem.mk "line-1" "alice" "headphones" 1
                       (Some (JoinedProduct.of_row "headphones" Sample.headphones)))
        Sample.shop_with_cart = (Return (), w2)
    ∧ cart_items (db w2) !! "line-1" = Some r2 ∧ CartRow.quantity r2 = 2.
Proof.
  destruct (CartPage_buttons_keep_quantity_in_range
              (CartItem.mk "line-1" "alice" "headphones" 1
                 (Some (JoinedProduct.of_row "headphones" Sample.headphones)))
              (JoinedProduct.of_row "headphones" Sample.headphones)
              Sample.shop_with_cart "alice")
    as (w1 & w2 & r1 & r2 & Hrun1 & Hrow1 & Hq1 & Hrun2 & Hrow2 & Hq2 & _).
  - reflexivity.
  - reflexivity.
  - by apply online_no_outage.
  - exact sample_cart_rows_constraints.
  - apply list_elem_of_In. vm_compute. tauto.
  - reflexivity.
  - discriminate.
  - by exists w1, w2, r1, r2.
Defined.

(** * More of the wishlist *)

Lemma wishlist_delete_lookup (u p : uuid) (m : gmap uuid WishlistRow.t) i r :
  filter (λ kr, ¬ (wishlist_entry_of u p kr.2 ∧ Some u = Some (WishlistRow.user_id kr.2))) m
    !! i = Some r
  ↔ m !! i = Some r ∧ ¬ wishlist_entry_of u p r.
Proof.
  rewrite map_lookup_filter_Some. simpl. split; intros [Hm Hr]; (split; [done|]).
  - intros Hentry. apply Hr. split; [done|]. destruct Hentry as [-> _]. done.
  - by intros [Hentry _].
Qed.

Lemma removeFromWishlist_reached (userId productId : uuid) (w : World) :
  auth_uid w = Some userId → head (outages w) ≠ Some true →
  removeFromWishlist userId productId w
  = (Return (),
     with_db (with_wishlist_items
                (filter (λ kr, ¬ (wishlist_entry_of userId productId kr.2
                                  ∧ Some userId = Some (WishlistRow.user_id kr.2)))
                   (wishlist_items (db w))) (db w)) (tick w)).
Proof.
  intros Ha Ho. unfold removeFromWishlist, bind.
  rewrite await_reached by done. by rewrite Ha.
Qed.

(** X11. [removeFromWishlist] run by the signed-in user deletes the
    wishlist entry of the user and the product and nothing else; when there
    is no such entry it returns normally and the store is exactly as
    before, so removing twice is the same as removing once. *)
Theorem removeFromWishlist_removes_pair (userId productId : uuid) (w : World) :
  auth_uid w = Some userId → head (outages w) ≠ Some true →
  ∃ w',
    removeFromWishlist userId productId w = (Return (), w')
    ∧ (∀ i r, wishlist_items (db w') !! i = Some r
              ↔ wishlist_items (db w) !! i = Some r
                ∧ ¬ wishlist_entry_of userId productId r)
    ∧ cart_items (db w') = cart_items (db w)
    ∧ ((∀ i r, wishlist_items (db w) !! i = Some r →
               ¬ wishlist_entry_of userId productId r) → db w' = db w)
    ∧ (∀ w'', auth_uid w'' = Some userId → db w'' = db w' →
         head (outages w'') ≠ Some true →
         db (removeFromWishlist userId productId w'').2 = db w').
Proof.
  intros Hauth Hup.
  assert (Hrun : ∀ w0, auth_uid w0 = Some userId → head (outages w0) ≠ Some true →
    removeFromWishlist userId productId w0
    = (Return (),
       with_db (with_wishlist_items
                  (filter (λ kr, ¬ (wishlist_entry_of userId productId kr.2
                                    ∧ Some userId = Some (WishlistRow.user_id kr.2)))
                     (wishlist_items (db w0))) (db w0)) (tick w0))).
  { intros w0 Ha Ho. unfold removeFromWishlist, bind.
    rewrite await_reached by done. by rewrite Ha. }
  assert (Hnoop : ∀ d,
    (∀ i r, wishlist_items d !! i = Some r → ¬ wishlist_entry_of userId productId r) →
    with_wishlist_items
      (filter (λ kr, ¬ (wishlist_entry_of userId productId kr.2
                        ∧ Some userId = Some (WishlistRow.user_id kr.2)))
         (wishlist_items d)) d = d).
  { intros d Hnone. rewrite map_filter_id; [by destruct d|].
    intros i r Hrow [Hentry _]. by eapply Hnone. }
  eexists. split; [by apply Hrun|]. cbn. split_and!.
  - intros i r. apply wishlist_delete_lookup.
  - done.
  - apply Hnoop.
  - intros w'' Ha Hdb Ho. rewrite Hrun by done. cbn. rewrite Hdb. cbn.
    apply Hnoop. cbn. intros i r [_ Hr]%wishlist_delete_lookup. done.
Qed.

Lemma removeFromWishlist_removes_pair_witness :
  ∃ w', removeFromWishlist "alice" "tshirt" Sample.shop = (Return (), w')
        ∧ db w' = db Sample.shop.
Proof.
  destruct (removeFromWishlist_removes_pair "alice" "tshirt" Sample.shop)
    as (w' & Hrun & _ & _ & Hnoop & _); [reflexivity|done|].
  exists w'. split; [done|]. apply Hnoop.
  intros i r Hrow. change ((∅ : gmap uuid WishlistRow.t) !! i = Some r) in Hrow.
  by rewrite lookup_empty in Hrow.
Defined.

(** X12. Adding a product to the wishlist and removing it again puts the
    store back exactly as it was, when the product was not on the user's
    wishlist before. *)
Theorem addToWishlist_then_removeFromWishlist (userId productId : uuid) (w : World) :
  auth_uid w = Some userId → online 2 w →
  is_Some (products (db w) !! productId) →
  (∀ i r, wishlist_items (db w) !! i = Some r → ¬ wishlist_entry_of userId productId r) →
  ∃ w1 w2,
    addToWishlist userId productId w = (Return (), w1)
    ∧ (∃ i, wishlist_items (db w1) !! i = Some (WishlistRow.mk userId productId))
    ∧ removeFromWishlist userId productId w1 = (Return (), w2)
    ∧ db w2 = db w.
Proof.
  intros Hauth Hup Hprod Hnone.
  destruct (addToWishlist_new userId productId w) as (w1 & Hrun1 & Hdb1 & Hauth1 & Hout1);
    [done|by eapply online_head|done|done|].
  assert (Hsecond : head (outages w1) ≠ Some true).
  { rewrite Hout1, head_lookup, lookup_tail. apply Hup. lia. }
  pose proof (removeFromWishlist_reached userId productId w1
                ltac:(congruence) Hsecond) as Hrun2.
  eexists w1, _. split_and!; [done| |exact Hrun2|].
  - eexists. rewrite Hdb1. cbn. apply lookup_insert_eq.
  - cbn. rewrite Hdb1. cbn.
    replace (filter _ _) with (wishlist_items (db w)); [by destruct (db w)|].
    apply map_eq. intros i. apply option_eq. intros r.
    rewrite wishlist_delete_lookup, lookup_insert_Some. split.
    + intros Hrow. split; [|by eapply Hnone]. right. split; [|done].
      intros <-. by rewrite fresh_key_unused in Hrow.
    + intros [[[<- <-]|[_ Hrow]] Hne]; [by destruct Hne|done].
Qed.

Lemma addToWishlist_then_removeFromWishlist_witness :
  ∃ w1 w2,
    addToWishlist "alice" "tshirt" Sample.shop = (Return (), w1)
    ∧ removeFromWishlist "alice" "tshirt" w1 = (Return (), w2)
    ∧ db w2 = db Sample.shop.
Proof.
  destruct (addToWishlist_then_removeFromWishlist "alice" "tshirt" Sample.shop)
    as (w1 & w2 & Hrun1 & _ & Hrun2 & Hdb).
  - reflexivity.
  - by apply online_no_outage.
  - by eexists.
  - intros i r Hrow. change ((∅ : gmap uuid WishlistRow.t) !! i = Some r) in Hrow.
    by rewrite lookup_empty in Hrow.
  - by exists w1, w2.
Defined.

Lemma NoDup_all_equal {A} (l : list A) (a : A) :
  NoDup l → a ∈ l → (∀ x, x ∈ l → x = a) → l = [a].
Proof.
  intros Hnd Hin Hall. destruct l as [|x [|y l]].
  - by apply elem_of_nil in Hin.
  - f_equal. apply Hall, list_elem_of_here.
  - assert (x = a) as -> by apply Hall, list_elem_of_here.
    assert (y = a) as -> by (apply Hall; do 2 constructor).
    apply NoDup_cons in Hnd as [Hnotin _]. destruct Hnotin. constructor.
Qed.

Lemma wishlist_select_single_answer (u p : uuid) (d : Database) :
  wishlist_constraints (wishlist_items d) →
  (∃ i, (wishlist_items_select_single u p (Some u) d).1 = Data i)
  ↔ ∃ i r, wishlist_items d !! i = Some r ∧ wishlist_entry_of u p r.
Proof.
  intros Huniq. unfold wishlist_items_select_single.
  set (l := map_to_list _).
  assert (Hl : ∀ i r, (i, r) ∈ l
                      ↔ wishlist_items d !! i = Some r ∧ wishlist_entry_of u p r).
  { intros i r. subst l. rewrite elem_of_map_to_list, map_lookup_filter_Some. simpl.
    split; [by intros (? & ? & _)|]. intros [? Hentry]. split_and!; try done.
    by destruct Hentry as [-> _]. }
  split.
  - destruct l as [|[i r] [|? ?]] eqn:Heq; try by intros [? [=]].
    intros _. exists i, r. apply Hl. apply list_elem_of_here.
  - intros (i & r & Hrow & Hentry).
    rewrite (NoDup_all_equal l (i, r)).
    + by exists i.
    + subst l. apply NoDup_map_to_list.
    + by apply Hl.
    + intros [j r'] [Hrow' Hentry']%Hl.
      assert (j = i) as ->.
      { destruct Hentry as [Hu Hp], Hentry' as [Hu' Hp'].
        eapply Huniq; eauto; congruence. }
      congruence.
Qed.

(** X13. [isInWishlist] never throws and never changes the store; it
    answers [false] when its request is lost; and for the signed-in user,
    when the request reaches a store whose wishlist satisfies its uniqueness
    constraint, it answers [true] exactly when the store holds an entry for
    the user and the product. *)
Theorem isInWishlist_tells_the_store (userId productId : uuid) (w : World) :
  (∃ b w', isInWishlist userId productId w = (Return b, w') ∧ db w' = db w)
  ∧ (head (outages w) = Some true →
     (isInWishlist userId productId w).1 = Return false)
  ∧ (auth_uid w = Some userId → head (outages w) ≠ Some true →
     wishlist_constraints (wishlist_items (db w)) →
     ((isInWishlist userId productId w).1 = Return true
      ↔ ∃ i r, wishlist_items (db w) !! i = Some r
               ∧ wishlist_entry_of userId productId r)).
Proof.
  assert (Hkeeps : ∀ uid d, (wishlist_items_select_single userId productId uid d).2 = d).
  { intros uid d. unfold wishlist_items_select_single.
    by destruct (map_to_list _) as [|? [|? ?]]. }
  split_and!.
  - unfold isInWishlist, bind.
    destruct (decide (head (outages w) = Some true)) as [Hdown|Hup].
    + rewrite await_lost by done. by eexists _, _.
    + rewrite await_reached, Hkeeps by done.
      destruct (wishlist_items_select_single _ _ _ _).1; by eexists _, _.
  - intros Hdown. unfold isInWishlist, bind. by rewrite await_lost.
  - intros Hauth Hup Huniq.
    rewrite <- (wishlist_select_single_answer userId productId (db w) Huniq).
    unfold isInWishlist, bind. rewrite await_reached, Hauth by done.
    destruct (wishlist_items_select_single _ _ _ _).1 as [i|e]; cbn.
    + split; [by exists i|done].
    + split; [done|by intros [? [=]]].
Qed.

Lemma isInWishlist_tells_the_store_witness :
  (isInWishlist "alice" "tshirt" Sample.shop).1 = Return false
  ∧ (isInWishlist "alice" "tshirt" (addToWishlist "alice" "tshirt" Sample.shop).2).1
    = Return true.
Proof.
  split.
  - destruct (isInWishlist_tells_the_store "alice" "tshirt" Sample.shop)
      as (_ & _ & Hiff).
    destruct ((isInWishlist "alice" "tshirt" Sample.shop).1) as [[]|] eqn:Hb;
      [|done|by vm_compute in Hb].
    exfalso. destruct Hiff as [Htrue _]; [reflexivity|done| |].
    + intros i j r r' Hi. change ((∅ : gmap uuid WishlistRow.t) !! i = Some r) in Hi.
      by rewrite lookup_empty in Hi.
    + destruct (Htrue eq_refl) as (i & r & Hrow & _).
      change ((∅ : gmap uuid WishlistRow.t) !! i = Some r) in Hrow.
      by rewrite lookup_empty in Hrow.
  - reflexivity.
Defined.

(** * More of the catalog *)

Lemma products_where_NoDup_ids (query : list Filter) (d : Database) :
  NoDup (products_where query d).*1.
Proof.
  unfold products_where.
  apply (sublist_NoDup _ (map_to_list (visible_products d)).*1).
  - apply NoDup_fst_map_to_list.
  - apply fmap_sublist, sublist_filter.
Qed.

Lemma products_where_by_id (id : uuid) (d : Database) :
  products_where [eq_id id; eq_is_active true] d
  = match products d !! id with
    | Some r => if ProductRow.is_active r then [(id, r)] else []
    | None => []
    end.
Proof.
  assert (Hel : ∀ kr, kr ∈ products_where [eq_id id; eq_is_active true] d
                      ↔ kr.1 = id ∧ products d !! id = Some kr.2
                        ∧ ProductRow.is_active kr.2 = true).
  { intros [i r]. rewrite products_where_elem. cbn.
    rewrite !andb_true_iff, !bool_decide_eq_true. split.
    - intros (Hrow & Hact & <- & _). done.
    - intros (-> & Hrow & Hact). done. }
  assert (Hnd : NoDup (products_where [eq_id id; eq_is_active true] d)).
  { eapply NoDup_fmap_1, products_where_NoDup_ids. }
  destruct (products d !! id) as [r|] eqn:Hrow;
    [destruct (ProductRow.is_active r) eqn:Hact|].
  - apply NoDup_all_equal; [done|by apply Hel|].
    intros [i r'] (Hi & Hr & _)%Hel. simpl in *. congruence.
  - apply elem_of_nil_inv. intros [i r'] (_ & Hr & Hact')%Hel. simpl in *. congruence.
  - apply elem_of_nil_inv. intros [i r'] (_ & Hr & _)%Hel. done.
Qed.

(** X14. [getProductById] never throws and never changes the store; when
    its request reaches the store it returns the product of that
    identifier if it exists and is active, and [null] if it does not exist
    or is inactive. *)
Theorem getProductById_finds_active (id : uuid) (w : World) :
  (∃ o w', getProductById id w = (Return o, w') ∧ db w' = db w)
  ∧ (head (outages w) = Some true → (getProductById id w).1 = Return None)
  ∧ (head (outages w) ≠ Some true →
     (getProductById id w).1
     = Return (match products (db w) !! id with
               | Some r =>
                 if ProductRow.is_active r then Some (Product.of_row id r) else None
               | None => None
               end)).
Proof.
  assert (Hq : ∀ uid d,
    products_select_single [eq_id id; eq_is_active true] uid d
    = (match products d !! id with
       | Some r =>
         if ProductRow.is_active r then Data (Product.of_row id r)
         else Error no_single_row
       | None => Error no_single_row
       end, d)).
  { intros uid d. unfold products_select_single.
    cbn [forallb filter_well_formed andb]. rewrite products_where_by_id.
    destruct (products d !! id) as [r|]; [|done].
    by destruct (ProductRow.is_active r). }
  unfold getProductById, bind. split_and!.
  - destruct (decide (head (outages w) = Some true)) as [Hdown|Hup].
    + rewrite await_lost by done. by eexists _, _.
    + rewrite await_reached, Hq by done. cbn [fst snd].
      destruct (products (db w) !! id) as [r|]; [|by eexists _, _].
      destruct (ProductRow.is_active r); by eexists _, _.
  - intros Hdown. by rewrite await_lost.
  - intros Hup. rewrite await_reached, Hq by done. cbn [fst snd].
    destruct (products (db w) !! id) as [r|]; [|done].
    by destruct (ProductRow.is_active r).
Qed.

Lemma getProductById_finds_active_witness :
  (getProductById "tshirt" Sample.shop).1
  = Return (Some (Product.of_row "tshirt" Sample.tshirt))
  ∧ (getProductById "lamp" Sample.shop).1 = Return None
  ∧ (getProductById "no-such-product" Sample.shop).1 = Return None.
Proof.
  split_and!.
  - destruct (getProductById_finds_active "tshirt" Sample.shop) as (_ & _ & Hup).
    by rewrite Hup.
  - destruct (getProductById_finds_active "lamp" Sample.shop) as (_ & _ & Hup).
    by rewrite Hup.
  - destruct (getProductById_finds_active "no-such-product" Sample.shop)
      as (_ & _ & Hup).
    by rewrite Hup.
Defined.

Lemma StronglySorted_sublist {A} (R : relation A) (l1 l2 : list A) :
  l1 `sublist_of` l2 → StronglySorted R l2 → StronglySorted R l1.
Proof.
  induction 1 as [|x l1 l2 Hsub IH|x l1 l2 Hsub IH]; intros Hs; [done|..].
  - apply StronglySorted_inv in Hs as [Hs Hall]. constructor; [by apply IH|].
    apply Forall_forall. intros y Hy. rewrite Forall_forall in Hall.
    apply Hall. by eapply elem_of_sublist.
  - apply StronglySorted_inv in Hs as [Hs _]. by apply IH.
Qed.

Lemma StronglySorted_weaken {A} (R R' : relation A) (l : list A) :
  (∀ a b, R a b → R' a b) → StronglySorted R l → StronglySorted R' l.
Proof.
  intros Himpl. induction 1 as [|x l _ IH Hall]; constructor; [done|].
  eapply Forall_impl; [exact Hall|]. intros y. apply Himpl.
Qed.

Lemma StronglySorted_app_between {A} (R : relation A) (l1 l2 : list A) (x y : A) :
  StronglySorted R (l1 ++ l2) → x ∈ l1 → y ∈ l2 → R x y.
Proof.
  induction l1 as [|a l1 IH]; intros Hs Hx Hy; [by apply elem_of_nil in Hx|].
  simpl in Hs. apply StronglySorted_inv in Hs as [Hs Hall].
  apply elem_of_cons in Hx as [->|Hx]; [|by apply IH].
  rewrite Forall_forall in Hall. apply Hall. apply elem_of_app. by right.
Qed.

Lemma listed_before_newer_first (rank : uuid → nat) (a b : uuid * ProductRow.t) :
  listed_before rank a b → newer_first a b.
Proof. unfold listed_before, newer_first. lia. Qed.

(** What a list returned by a query over [products] is made of, whatever
    the order the store gives to rows created at the same instant. *)
Lemma products_select_rows (query : list Filter) (limit : option nat)
    (uid : option uuid) (d : Database) (l : list Product.t) :
  (products_select query limit uid d).1 = Data l →
  ∃ sorted,
    sorted ≡ₚ products_where query d
    ∧ StronglySorted newer_first sorted
    ∧ l = uncurry Product.of_row
          <$> match limit with Some n => take n sorted | None => sorted end.
Proof.
  unfold products_select. destruct (forallb filter_well_formed query); [|done].
  cbn. intros [= <-].
  exists (merge_sort (listed_before (row_order d query limit)) (products_where query d)).
  split_and!; [apply merge_sort_Permutation| |done].
  eapply StronglySorted_weaken; [apply listed_before_newer_first|].
  apply StronglySorted_merge_sort; apply _.
Qed.

Lemma getFeaturedProducts_reached (limit : nat) (w : World) :
  head (outages w) ≠ Some true →
  ∃ l, (getFeaturedProducts limit w).1 = Return l.
Proof.
  intros Hup. unfold getFeaturedProducts, bind. rewrite await_reached by done.
  unfold products_select. cbn. eauto.
Qed.

Lemma getProducts_unfiltered_reached (w : World) :
  head (outages w) ≠ Some true →
  ∃ l, (getProducts (FilterOptions.mk None None None None) w).1 = Return l.
Proof.
  intros Hup. unfold getProducts, bind. cbn [truthy FilterOptions.category
    FilterOptions.minPrice FilterOptions.maxPrice FilterOptions.search].
  rewrite await_reached by done. unfold products_select. cbn. eauto.
Qed.

(** The featured products need not be the first products of the list of
    [getProducts]: the store may order two products created at the same
    instant one way for the statement with [LIMIT] and the other way for the
    statement without. *)
Lemma featured_products_need_not_lead_the_list :
  (getProducts (FilterOptions.mk None None None None) twin_shop).1
  = Return [Product.of_row "headphones" Sample.headphones;
            Product.of_row "tshirt"
              (ProductRow.mk "Casual Cotton T-Shirt"
                 "Comfortable 100% cotton t-shirt in various colors"
                 2499 (Some "clothing") None 100 true 10)]
  ∧ (getFeaturedProducts 1 twin_shop).1
    = Return [Product.of_row "tshirt"
                (ProductRow.mk "Casual Cotton T-Shirt"
                   "Comfortable 100% cotton t-shirt in various colors"
                   2499 (Some "clothing") None 100 true 10)].
Proof. split; vm_compute; reflexivity. Qed.

(** X15. [getFeaturedProducts(limit)] returns [limit] of the products that
    [getProducts] returns without filters (all of them when there are fewer),
    and they are the newest: no product it leaves out was created after one
    it returns. Which of the products created at the same instant it
    returns, and in which order, is left to the store. Both calls return
    when their request goes through. *)
Theorem getFeaturedProducts_newest_of_getProducts (limit : nat) (w : World) :
  (head (outages w) ≠ Some true →
   ∃ featured all,
     (getFeaturedProducts limit w).1 = Return featured
     ∧ (getProducts (FilterOptions.mk None None None None) w).1 = Return all)
  ∧ ∀ featured all,
      (getFeaturedProducts limit w).1 = Return featured →
      (getProducts (FilterOptions.mk None None None None) w).1 = Return all →
      length featured = (limit `min` length all)%nat
      ∧ (∀ p, p ∈ featured → p ∈ all)
      ∧ (∀ p q, p ∈ featured → q ∈ all → q ∉ featured →
           Product.created_at q ≤ Product.created_at p).
Proof.
  split.
  { intros Hup.
    destruct (getFeaturedProducts_reached limit w Hup) as [featured Hf].
    destruct (getProducts_unfiltered_reached w Hup) as [all Ha]. eauto. }
  intros featured all Hf%getFeaturedProducts_returned Ha%getProducts_returned.
  change (getProducts_query (FilterOptions.mk None None None None))
    with [eq_is_active true] in Ha.
  apply products_select_rows in Hf as (s1 & Hp1 & Hs1 & ->).
  apply products_select_rows in Ha as (s2 & Hp2 & _ & ->).
  assert (s1 ≡ₚ s2) as Hperm by (by rewrite Hp1, Hp2).
  split_and!.
  - rewrite !length_fmap, length_take, Hperm. done.
  - intros p ([i r] & -> & Hin)%list_elem_of_fmap.
    apply list_elem_of_fmap. exists (i, r). split; [done|].
    rewrite <- Hperm. apply elem_of_take in Hin as (k & Hk & _).
    by eapply list_elem_of_lookup_2.
  - intros p q ([i r] & -> & Hp)%list_elem_of_fmap
      ([j r'] & -> & Hq)%list_elem_of_fmap Hout.
    rewrite <- Hperm, <- (take_drop limit s1) in Hq.
    apply elem_of_app in Hq as [Hq|Hq].
    { destruct Hout. apply list_elem_of_fmap. by exists (j, r'). }
    rewrite <- (take_drop limit s1) in Hs1.
    apply (StronglySorted_app_between _ _ _ _ _ Hs1 Hp Hq).
Qed.

Lemma getFeaturedProducts_newest_of_getProducts_witness :
  ∃ featured all,
    (getFeaturedProducts 1 twin_shop).1 = Return featured
    ∧ (getProducts (FilterOptions.mk None None None None) twin_shop).1 = Return all
    ∧ length featured = 1%nat
    ∧ (∀ p, p ∈ featured → p ∈ all).
Proof.
  destruct (getFeaturedProducts_newest_of_getProducts 1 twin_shop) as [Hreturn Hnewest].
  destruct Hreturn as (featured & all & Hf & Ha); [discriminate|].
  destruct (Hnewest featured all Hf Ha) as (Hlen & Hsub & _).
  exists featured, all. split; [exact Hf|]. split; [exact Ha|]. split; [|exact Hsub].
  rewrite Hlen.
  assert (all = [Product.of_row "headphones" Sample.headphones;
                 Product.of_row "tshirt"
                   (ProductRow.mk "Casual Cotton T-Shirt"
                      "Comfortable 100% cotton t-shirt in various colors"
                      2499 (Some "clothing") None 100 true 10)]) as ->.
  { destruct featured_products_need_not_lead_the_list as [Hall _].
    rewrite Hall in Ha. by injection Ha. }
  reflexivity.
Defined.

(** X16. Whatever the filters, the list [getProducts] returns is ordered
    from the newest product to the oldest ([created_at] never increases
    along the list) and holds no product twice; so does the list of
    [getFeaturedProducts]. *)
Theorem catalog_lists_newest_first (filters : FilterOptions.t) (limit : nat)
    (w : World) (l : list Product.t) :
  (getProducts filters w).1 = Return l ∨ (getFeaturedProducts limit w).1 = Return l →
  StronglySorted (λ p p', Product.created_at p' ≤ Product.created_at p) l
  ∧ NoDup (Product.id <$> l).
Proof.
  assert (Hsel : ∀ query lim uid d,
    (products_select query lim uid d).1 = Data l →
    StronglySorted (λ p p', Product.created_at p' ≤ Product.created_at p) l
    ∧ NoDup (Product.id <$> l)).
  { intros query lim uid d (sorted & Hperm & Hsorted & Hl)%products_select_rows.
    assert (NoDup sorted.*1) as Hnd.
    { rewrite Hperm. apply products_where_NoDup_ids. }
    assert (∀ rows : list (uuid * ProductRow.t),
              rows `sublist_of` sorted →
              l = (uncurry Product.of_row <$> rows) →
              StronglySorted (λ p p', Product.created_at p' ≤ Product.created_at p) l
              ∧ NoDup (Product.id <$> l)) as Hrows.
    { intros rows Hsub ->. split.
      - apply (StronglySorted_fmap _ newer_first); [by intros [] []|].
        by eapply StronglySorted_sublist.
      - rewrite <- list_fmap_compose.
        rewrite (list_fmap_ext (Product.id ∘ uncurry Product.of_row) fst rows)
          by (by intros ? [] ?).
        eapply sublist_NoDup; [exact Hnd|]. by apply fmap_sublist. }
    destruct lim as [n|]; eapply Hrows; try exact Hl.
    - apply sublist_take.
    - done. }
  intros [Hrun%getProducts_returned|Hrun%getFeaturedProducts_returned]; eauto.
Qed.

Lemma catalog_lists_newest_first_witness :
  ∃ l,
    (getProducts (FilterOptions.mk None None None None) Sample.shop).1 = Return l
    ∧ StronglySorted (λ p p', Product.created_at p' ≤ Product.created_at p) l
    ∧ NoDup (Product.id <$> l).
Proof.
  eexists. split; [vm_compute; reflexivity|].
  apply (catalog_lists_newest_first (FilterOptions.mk None None None None) 0 Sample.shop).
  left. vm_compute. reflexivity.
Defined.

(** X17. Price bounds that cross give an empty list: when [maxPrice] is
    below [minPrice], [getProducts] returns no product, whatever the other
    filters. An empty category or search string is ignored: whatever the
    price bounds, [getProducts] then does what it does when no category and
    no search term are given, and so, when its request goes through, returns
    every active product priced within the bounds, whatever its category,
    name and description. *)
Theorem getProducts_crossing_bounds (category search : option string)
    (minPrice maxPrice : Z) (lo hi : option Z) (w : World) :
  (∀ l, maxPrice < minPrice →
     (getProducts (FilterOptions.mk category (Some minPrice) (Some maxPrice) search) w).1
     = Return l →
     l = [])
  ∧ getProducts (FilterOptions.mk (Some EmptyString) lo hi (Some EmptyString)) w
    = getProducts (FilterOptions.mk None lo hi None) w
  ∧ (head (outages w) ≠ Some true →
     ∃ l,
       (getProducts (FilterOptions.mk (Some EmptyString) lo hi (Some EmptyString)) w).1
       = Return l
       ∧ ∀ i r, products (db w) !! i = Some r → ProductRow.is_active r = true →
                (∀ minPrice, lo = Some minPrice → minPrice ≤ ProductRow.price r) →
                (∀ maxPrice, hi = Some maxPrice → ProductRow.price r ≤ maxPrice) →
                Product.of_row i r ∈ l).
Proof.
  split_and!.
  - intros l Hcross Hrun%getProducts_returned.
    apply elem_of_nil_inv. intros p Hp.
    destruct (products_select_elem _ _ _ _ _ p Hrun Hp) as (i & r & _ & _ & Hq & _).
    apply getProducts_query_holds in Hq as (_ & _ & Hlo & Hhi & _).
    specialize (Hlo minPrice eq_refl). specialize (Hhi maxPrice eq_refl).
    simpl in *. lia.
  - reflexivity.
  - intros Hup.
    set (filters := FilterOptions.mk (Some EmptyString) lo hi (Some EmptyString)).
    assert (forallb filter_well_formed (getProducts_query filters) = true) as Hwf.
    { by apply getProducts_query_well_formed. }
    assert (∃ l, (getProducts filters w).1 = Return l) as [l Hrun].
    { rewrite getProducts_unfold. unfold bind. rewrite await_reached by done.
      unfold products_select. rewrite Hwf. cbn. eauto. }
    exists l. split; [done|]. intros i r Hrow Hact Hlo Hhi.
    apply getProducts_returned in Hrun.
    destruct (products_select_all (getProducts_query filters) (auth_uid w) (db w) i r)
      as (l' & Hsel & Hin); try done.
    + apply getProducts_query_holds. by split_and!.
    + rewrite Hsel in Hrun. by injection Hrun as <-.
Qed.

Lemma getProducts_crossing_bounds_witness :
  (getProducts (FilterOptions.mk None (Some 5000) (Some 1000) None) Sample.shop).1
  = Return []
  ∧ ∃ l,
      (getProducts (FilterOptions.mk (Some EmptyString) None None (Some EmptyString))
         Sample.shop).1 = Return l
      ∧ Product.of_row "tshirt" Sample.tshirt ∈ l.
Proof.
  destruct (getProducts_crossing_bounds None None 5000 1000 None None Sample.shop)
    as (Hcross & _ & Hall).
  split.
  - destruct ((getProducts (FilterOptions.mk None (Some 5000) (Some 1000) None)
                 Sample.shop).1) as [l|e] eqn:Hrun; [|by vm_compute in Hrun].
    by rewrite (Hcross l ltac:(lia) eq_refl).
  - destruct Hall as (l & Hrun & Hin); [discriminate|].
    exists l. split; [exact Hrun|].
    apply (Hin "tshirt"%string Sample.tshirt); [reflexivity|reflexivity|..];
      intros ? [=].
Defined.

(** * More of the order workflow *)

Lemma insert_rows_grows {A} (rows : list A) (m : gmap uuid A) : m ⊆ insert_rows rows m.
Proof.
  revert m. induction rows as [|r rows IH]; intros m; [done|].
  simpl. etrans; [|apply IH]. apply insert_subseteq, fresh_key_unused.
Qed.

Lemma order_placed_over_refl (u : uuid) (d : Database) : order_placed_over u d d.
Proof. by split_and!. Qed.

Lemma order_placed_over_trans (u : uuid) (d1 d2 d3 : Database) :
  order_placed_over u d1 d2 → order_placed_over u d2 d3 → order_placed_over u d1 d3.
Proof.
  intros (Hp & Hw & Ho & Hi & Hc) (Hp' & Hw' & Ho' & Hi' & Hc').
  split_and!; try congruence; try (by etrans); eauto.
Qed.

Lemma orders_insert_placed (u : uuid) (r : OrderRow.t) (uid : option uuid) (d : Database) :
  order_placed_over u d (orders_insert r uid d).2.
Proof.
  unfold orders_insert. repeat case_decide; try apply order_placed_over_refl.
  cbn. split_and!; try done. apply insert_subseteq, fresh_key_unused.
Qed.

Lemma order_items_insert_placed (u : uuid) (rows : list OrderItemRow.t)
    (uid : option uuid) (d : Database) :
  order_placed_over u d (order_items_insert rows uid d).2.
Proof.
  unfold order_items_insert. destruct (head _); [apply order_placed_over_refl|].
  cbn. split_and!; try done. apply insert_rows_grows.
Qed.

Lemma cart_items_delete_user_placed (u : uuid) (uid : option uuid) (d : Database) :
  order_placed_over u d (cart_items_delete_user u uid d).2.
Proof.
  unfold cart_items_delete_user. cbn. split_and!; try done.
  intros i r Hrow Hu. apply map_lookup_filter_Some. split; [done|].
  simpl. by intros [? _].
Qed.

Lemma await_placed {A} (u : uuid) (q : Sql A) (w : World) :
  (∀ uid d, order_placed_over u d (q uid d).2) →
  order_placed_over u (db w) (db (await q w).2).
Proof.
  intros Hq. unfold await. destruct (head (outages w)) as [[]|].
  - apply order_placed_over_refl.
  - specialize (Hq (auth_uid w) (db w)). by destruct (q _ _).
  - specialize (Hq (auth_uid w) (db w)). by destruct (q _ _).
Qed.

(** X18. Whatever its arguments and however it ends, [createOrder] leaves
    the products as they were (no stock is taken), leaves the wishlist as it
    was, deletes or alters no order and no order line already stored, and
    touches no cart line of another user. *)
Theorem createOrder_never_touches (userId : uuid) (cartItems : list CartItem.t)
    (shippingAddress : ShippingAddress.t) (w : World) :
  products (db (createOrder userId cartItems shippingAddress w).2) = products (db w)
  ∧ wishlist_items (db (createOrder userId cartItems shippingAddress w).2)
    = wishlist_items (db w)
  ∧ orders (db w) ⊆ orders (db (createOrder userId cartItems shippingAddress w).2)
  ∧ order_items (db w)
    ⊆ order_items (db (createOrder userId cartItems shippingAddress w).2)
  ∧ (∀ i r, cart_items (db w) !! i = Some r → CartRow.user_id r ≠ userId →
       cart_items (db (createOrder userId cartItems shippingAddress w).2) !! i = Some r).
Proof.
  change (order_placed_over userId (db w)
            (db (createOrder userId cartItems shippingAddress w).2)).
  rewrite createOrder_unfold. unfold bind at 1, lift at 1.
  destruct (reduce order_total_step 0 cartItems) as [total|e];
    [|apply order_placed_over_refl].
  unfold bind at 1.
  pose proof (await_placed userId
                (orders_insert (OrderRow.mk userId total pending shippingAddress)) w
                (orders_insert_placed userId _)) as H1.
  destruct (await_returns (orders_insert
              (OrderRow.mk userId total pending shippingAddress)) w)
    as (r1 & w1 & Hrun1 & _). rewrite Hrun1 in *. cbn [snd] in H1.
  destruct r1 as [order|e1]; [|exact H1].
  unfold bind at 1, lift at 1.
  destruct (map_throwing _ cartItems) as [rows|e]; [|exact H1].
  unfold bind at 1.
  pose proof (await_placed userId (order_items_insert rows) w1
                (order_items_insert_placed userId rows)) as H2.
  destruct (await_returns (order_items_insert rows) w1) as (r2 & w2 & Hrun2 & _).
  rewrite Hrun2 in *. cbn [snd] in H2.
  pose proof (order_placed_over_trans _ _ _ _ H1 H2) as H12.
  destruct r2 as [[]|e2]; [|exact H12].
  unfold bind at 1. unfold bind at 1.
  pose proof (await_placed userId (cart_items_delete_user userId) w2
                (cart_items_delete_user_placed userId)) as H3.
  destruct (await_returns (cart_items_delete_user userId) w2) as (r3 & w3 & Hrun3 & _).
  rewrite Hrun3 in *. cbn [snd] in H3.
  pose proof (order_placed_over_trans _ _ _ _ H12 H3) as H123.
  by destruct r3.
Qed.

Lemma reduce_order_total_returned (cartItems : list CartItem.t) (acc total : Z) :
  reduce order_total_step acc cartItems = Return total →
  Forall (λ item, is_Some (CartItem.products item)) cartItems.
Proof.
  intros Hrun.
  destruct (decide (Forall (λ item, is_Some (CartItem.products item)) cartItems))
    as [|Hno]; [done|].
  apply not_Forall_Exists in Hno; [|apply _].
  rewrite reduce_order_total_throws in Hrun; [done|].
  eapply Exists_impl; [exact Hno|]. intros item. apply eq_None_not_Some.
Qed.

Lemma order_items_insert_refuses (rows : list OrderItemRow.t)
    (uid : option uuid) (d : Database) :
  Exists (λ r, order_item_violation uid d r ≠ None) rows →
  ∃ e, order_items_insert rows uid d = (Error e, d).
Proof.
  intros Hex. unfold order_items_insert.
  assert (is_Some (head (omap (order_item_violation uid d) rows))) as [e ->];
    [|by eexists].
  induction Hex as [r l Hr|r l _ IH]; simpl.
  - destruct (order_item_violation uid d r); [by eexists|done].
  - destruct (order_item_violation uid d r); [by eexists|done].
Qed.

Lemma order_items_insert_accepted (rows : list OrderItemRow.t)
    (uid : option uuid) (d d' : Database) :
  order_items_insert rows uid d = (Data (), d') →
  Forall (λ r, order_item_violation uid d r = None) rows.
Proof.
  intros Hrun.
  destruct (decide (Forall (λ r, order_item_violation uid d r = None) rows))
    as [|Hno]; [done|].
  apply not_Forall_Exists in Hno; [|apply _].
  destruct (order_items_insert_refuses rows uid d Hno) as [e He]. congruence.
Qed.

Lemma order_total_spec_nil : order_total_spec [] = 0.
Proof. reflexivity. Qed.

(** What has happened when [createOrder] returns an identifier. *)
Lemma createOrder_returned (userId : uuid) (cartItems : list CartItem.t)
    (shippingAddress : ShippingAddress.t) (w w' : World) (orderId : uuid) :
  createOrder userId cartItems shippingAddress w = (Return orderId, w') →
  auth_uid w = Some userId ∧ online 2 w ∧ cartItems ≠ []
  ∧ Forall (orderable (db w)) cartItems
  ∧ order_total_spec cartItems ≤ 9999999999.
Proof.
  rewrite createOrder_unfold. unfold bind at 1, lift at 1.
  destruct (reduce order_total_step 0 cartItems) as [total|e] eqn:Htotal; [|done].
  pose proof (reduce_order_total_returned _ _ _ Htotal) as Hprod.
  rewrite reduce_order_total_returns in Htotal by done.
  injection Htotal as <-. rewrite Z.add_0_l.
  unfold bind at 1.
  destruct (decide (head (outages w) = Some true)) as [Hdown|Hup].
  { rewrite await_lost by done. by cbv beta iota delta [bind console_error throw]. }
  rewrite await_reached by done. unfold orders_insert. cbn [OrderRow.user_id
    OrderRow.total_amount OrderRow.status OrderRow.shipping_address].
  destruct (decide (decimal_10_2 (order_total_spec cartItems))) as [[_ Hfits]|];
    [|by cbv beta iota delta [bind console_error throw fst snd]].
  destruct (decide (auth_uid w = Some userId)) as [Hauth|];
    [|by cbv beta iota delta [bind console_error throw fst snd]].
  destruct (decide (0 < order_total_spec cartItems)) as [Hpos|];
    [|by cbv beta iota delta [bind console_error throw fst snd]].
  cbn [fst snd]. unfold bind at 1, lift at 1. cbn [Order.id].
  rewrite map_order_lines_returns by done.
  unfold bind at 1.
  set (w1 := with_db _ (tick w)).
  assert (Hsecond : head (outages w1) = outages w !! 1%nat).
  { subst w1. cbn. by rewrite head_lookup, lookup_tail. }
  destruct (decide (head (outages w1) = Some true)) as [Hdown|Hup1].
  { rewrite await_lost by done. by cbv beta iota delta [bind console_error throw]. }
  rewrite await_reached by done.
  destruct (order_items_insert _ (auth_uid w1) (db w1)) as [[[]|e] d2] eqn:Hitems;
    [|by cbv beta iota delta [bind console_error throw fst snd]].
  intros _. split_and!.
  - done.
  - intros [|[|i]] Hi; [by rewrite <- head_lookup|congruence|lia].
  - intros ->. rewrite order_total_spec_nil in Hpos. lia.
  - apply order_items_insert_accepted in Hitems.
    rewrite Forall_fmap in Hitems. rewrite Forall_forall in Hitems, Hprod.
    apply Forall_forall. intros item Hel.
    specialize (Hitems _ Hel). specialize (Hprod _ Hel). simpl in Hitems.
    unfold order_item_violation, order_line_spec in Hitems.
    destruct (decide (integer_column _ ∧ decimal_10_2 _)) as [[[_ Hq'] [_ Hp']]|]
      in Hitems; [|done].
    subst w1. cbn in Hitems. rewrite lookup_insert_eq in Hitems. cbn in Hitems.
    rewrite Hauth in Hitems. rewrite decide_True in Hitems by done.
    destruct (decide (0 < _ ∧ 0 < _)) as [[Hq Hp]|] in Hitems; [|done].
    destruct (products (db w) !! CartItem.product_id item) eqn:Hrow; [|done].
    cbn in Hq', Hp'. by split_and!.
  - done.
Qed.

(** X19. [createOrder] returns an order identifier exactly when the session
    is that of [userId], neither of its first two requests is lost, the list
    of cart lines is not empty, every line carries its product, has a
    positive quantity that fits the [integer] column and a positive price
    that fits the [decimal(10,2)] column and names a stored product, and the
    total fits the [decimal(10,2)] column of the order (it is at most
    99,999,999.99). In every other case it throws (the clearing of the cart,
    the third request, plays no part). *)
Theorem createOrder_returns_iff (userId : uuid) (cartItems : list CartItem.t)
    (shippingAddress : ShippingAddress.t) (w : World) :
  (∃ orderId w', createOrder userId cartItems shippingAddress w = (Return orderId, w'))
  ↔ auth_uid w = Some userId ∧ online 2 w ∧ cartItems ≠ []
    ∧ Forall (orderable (db w)) cartItems
    ∧ order_total_spec cartItems ≤ 9999999999.
Proof.
  split.
  - intros (orderId & w' & Hrun). by eapply createOrder_returned.
  - intros (Hauth & Hup & Hne & Hall & Hfits).
    destruct (createOrder_run userId cartItems shippingAddress w Hauth Hup Hne Hall
                Hfits) as (w' & Hrun & _). eauto.
Qed.

Lemma sample_cart_orderable : Forall (orderable (db shop_at_checkout)) Sample.cart.
Proof.
  unfold Sample.cart.
  repeat (constructor; [unfold orderable; split_and!; first [by eexists | cbn; lia]|]).
  constructor.
Qed.

Lemma createOrder_returns_iff_witness :
  ∃ orderId w',
    createOrder "alice" Sample.cart Sample.address shop_at_checkout = (Return orderId, w').
Proof.
  apply (proj2 (createOrder_returns_iff "alice" Sample.cart Sample.address
                  shop_at_checkout)).
  split_and!; [done|by apply online_no_outage|done|apply sample_cart_orderable|
               discriminate].
Defined.

(** X20. The order and its lines are written by two separate requests. When
    the order has been stored (its total is positive and fits the
    [decimal(10,2)] column) and the request for the lines is then lost, or
    refused because some line has a quantity or a price that is not positive
    or does not fit its column, or names no stored product, [createOrder]
    logs and throws that error, and the order stays in the store without any
    line; the cart is not cleared. *)
Theorem createOrder_failed_lines_leave_order (userId : uuid)
    (cartItems : list CartItem.t) (shippingAddress : ShippingAddress.t) (w : World) :
  auth_uid w = Some userId →
  head (outages w) ≠ Some true →
  Forall (λ item, is_Some (CartItem.products item)) cartItems →
  0 < order_total_spec cartItems ≤ 9999999999 →
  outages w !! 1%nat = Some true
  ∨ Exists (λ item, ¬ (0 < CartItem.quantity item ≤ 2147483647
                       ∧ 0 < present_price_or_0 item ≤ 9999999999
                       ∧ is_Some (products (db w) !! CartItem.product_id item)))
      cartItems →
  ∃ e w',
    createOrder userId cartItems shippingAddress w = (Throw (PostgrestError e), w')
    ∧ orders (db w')
      = <[fresh (dom (orders (db w)))
          := OrderRow.mk userId (order_total_spec cartItems) pending shippingAddress]>
          (orders (db w))
    ∧ order_items (db w') = order_items (db w)
    ∧ cart_items (db w') = cart_items (db w)
    ∧ console w' = console w ++ [("Error creating order items:"%string, e)].
Proof.
  intros Hauth Hup Hprod Hpos Hfail.
  rewrite createOrder_unfold.
  unfold bind at 1, lift at 1. rewrite reduce_order_total_returns by done.
  unfold bind at 1. rewrite await_reached by done.
  rewrite Hauth, orders_insert_accepts by done. cbn [fst snd].
  unfold bind at 1, lift at 1. cbn [Order.id].
  rewrite map_order_lines_returns by done.
  unfold bind at 1.
  set (w1 := with_db _ (tick w)).
  assert (Hsecond : head (outages w1) = outages w !! 1%nat).
  { subst w1. cbn. by rewrite head_lookup, lookup_tail. }
  destruct (decide (outages w !! 1%nat = Some true)) as [Hdown|Hup1].
  - rewrite await_lost by congruence.
    exists fetch_failed. eexists. split; [reflexivity|]. subst w1. by cbn.
  - destruct Hfail as [|Hbad]; [done|].
    rewrite await_reached by congruence.
    destruct (order_items_insert_refuses
                (order_line_spec (fresh (dom (orders (db w)))) <$> cartItems)
                (auth_uid w1) (db w1)) as [e He].
    { apply Exists_fmap. eapply Exists_impl; [exact Hbad|].
      intros item Hitem. simpl. unfold order_item_violation, order_line_spec.
      destruct (decide (integer_column _ ∧ decimal_10_2 _)) as [[[_ Hq'] [_ Hp']]|];
        [|done].
      subst w1. cbn. rewrite lookup_insert_eq. cbn.
      rewrite Hauth, decide_True by done.
      destruct (decide (0 < _ ∧ 0 < _)) as [[Hq Hp]|]; [|done].
      destruct (products (db w) !! CartItem.product_id item) eqn:Hrow; [|done].
      cbn in Hq', Hp'. destruct Hitem. by split_and!. }
    rewrite He. exists e. eexists. split; [reflexivity|]. subst w1. by cbn.
Qed.

Lemma createOrder_failed_lines_leave_order_witness :
  ∃ e w',
    createOrder "alice" Sample.cart Sample.address shop_losing_second
    = (Throw (PostgrestError e), w')
    ∧ orders (db w')
      = <[fresh (dom (orders (db shop_losing_second)))
          := OrderRow.mk "alice" (order_total_spec Sample.cart) pending Sample.address]>
          (orders (db shop_losing_second))
    ∧ order_items (db w') = order_items (db shop_losing_second)
    ∧ cart_items (db w') = cart_items (db shop_losing_second)
    ∧ console w'
      = console shop_losing_second ++ [("Error creating order items:"%string, e)].
Proof.
  apply (createOrder_failed_lines_leave_order "alice" Sample.cart Sample.address
           shop_losing_second).
  - reflexivity.
  - discriminate.
  - repeat constructor; by eexists.
  - split; [reflexivity|discriminate].
  - left. reflexivity.
Defined.

Lemma insert_rows_filter {A} (P : uuid * A → Prop) `{!∀ kr, Decision (P kr)}
    (rows : list A) (m : gmap uuid A) :
  (∀ i r, r ∈ rows → P (i, r)) →
  (map_to_list (filter P (insert_rows rows m))).*2
  ≡ₚ (map_to_list (filter P m)).*2 ++ rows.
Proof.
  revert m. induction rows as [|r rows IH]; intros m Hall.
  - simpl. by rewrite app_nil_r.
  - simpl. rewrite IH by (intros; apply Hall; by right).
    rewrite map_filter_insert_True by (apply Hall; by left).
    rewrite map_to_list_insert; cycle 1.
    { apply map_lookup_filter_None. left. apply fresh_key_unused. }
    simpl. by rewrite Permutation_middle.
Qed.

Lemma order_item_columns_of (d : Database) (kr : uuid * OrderItemRow.t) :
  order_item_columns (order_item_of d kr) = kr.2.
Proof. by destruct kr as [i []]. Qed.

(** X21. An order can be read back as it was written: after [createOrder]
    has returned [orderId] in a store whose order lines all belong to
    existing orders, [getOrderById orderId], run by the same user on that
    store with its request going through, returns the order with the user,
    the total, the status [pending] and the address of the call, and its
    lines are, up to their order, the cart lines of the call with the
    prices of their products. *)
Theorem getOrderById_after_createOrder (userId : uuid) (cartItems : list CartItem.t)
    (shippingAddress : ShippingAddress.t) (w w1 w2 : World) (orderId : uuid) :
  order_items_reference_orders (db w) →
  createOrder userId cartItems shippingAddress w = (Return orderId, w1) →
  db w2 = db w1 → auth_uid w2 = Some userId → head (outages w2) ≠ Some true →
  ∃ lines,
    (getOrderById orderId w2).1
    = Return (Some (Order.mk orderId userId (order_total_spec cartItems) pending
                      shippingAddress (Some lines)))
    ∧ order_item_columns <$> lines ≡ₚ order_line_spec orderId <$> cartItems.
Proof.
  intros Hfk Hrun Hdb Hauth2 Hup2.
  destruct (createOrder_returned _ _ _ _ _ _ Hrun) as (Hauth & Hup & Hne & Hall & Hfits).
  destruct (createOrder_run userId cartItems shippingAddress w Hauth Hup Hne Hall Hfits)
    as (w' & Hrun' & Horders & Hlines & _).
  rewrite Hrun in Hrun'. injection Hrun' as -> <-.
  unfold getOrderById, bind. rewrite await_reached by done.
  unfold orders_select_single. rewrite Hdb, Horders, lookup_insert_eq.
  rewrite Hauth2. cbn [OrderRow.user_id]. rewrite decide_True by done.
  cbn [fst snd OrderRow.total_amount OrderRow.status OrderRow.shipping_address].
  eexists. split; [reflexivity|].
  rewrite <- list_fmap_compose.
  rewrite (list_fmap_ext (order_item_columns ∘ order_item_of (db w1)) snd)
    by (intros ? kr ?; apply order_item_columns_of).
  rewrite Hlines.
  rewrite (insert_rows_filter
             (λ kr, OrderItemRow.order_id kr.2 = fresh (dom (orders (db w))))).
  - replace (filter _ (order_items (db w))) with (∅ : gmap uuid OrderItemRow.t).
    + by rewrite map_to_list_empty.
    + symmetry. apply map_empty. intros i. apply map_lookup_filter_None. right.
      intros r Hrow Hid. simpl in Hid.
      destruct (Hfk i r Hrow) as [o Ho]. rewrite Hid in Ho.
      by rewrite fresh_key_unused in Ho.
  - intros i r Hel. apply list_elem_of_fmap in Hel as (item & -> & _). done.
Qed.

Lemma getOrderById_after_createOrder_witness :
  ∃ lines,
    (getOrderById (fresh (dom (orders (db shop_at_checkout))))
       (mkWorld
          (db (createOrder "alice" Sample.cart Sample.address shop_at_checkout).2)
          (Some "alice") [] [] [] false)).1
    = Return (Some (Order.mk (fresh (dom (orders (db shop_at_checkout)))) "alice"
                      (order_total_spec Sample.cart) pending Sample.address
                      (Some lines)))
    ∧ order_item_columns <$> lines
      ≡ₚ order_line_spec (fresh (dom (orders (db shop_at_checkout)))) <$> Sample.cart.
Proof.
  apply (getOrderById_after_createOrder "alice" Sample.cart Sample.address
           shop_at_checkout
           (createOrder "alice" Sample.cart Sample.address shop_at_checkout).2).
  - intros i r Hrow. change ((∅ : gmap uuid OrderItemRow.t) !! i = Some r) in Hrow.
    by rewrite lookup_empty in Hrow.
  - destruct (createOrder_run "alice" Sample.cart Sample.address shop_at_checkout)
      as (w' & Hrun & _);
      [reflexivity|by apply online_no_outage|discriminate|apply sample_cart_orderable|
       discriminate|].
    rewrite Hrun. reflexivity.
  - reflexivity.
  - reflexivity.
  - discriminate.
Defined.

(** X22. [getOrderById] never throws and never changes the store. It
    returns an order only when its request reaches the store, the order
    exists and belongs to the user of the session; the order then carries
    the stored columns and only lines of that order. In every other case it
    returns [null] after logging the error; and it does return the order
    whenever those three conditions hold. *)
Theorem getOrderById_own_orders_only (orderId : uuid) (w : World) :
  (∃ r, (getOrderById orderId w).1 = Return r)
  ∧ db (getOrderById orderId w).2 = db w
  ∧ (∀ order, (getOrderById orderId w).1 = Return (Some order) →
       head (outages w) ≠ Some true
       ∧ ∃ row, orders (db w) !! orderId = Some row
                ∧ auth_uid w = Some (OrderRow.user_id row)
                ∧ Order.id order = orderId
                ∧ Order.user_id order = OrderRow.user_id row
                ∧ Order.total_amount order = OrderRow.total_amount row
                ∧ Order.status order = OrderRow.status row
                ∧ Order.shipping_address order = OrderRow.shipping_address row
                ∧ ∃ lines, Order.order_items order = Some lines
                           ∧ Forall (λ line, OrderItem.order_id line = orderId) lines)
  ∧ ((getOrderById orderId w).1 = Return None →
     ∃ e, console (getOrderById orderId w).2
          = console w ++ [("Error fetching order:"%string, e)])
  ∧ (head (outages w) ≠ Some true →
     ∀ row, orders (db w) !! orderId = Some row →
            auth_uid w = Some (OrderRow.user_id row) →
            ∃ order, (getOrderById orderId w).1 = Return (Some order)).
Proof.
  unfold getOrderById, bind.
  destruct (decide (head (outages w) = Some true)) as [Hdown|Hup].
  { rewrite await_lost by done. cbn. split_and!; try done; eauto. }
  rewrite await_reached by done. unfold orders_select_single.
  destruct (orders (db w) !! orderId) as [o|] eqn:Horder; cycle 1.
  { cbn. split_and!; try done; eauto. }
  destruct (decide (auth_uid w = Some (OrderRow.user_id o))) as [Hown|Hother]; cycle 1.
  { cbn. split_and!; try done; eauto. intros _ row [= <-] ?. done. }
  cbn. split_and!; try done; eauto.
  intros order [= <-]. split; [done|]. exists o. cbn. split_and!; try done.
  eexists. split; [done|].
  apply Forall_fmap, Forall_forall. intros [i r] Hel.
  apply elem_of_map_to_list in Hel. by apply map_lookup_filter_Some in Hel as [_ ?].
Qed.

Lemma getOrderById_own_orders_only_witness :
  (getOrderById "no-such-order" Sample.shop).1 = Return None.
Proof.
  destruct (getOrderById_own_orders_only "no-such-order" Sample.shop)
    as ([r Hr] & _ & Hsome & _).
  rewrite Hr. destruct r as [order|]; [|reflexivity].
  destruct (Hsome order Hr) as (_ & row & Hrow & _).
  change ((∅ : gmap uuid OrderRow.t) !! "no-such-order" = Some row) in Hrow.
  by rewrite lookup_empty in Hrow.
Defined.

(** * The checkout page *)

Lemma createOrder_run_frame (userId : uuid) (lines : list CartItem.t)
    (shippingAddress : ShippingAddress.t) (w : World) :
  auth_uid w = Some userId → online 2 w → lines ≠ [] →
  Forall (orderable (db w)) lines →
  order_total_spec lines ≤ 9999999999 →
  ∃ w',
    createOrder userId lines shippingAddress w
    = (Return (fresh (dom (orders (db w)))), w')
    ∧ outages w' = tail (tail (tail (outages w)))
    ∧ cartItems w' = cartItems w
    ∧ wishlist_items (db w') = wishlist_items (db w).
Proof.
  intros Hauth Hup Hne Hall Hfits.
  pose proof (orderable_products_present _ _ Hall) as Hprod.
  pose proof (order_total_spec_pos _ _ Hne Hall) as Hpos.
  rewrite createOrder_unfold.
  unfold bind at 1, lift at 1. rewrite reduce_order_total_returns by done.
  unfold bind at 1. rewrite await_reached by (by eapply online_head).
  rewrite Hauth, orders_insert_accepts by done. cbn [fst snd].
  unfold bind at 1, lift at 1. cbn [Order.id].
  rewrite map_order_lines_returns by done.
  unfold bind at 1. rewrite await_reached; cycle 1.
  { eapply (online_head 0), online_tail; [|exact Hup]. done. }
  cbn [auth_uid with_db tick with_outages db]. rewrite Hauth.
  rewrite order_items_insert_accepts; cycle 1.
  { eapply order_lines_accepted; [apply lookup_insert_eq|done|done]. }
  cbn [fst snd]. unfold bind at 1. unfold bind at 1.
  set (w2 := with_db _ (tick (with_db _ (tick w)))).
  destruct (decide (head (outages w2) = Some true)) as [Hdown|Hok].
  - rewrite await_lost by done.
    eexists. split; [reflexivity|]. subst w2. by cbn.
  - rewrite await_reached by done.
    eexists. split; [reflexivity|]. subst w2. by cbn.
Qed.

Lemma clearCart_reached (w : World) (u : uuid) :
  auth_uid w = Some u → head (outages w) ≠ Some true →
  clearCart w
  = (Return (),
     with_cartItems []
       (with_db (with_cart_items (cleared_cart u (cart_items (db w))) (db w)) (tick w))).
Proof.
  intros Hauth Hup. unfold clearCart, useAuth_user. unfold bind at 1.
  rewrite Hauth. unfold bind at 1. rewrite await_reached by done.
  cbn [fst snd cart_items_delete_user]. by rewrite Hauth.
Qed.

Lemma clearCart_lost (w : World) (u : uuid) :
  auth_uid w = Some u → head (outages w) = Some true →
  clearCart w
  = (Throw (PostgrestError fetch_failed),
     with_console (console w ++ [("Error clearing cart:"%string, fetch_failed)]) (tick w)).
Proof.
  intros Hauth Hdown. unfold clearCart, useAuth_user. unfold bind at 1.
  rewrite Hauth. unfold bind at 1. by rewrite await_lost by done.
Qed.

Lemma cleared_cart_idemp (u : uuid) (m : gmap uuid CartRow.t) :
  cleared_cart u (cleared_cart u m) = cleared_cart u m.
Proof.
  apply map_eq. intros i. apply option_eq. intros r.
  rewrite !cleared_cart_lookup. tauto.
Qed.

Lemma orderable_same_products (d d' : Database) (l : list CartItem.t) :
  products d' = products d → Forall (orderable d) l → Forall (orderable d') l.
Proof.
  intros Hp Hall. eapply Forall_impl; [exact Hall|].
  intros item. unfold orderable. by rewrite Hp.
Qed.

(** [handleSubmit] for a signed-in user, by the ends of its two calls. *)
Lemma handleSubmit_unfold (shippingAddress : ShippingAddress.t) (p : CheckoutPage.t)
    (u : uuid) :
  auth_uid (CheckoutPage.world p) = Some u →
  CheckoutPage_handleSubmit shippingAddress p
  = match createOrder u (cartItems (CheckoutPage.world p)) shippingAddress
            (CheckoutPage.world p) with
    | (Return orderId, w1) =>
      match clearCart w1 with
      | (Return _, w2) =>
        CheckoutPage.mk w2 false (Some ("/orders/" +:+ orderId)) (CheckoutPage.console p)
      | (Throw error, w2) =>
        CheckoutPage.mk w2 false (CheckoutPage.location p)
          (CheckoutPage.console p ++ [("Error creating order:"%string, error)])
      end
    | (Throw error, w1) =>
      CheckoutPage.mk w1 false (CheckoutPage.location p)
        (CheckoutPage.console p ++ [("Error creating order:"%string, error)])
    end.
Proof.
  intros Hauth. unfold CheckoutPage_handleSubmit, bind. rewrite Hauth.
  destruct (createOrder _ _ _ _) as [[orderId|e] w1]; [|done].
  by destruct (clearCart w1) as [[[]|e] w2].
Qed.

(** A submission none of whose four requests is lost. *)
Lemma handleSubmit_online (shippingAddress : ShippingAddress.t) (p : CheckoutPage.t)
    (u : uuid) :
  auth_uid (CheckoutPage.world p) = Some u →
  online 4 (CheckoutPage.world p) →
  cartItems (CheckoutPage.world p) ≠ [] →
  Forall (orderable (db (CheckoutPage.world p))) (cartItems (CheckoutPage.world p)) →
  order_total_spec (cartItems (CheckoutPage.world p)) ≤ 9999999999 →
  ∃ w',
    CheckoutPage_handleSubmit shippingAddress p
    = CheckoutPage.mk w' false
        (Some ("/orders/" +:+ fresh (dom (orders (db (CheckoutPage.world p))))))
        (CheckoutPage.console p)
    ∧ orders (db w')
      = <[fresh (dom (orders (db (CheckoutPage.world p))))
          := OrderRow.mk u (order_total_spec (cartItems (CheckoutPage.world p)))
               pending shippingAddress]>
          (orders (db (CheckoutPage.world p)))
    ∧ order_items (db w')
      = insert_rows
          (order_line_spec (fresh (dom (orders (db (CheckoutPage.world p)))))
             <$> cartItems (CheckoutPage.world p))
          (order_items (db (CheckoutPage.world p)))
    ∧ cart_items (db w') = cleared_cart u (cart_items (db (CheckoutPage.world p)))
    ∧ products (db w') = products (db (CheckoutPage.world p))
    ∧ auth_uid w' = Some u
    ∧ cartItems w' = []
    ∧ console w' = console (CheckoutPage.world p).
Proof.
  destruct p as [w pl ploc pcon]. cbn [CheckoutPage.world CheckoutPage.console].
  intros Hauth Hup Hne Hall Hfits.
  assert (Hup2 : online 2 w) by (intros i Hi; apply Hup; lia).
  destruct (createOrder_run u (cartItems w) shippingAddress w Hauth Hup2 Hne Hall Hfits)
    as (w1 & Hrun & Horders & Hlines & Hprod & Hauth1 & Hthird & _).
  destruct (createOrder_run_frame u (cartItems w) shippingAddress w Hauth Hup2 Hne Hall
              Hfits) as (w1' & Hrun' & Hout & _).
  rewrite Hrun in Hrun'. injection Hrun' as <-.
  destruct Hthird as [Hcart Hcon]; [apply Hup; lia|].
  rewrite Hauth in Hauth1.
  assert (Hfourth : head (outages w1) ≠ Some true).
  { rewrite Hout, head_lookup, !lookup_tail. apply Hup. lia. }
  rewrite (handleSubmit_unfold _ _ u) by done. cbn [CheckoutPage.world].
  rewrite Hrun, (clearCart_reached w1 u) by done.
  eexists. split; [reflexivity|]. cbn.
  rewrite Hcart, cleared_cart_idemp. by split_and!.
Qed.

(** X24. Submitting the order form when none of the four requests is lost,
    the user being signed in, the lines on the screen being orderable and
    their total fitting the [decimal(10,2)] column: the order and one line
    per cart line are stored, the order's amount being the exact sum, to the
    cent, of quantity times price over the lines on the screen; the user's
    cart is empty in the store and on the screen, which are in step; the
    page navigates to the new order, stops loading and logs nothing. *)
Theorem handleSubmit_places_order (shippingAddress : ShippingAddress.t)
    (p : CheckoutPage.t) (u : uuid) :
  auth_uid (CheckoutPage.world p) = Some u →
  online 4 (CheckoutPage.world p) →
  cartItems (CheckoutPage.world p) ≠ [] →
  Forall (orderable (db (CheckoutPage.world p))) (cartItems (CheckoutPage.world p)) →
  order_total_spec (cartItems (CheckoutPage.world p)) ≤ 9999999999 →
  ∃ w' orderId,
    CheckoutPage_handleSubmit shippingAddress p
    = CheckoutPage.mk w' false (Some ("/orders/" +:+ orderId)) (CheckoutPage.console p)
    ∧ orders (db (CheckoutPage.world p)) !! orderId = None
    ∧ orders (db w') !! orderId
      = Some (OrderRow.mk u (order_total_spec (cartItems (CheckoutPage.world p))) pending
                shippingAddress)
    ∧ order_items (db w')
      = insert_rows (order_line_spec orderId <$> cartItems (CheckoutPage.world p))
          (order_items (db (CheckoutPage.world p)))
    ∧ (∀ i r, cart_items (db w') !! i = Some r
              ↔ cart_items (db (CheckoutPage.world p)) !! i = Some r
                ∧ CartRow.user_id r ≠ u)
    ∧ cartItems w' = []
    ∧ synced w'
    ∧ console w' = console (CheckoutPage.world p).
Proof.
  intros Hauth Hup Hne Hall Hfits.
  destruct (handleSubmit_online shippingAddress p u Hauth Hup Hne Hall Hfits)
    as (w' & Hrun & Horders & Hlines & Hcart & _ & Hauth' & Hlist & Hcon).
  exists w', (fresh (dom (orders (db (CheckoutPage.world p))))).
  split_and!; try done.
  - apply fresh_key_unused.
  - by rewrite Horders, lookup_insert_eq.
  - intros i r. rewrite Hcart. apply cleared_cart_lookup.
  - unfold synced. rewrite Hlist. symmetry.
    by eapply cleared_cart_view_empty.
Qed.

Lemma handleSubmit_places_order_witness :
  ∃ w' orderId,
    CheckoutPage_handleSubmit Sample.address checkout_page
    = CheckoutPage.mk w' false (Some ("/orders/" +:+ orderId)) []
    ∧ orders (db w') !! orderId
      = Some (OrderRow.mk "alice" (order_total_spec Sample.cart) pending Sample.address)
    ∧ cartItems w' = [].
Proof.
  destruct (handleSubmit_places_order Sample.address checkout_page "alice")
    as (w' & orderId & Hrun & _ & Horder & _ & _ & Hlist & _).
  - reflexivity.
  - by apply online_no_outage.
  - discriminate.
  - apply sample_cart_orderable.
  - discriminate.
  - exists w', orderId. split; [exact Hrun|]. split; [exact Horder|exact Hlist].
Defined.

(** X25. When the first three requests of a submission go through and the
    fourth, that of [clearCart], is lost (the lines on the screen being
    orderable and their total fitting the [decimal(10,2)] column): the order
    is stored and the user's cart is empty in the store, yet the page does
    not navigate, logs the lost request and keeps showing the cart lines.
    The form can then be submitted again, and if the four requests of that
    second submission go through, a second order with the same amount and
    address is stored beside the first. *)
Theorem handleSubmit_clearCart_lost (shippingAddress : ShippingAddress.t)
    (p : CheckoutPage.t) (u : uuid) :
  auth_uid (CheckoutPage.world p) = Some u →
  online 3 (CheckoutPage.world p) →
  outages (CheckoutPage.world p) !! 3%nat = Some true →
  (∀ i, (4 ≤ i < 8)%nat → outages (CheckoutPage.world p) !! i ≠ Some true) →
  cartItems (CheckoutPage.world p) ≠ [] →
  Forall (orderable (db (CheckoutPage.world p))) (cartItems (CheckoutPage.world p)) →
  order_total_spec (cartItems (CheckoutPage.world p)) ≤ 9999999999 →
  ∃ w' orderId,
    CheckoutPage_handleSubmit shippingAddress p
    = CheckoutPage.mk w' false (CheckoutPage.location p)
        (CheckoutPage.console p
         ++ [("Error creating order:"%string, PostgrestError fetch_failed)])
    ∧ orders (db (CheckoutPage.world p)) !! orderId = None
    ∧ orders (db w') !! orderId
      = Some (OrderRow.mk u (order_total_spec (cartItems (CheckoutPage.world p))) pending
                shippingAddress)
    ∧ cart_view w' = []
    ∧ cartItems w' = cartItems (CheckoutPage.world p)
    ∧ ∃ w'' orderId',
        CheckoutPage_handleSubmit shippingAddress
          (CheckoutPage_handleSubmit shippingAddress p)
        = CheckoutPage.mk w'' false (Some ("/orders/" +:+ orderId'))
            (CheckoutPage.console p
             ++ [("Error creating order:"%string, PostgrestError fetch_failed)])
        ∧ orderId' ≠ orderId
        ∧ orders (db w'') !! orderId
          = Some (OrderRow.mk u (order_total_spec (cartItems (CheckoutPage.world p)))
                    pending shippingAddress)
        ∧ orders (db w'') !! orderId'
          = Some (OrderRow.mk u (order_total_spec (cartItems (CheckoutPage.world p)))
                    pending shippingAddress).
Proof.
  destruct p as [w pl ploc pcon].
  cbn [CheckoutPage.world CheckoutPage.console CheckoutPage.location].
  intros Hauth Hup Hfourth Hlater Hne Hall Hfits.
  assert (Hup2 : online 2 w) by (intros i Hi; apply Hup; lia).
  destruct (createOrder_run u (cartItems w) shippingAddress w Hauth Hup2 Hne Hall Hfits)
    as (w1 & Hrun & Horders & Hlines & Hprod & Hauth1 & Hthird & _).
  destruct (createOrder_run_frame u (cartItems w) shippingAddress w Hauth Hup2 Hne Hall
              Hfits) as (w1' & Hrun' & Hout & Hlist & _).
  rewrite Hrun in Hrun'. injection Hrun' as <-.
  destruct Hthird as [Hcart Hcon]; [apply Hup; lia|].
  rewrite Hauth in Hauth1.
  assert (Hdown : head (outages w1) = Some true).
  { by rewrite Hout, head_lookup, !lookup_tail. }
  rewrite (handleSubmit_unfold _ _ u) by done. cbn [CheckoutPage.world
    CheckoutPage.console CheckoutPage.location].
  rewrite Hrun, (clearCart_lost w1 u) by done.
  set (w' := with_console _ (tick w1)).
  assert (Hstored : orders (db w') !! fresh (dom (orders (db w)))
                    = Some (OrderRow.mk u (order_total_spec (cartItems w)) pending
                              shippingAddress)).
  { subst w'. cbn. by rewrite Horders, lookup_insert_eq. }
  exists w', (fresh (dom (orders (db w)))). split_and!.
  - done.
  - apply fresh_key_unused.
  - done.
  - apply (cleared_cart_view_empty w' u (cart_items (db w))); [done|].
    subst w'. by cbn.
  - subst w'. by cbn.
  - destruct (handleSubmit_online shippingAddress
                (CheckoutPage.mk w' false ploc
                   (pcon ++ [("Error creating order:"%string,
                              PostgrestError fetch_failed)])) u)
      as (w'' & Hrun2 & Horders2 & _).
    + done.
    + intros i Hi. subst w'. cbn. rewrite Hout, !lookup_tail. apply Hlater. lia.
    + subst w'. cbn. by rewrite Hlist.
    + subst w'. cbn. rewrite Hlist.
      by apply (orderable_same_products (db w)).
    + subst w'. cbn. by rewrite Hlist.
    + cbn [CheckoutPage.world CheckoutPage.console] in Hrun2, Horders2.
      exists w'', (fresh (dom (orders (db w')))). split_and!.
      * exact Hrun2.
      * intros Heq. rewrite <- Heq in Hstored.
        by rewrite fresh_key_unused in Hstored.
      * rewrite Horders2, lookup_insert_ne; [done|].
        intros Heq. rewrite <- Heq in Hstored.
        by rewrite fresh_key_unused in Hstored.
      * rewrite Horders2, lookup_insert_eq.
        by replace (cartItems w') with (cartItems w) by (subst w'; by cbn).
Qed.

Lemma handleSubmit_clearCart_lost_witness :
  ∃ w' orderId,
    CheckoutPage_handleSubmit Sample.address checkout_page_losing_fourth
    = CheckoutPage.mk w' false None
        [("Error creating order:"%string, PostgrestError fetch_failed)]
    ∧ orders (db w') !! orderId
      = Some (OrderRow.mk "alice" (order_total_spec Sample.cart) pending Sample.address)
    ∧ cart_view w' = []
    ∧ cartItems w' = Sample.cart.
Proof.
  destruct (handleSubmit_clearCart_lost Sample.address checkout_page_losing_fourth
              "alice")
    as (w' & orderId & Hrun & _ & Horder & Hview & Hlist & _).
  - reflexivity.
  - intros [|[|[|i]]] Hi; [discriminate..|lia].
  - reflexivity.
  - intros [|[|[|[|i]]]] Hi; [lia..|discriminate].
  - discriminate.
  - apply sample_cart_orderable.
  - discriminate.
  - exists w', orderId.
    split; [exact Hrun|]. split; [exact Horder|]. split; [exact Hview|exact Hlist].
Defined.

(** X26. [handleSubmit] does nothing for a signed-out user. For a signed-in
    user it always ends with the page not loading, and either it stays on
    the page and logs exactly one error, or it navigates to [/orders/] and
    the identifier of an order that was not stored before and is stored now
    for that user, with the exact sum, to the cent, of quantity times price
    over the lines on the screen, [pending] and the address of the form; the
    cart on the screen is then empty and nothing is logged. *)
Theorem handleSubmit_navigates_only_to_stored_order
    (shippingAddress : ShippingAddress.t) (p : CheckoutPage.t) :
  (auth_uid (CheckoutPage.world p) = None
   ∧ CheckoutPage_handleSubmit shippingAddress p = p)
  ∨ ∃ u,
      auth_uid (CheckoutPage.world p) = Some u
      ∧ CheckoutPage.loading (CheckoutPage_handleSubmit shippingAddress p) = false
      ∧ ((CheckoutPage.location (CheckoutPage_handleSubmit shippingAddress p)
          = CheckoutPage.location p
          ∧ ∃ e, CheckoutPage.console (CheckoutPage_handleSubmit shippingAddress p)
                 = CheckoutPage.console p ++ [("Error creating order:"%string, e)])
         ∨ ∃ orderId,
             CheckoutPage.location (CheckoutPage_handleSubmit shippingAddress p)
             = Some ("/orders/" +:+ orderId)
             ∧ CheckoutPage.console (CheckoutPage_handleSubmit shippingAddress p)
               = CheckoutPage.console p
             ∧ orders (db (CheckoutPage.world p)) !! orderId = None
             ∧ orders (db (CheckoutPage.world
                             (CheckoutPage_handleSubmit shippingAddress p))) !! orderId
               = Some (OrderRow.mk u (order_total_spec (cartItems (CheckoutPage.world p)))
                         pending shippingAddress)
             ∧ cartItems (CheckoutPage.world
                            (CheckoutPage_handleSubmit shippingAddress p)) = []).
Proof.
  destruct (auth_uid (CheckoutPage.world p)) as [u|] eqn:Hauth; cycle 1.
  { left. split; [done|]. unfold CheckoutPage_handleSubmit. by rewrite Hauth. }
  right. exists u. split; [done|].
  rewrite (handleSubmit_unfold _ _ u) by done.
  destruct (createOrder u _ shippingAddress (CheckoutPage.world p))
    as [[orderId|e] w1] eqn:Hrun; cycle 1.
  { split; [done|]. left. split; [done|]. by exists e. }
  destruct (createOrder_returned _ _ _ _ _ _ Hrun) as (_ & Hup & Hne & Hall & Hfits).
  destruct (createOrder_run u _ shippingAddress _ Hauth Hup Hne Hall Hfits)
    as (w1' & Hrun' & Horders & _ & _ & Hauth1 & _).
  rewrite Hrun in Hrun'. injection Hrun' as -> <-. rewrite Hauth in Hauth1.
  destruct (decide (head (outages w1) = Some true)) as [Hdown|Hreached].
  - rewrite (clearCart_lost w1 u) by done.
    split; [done|]. left. split; [done|]. by eexists.
  - rewrite (clearCart_reached w1 u) by done.
    split; [done|]. right. eexists. split_and!; try done.
    + apply fresh_key_unused.
    + cbn. by rewrite Horders, lookup_insert_eq.
Qed.

Lemma handleSubmit_navigates_only_to_stored_order_witness :
  CheckoutPage_handleSubmit Sample.address
    (CheckoutPage.mk shop_signed_out false None [])
  = CheckoutPage.mk shop_signed_out false None [].
Proof.
  destruct (handleSubmit_navigates_only_to_stored_order Sample.address
              (CheckoutPage.mk shop_signed_out false None []))
    as [[_ Hrun]|(u & Hauth & _)]; [exact Hrun|discriminate Hauth].
Defined.

(** * The heart button of a product card *)

Lemma removeFromWishlist_lost (userId productId : uuid) (w : World) :
  head (outages w) = Some true →
  removeFromWishlist userId productId w
  = (Throw (PostgrestError fetch_failed),
     with_console (console w ++ [("Error removing from wishlist:"%string, fetch_failed)])
       (tick w)).
Proof. intros Hdown. unfold removeFromWishlist, bind. by rewrite await_lost. Qed.

Lemma isInWishlist_lost (userId productId : uuid) (w : World) :
  head (outages w) = Some true →
  isInWishlist userId productId w = (Return false, tick w).
Proof. intros Hdown. unfold isInWishlist, bind. by rewrite await_lost. Qed.

(** X27. The heart of a product card that agrees with the store stays in
    agreement when clicked, for a signed-in user and a stored product. When
    the request goes through, the flag flips, the entry of this user and
    product is added or removed accordingly, no other wishlist entry
    changes and nothing is logged; when the request is lost, flag and store
    stay as they were and the error is logged. Either way the card stops
    loading. *)
Theorem handleWishlistToggle_keeps_heart_in_step (c : ProductCard.t) (u : uuid) :
  auth_uid (ProductCard.world c) = Some u →
  is_Some (products (db (ProductCard.world c)) !! ProductCard.product_id c) →
  (ProductCard.isInWishlist c = true
   ↔ wishlisted (db (ProductCard.world c)) u (ProductCard.product_id c)) →
  ProductCard.isLoading (ProductCard_handleWishlistToggle c) = false
  ∧ (ProductCard.isInWishlist (ProductCard_handleWishlistToggle c) = true
     ↔ wishlisted (db (ProductCard.world (ProductCard_handleWishlistToggle c))) u
         (ProductCard.product_id c))
  ∧ (head (outages (ProductCard.world c)) ≠ Some true →
     ProductCard.isInWishlist (ProductCard_handleWishlistToggle c)
     = negb (ProductCard.isInWishlist c)
     ∧ ProductCard.console (ProductCard_handleWishlistToggle c) = ProductCard.console c
     ∧ ∀ i r, ¬ wishlist_entry_of u (ProductCard.product_id c) r →
         (wishlist_items (db (ProductCard.world (ProductCard_handleWishlistToggle c)))
            !! i = Some r
          ↔ wishlist_items (db (ProductCard.world c)) !! i = Some r))
  ∧ (head (outages (ProductCard.world c)) = Some true →
     ProductCard.isInWishlist (ProductCard_handleWishlistToggle c)
     = ProductCard.isInWishlist c
     ∧ db (ProductCard.world (ProductCard_handleWishlistToggle c))
       = db (ProductCard.world c)
     ∧ ProductCard.console (ProductCard_handleWishlistToggle c)
       = ProductCard.console c
         ++ [("Error toggling wishlist:"%string, PostgrestError fetch_failed)]).
Proof.
  destruct c as [w p flag busy con]. cbn [ProductCard.world ProductCard.product_id
    ProductCard.isInWishlist ProductCard.console].
  intros Hauth Hprod Hagree.
  set (c := ProductCard.mk w p flag busy con).
  destruct (decide (head (outages w) = Some true)) as [Hdown|Hup]; destruct flag.
  - assert (ProductCard_handleWishlistToggle c
            = ProductCard.mk
                (with_console
                   (console w ++ [("Error removing from wishlist:"%string, fetch_failed)])
                   (tick w))
                p true false
                (con ++ [("Error toggling wishlist:"%string,
                          PostgrestError fetch_failed)])) as ->.
    { unfold ProductCard_handleWishlistToggle, bind. subst c.
      cbn [ProductCard.world ProductCard.product_id ProductCard.isInWishlist
           ProductCard.console].
      by rewrite Hauth, removeFromWishlist_lost. }
    cbn. by split_and!.
  - destruct (addToWishlist_lost u p w Hdown) as (w' & Hadd & Hdb & _).
    assert (ProductCard_handleWishlistToggle c
            = ProductCard.mk w' p false false
                (con ++ [("Error toggling wishlist:"%string,
                          PostgrestError fetch_failed)])) as ->.
    { unfold ProductCard_handleWishlistToggle, bind. subst c.
      cbn [ProductCard.world ProductCard.product_id ProductCard.isInWishlist
           ProductCard.console].
      by rewrite Hauth, Hadd. }
    cbn. rewrite Hdb. by split_and!.
  - assert (ProductCard_handleWishlistToggle c
            = ProductCard.mk
                (with_db (with_wishlist_items
                            (filter (λ kr, ¬ (wishlist_entry_of u p kr.2
                                              ∧ Some u = Some (WishlistRow.user_id kr.2)))
                               (wishlist_items (db w))) (db w)) (tick w))
                p false false con) as ->.
    { unfold ProductCard_handleWishlistToggle, bind. subst c.
      cbn [ProductCard.world ProductCard.product_id ProductCard.isInWishlist
           ProductCard.console].
      by rewrite Hauth, removeFromWishlist_reached. }
    cbn. split_and!; try done.
    + split; [done|]. intros (i & r & Hrow & Hentry).
      apply wishlist_delete_lookup in Hrow as [_ Hno]. done.
    + intros _. split_and!; try done. intros i r Hno.
      rewrite wishlist_delete_lookup. tauto.
  - destruct (addToWishlist_new u p w Hauth Hup Hprod) as (w' & Hadd & Hdb & _).
    { intros i r Hrow Hentry.
      assert (false = true) as [=]. apply Hagree. by exists i, r. }
    assert (ProductCard_handleWishlistToggle c
            = ProductCard.mk w' p true false con) as ->.
    { unfold ProductCard_handleWishlistToggle, bind. subst c.
      cbn [ProductCard.world ProductCard.product_id ProductCard.isInWishlist
           ProductCard.console].
      by rewrite Hauth, Hadd. }
    cbn. rewrite Hdb. cbn. split_and!; try done.
    + split; [|done]. intros _. eexists _, _. split; [apply lookup_insert_eq|done].
    + intros _. split_and!; try done. intros i r Hno.
      rewrite lookup_insert_Some. split.
      * intros [[_ <-]|[_ Hrow]]; [by destruct Hno|done].
      * intros Hrow. right. split; [|done].
        intros <-. by rewrite fresh_key_unused in Hrow.
Qed.

Lemma handleWishlistToggle_keeps_heart_in_step_witness :
  ProductCard.isInWishlist (ProductCard_handleWishlistToggle tshirt_card) = true
  ∧ wishlisted (db (ProductCard.world (ProductCard_handleWishlistToggle tshirt_card)))
      "alice" "tshirt".
Proof.
  destruct (handleWishlistToggle_keeps_heart_in_step tshirt_card "alice")
    as (_ & Hagree & Hreached & _).
  - reflexivity.
  - by eexists.
  - split; [discriminate|]. intros (i & r & Hrow & _).
    change ((∅ : gmap uuid WishlistRow.t) !! i = Some r) in Hrow.
    by rewrite lookup_empty in Hrow.
  - destruct Hreached as (Hflag & _); [discriminate|].
    split; [exact Hflag|]. apply Hagree. exact Hflag.
Defined.

(** X28. A lost status request leaves a false heart that cannot be undone
    by clicking. When the product is in the user's wishlist but the request
    of [checkWishlistStatus] is lost, the card shows the product as not in
    the wishlist and logs nothing, because [isInWishlist] answers [false] on
    any error; a click on the heart then tries to add the product again,
    the store refuses the duplicate, and the card still shows the product
    as not in the wishlist, with the store unchanged and the conflict
    logged. *)
Theorem handleWishlistToggle_after_lost_status (c : ProductCard.t) (u : uuid) :
  auth_uid (ProductCard.world c) = Some u →
  wishlisted (db (ProductCard.world c)) u (ProductCard.product_id c) →
  head (outages (ProductCard.world c)) = Some true →
  outages (ProductCard.world c) !! 1%nat ≠ Some true →
  ProductCard.isInWishlist (ProductCard_checkWishlistStatus c) = false
  ∧ ProductCard.console (ProductCard_checkWishlistStatus c) = ProductCard.console c
  ∧ ProductCard.isInWishlist
      (ProductCard_handleWishlistToggle (ProductCard_checkWishlistStatus c)) = false
  ∧ db (ProductCard.world
          (ProductCard_handleWishlistToggle (ProductCard_checkWishlistStatus c)))
    = db (ProductCard.world c)
  ∧ ProductCard.console
      (ProductCard_handleWishlistToggle (ProductCard_checkWishlistStatus c))
    = ProductCard.console c
      ++ [("Error toggling wishlist:"%string, PostgrestError unique_violation)]
  ∧ error_kind (PostgrestError unique_violation) = Some ConflictError.
Proof.
  destruct c as [w p flag busy con]. cbn [ProductCard.world ProductCard.product_id
    ProductCard.isInWishlist ProductCard.console].
  intros Hauth (i & r & Hrow & Hentry) Hdown Hup.
  assert (ProductCard_checkWishlistStatus (ProductCard.mk w p flag busy con)
          = ProductCard.mk (tick w) p false busy con) as ->.
  { unfold ProductCard_checkWishlistStatus.
    cbn [ProductCard.world ProductCard.product_id ProductCard.isInWishlist
         ProductCard.console ProductCard.isLoading].
    by rewrite Hauth, isInWishlist_lost. }
  destruct (addToWishlist_duplicate u p (tick w) i r) as (w' & Hadd & Hdb & _);
    [done| |done|done|].
  { cbn. by rewrite head_lookup, lookup_tail. }
  assert (ProductCard_handleWishlistToggle (ProductCard.mk (tick w) p false busy con)
          = ProductCard.mk w' p false false
              (con ++ [("Error toggling wishlist:"%string,
                        PostgrestError unique_violation)])) as ->.
  { unfold ProductCard_handleWishlistToggle, bind.
    cbn [ProductCard.world ProductCard.product_id ProductCard.isInWishlist
         ProductCard.console ProductCard.isLoading].
    change (auth_uid (tick w)) with (auth_uid w). by rewrite Hauth, Hadd. }
  cbn. rewrite Hdb. by split_and!.
Qed.

Lemma handleWishlistToggle_after_lost_status_witness :
  ProductCard.isInWishlist
    (ProductCard_handleWishlistToggle
       (ProductCard_checkWishlistStatus tshirt_card_wishlisted)) = false
  ∧ ProductCard.console
      (ProductCard_handleWishlistToggle
         (ProductCard_checkWishlistStatus tshirt_card_wishlisted))
    = [("Error toggling wishlist:"%string, PostgrestError unique_violation)].
Proof.
  destruct (handleWishlistToggle_after_lost_status tshirt_card_wishlisted "alice")
    as (_ & _ & Hflag & _ & Hlog & _).
  - reflexivity.
  - exists "wish-1", (WishlistRow.mk "alice" "tshirt").
    split; [apply lookup_insert_eq|done].
  - reflexivity.
  - discriminate.
  - split; [exact Hflag|exact Hlog].
Defined.

(** * The user's profile *)

Lemma profiles_await_reached {A} (q : Accounts.Sql A) (a : Accounts.t) :
  head (Accounts.outages a) ≠ Some true →
  Accounts.await q a
  = ((q (Accounts.auth_uid a) (Accounts.now a) (Accounts.user_profiles a)).1,
     Accounts.with_user_profiles
       (q (Accounts.auth_uid a) (Accounts.now a) (Accounts.user_profiles a)).2
       (Accounts.tick a)).
Proof.
  intros Hup. unfold Accounts.await.
  destruct (head (Accounts.outages a)) as [[]|]; try done; by destruct (q _ _ _).
Qed.

Lemma profiles_await_lost {A} (q : Accounts.Sql A) (a : Accounts.t) :
  head (Accounts.outages a) = Some true →
  Accounts.await q a = (Error fetch_failed, Accounts.tick a).
Proof. intros Hdown. unfold Accounts.await. by rewrite Hdown. Qed.

Lemma getProfile_existing (userId : uuid) (a : Accounts.t) (r : ProfileRow.t) :
  Accounts.auth_uid a = Some userId → head (Accounts.outages a) ≠ Some true →
  Accounts.user_profiles a !! userId = Some r →
  UserService_getProfile userId a
  = (Return (Some (UserProfile.of_row userId r)),
     Accounts.with_user_profiles (Accounts.user_profiles a) (Accounts.tick a)).
Proof.
  intros Hauth Hup Hrow. unfold UserService_getProfile.
  rewrite profiles_await_reached by done. unfold user_profiles_select_single.
  rewrite Hrow, Hauth, decide_True by done. done.
Qed.

(** X29. [getProfile] never throws, returns a profile only to the user it
    belongs to, and never changes the profile of anyone else nor a profile
    that exists. For a signed-in user without a profile, when its two
    requests go through, it creates the profile, with no name, phone or
    address and both timestamps at the store's clock, and returns it; asked
    again later it returns that same profile with one request and creates
    nothing. *)
Theorem getProfile_creates_profile_once (userId : uuid) (a : Accounts.t) :
  (∃ r a',
     UserService_getProfile userId a = (Return r, a')
     ∧ (∀ profile, r = Some profile →
          Accounts.auth_uid a = Some userId
          ∧ ∃ row, Accounts.user_profiles a' !! userId = Some row
                   ∧ profile = UserProfile.of_row userId row)
     ∧ (∀ i, i ≠ userId →
          Accounts.user_profiles a' !! i = Accounts.user_profiles a !! i)
     ∧ (is_Some (Accounts.user_profiles a !! userId) →
        Accounts.user_profiles a' = Accounts.user_profiles a))
  ∧ (Accounts.auth_uid a = Some userId →
     head (Accounts.outages a) ≠ Some true →
     Accounts.outages a !! 1%nat ≠ Some true →
     Accounts.user_profiles a !! userId = None →
     ∃ a',
       UserService_getProfile userId a
       = (Return (Some (UserProfile.mk userId None None None (Accounts.now a)
                          (Accounts.now a))), a')
       ∧ Accounts.user_profiles a'
         = <[userId := ProfileRow.mk None None None (Accounts.now a) (Accounts.now a)]>
             (Accounts.user_profiles a)
       ∧ Accounts.console a' = Accounts.console a
       ∧ ∀ later,
           Accounts.user_profiles later = Accounts.user_profiles a' →
           Accounts.auth_uid later = Some userId →
           head (Accounts.outages later) ≠ Some true →
           ∃ a'',
             UserService_getProfile userId later
             = (Return (Some (UserProfile.mk userId None None None (Accounts.now a)
                                (Accounts.now a))), a'')
             ∧ Accounts.user_profiles a'' = Accounts.user_profiles a'
             ∧ Accounts.outages a'' = tail (Accounts.outages later)).
Proof.
  split.
  - unfold UserService_getProfile.
    destruct (decide (head (Accounts.outages a) = Some true)) as [Hdown|Hup].
    { rewrite profiles_await_lost by done. eexists _, _. split; [reflexivity|].
      cbn. by split_and!. }
    rewrite profiles_await_reached by done. unfold user_profiles_select_single.
    assert (Hcreate : ∃ r a',
      UserService_createProfile userId
        (Accounts.with_user_profiles (Accounts.user_profiles a) (Accounts.tick a))
      = (Return r, a')
      ∧ (∀ profile, r = Some profile →
           Accounts.auth_uid a = Some userId
           ∧ ∃ row, Accounts.user_profiles a' !! userId = Some row
                    ∧ profile = UserProfile.of_row userId row)
      ∧ (∀ i, i ≠ userId →
           Accounts.user_profiles a' !! i = Accounts.user_profiles a !! i)
      ∧ (is_Some (Accounts.user_profiles a !! userId) →
         Accounts.user_profiles a' = Accounts.user_profiles a)).
    { unfold UserService_createProfile.
      set (a1 := Accounts.with_user_profiles _ _).
      destruct (decide (head (Accounts.outages a1) = Some true)) as [Hdown1|Hup1].
      { rewrite profiles_await_lost by done. eexists _, _. split; [reflexivity|].
        cbn. by split_and!. }
      rewrite profiles_await_reached by done. unfold user_profiles_insert.
      subst a1. cbn [Accounts.auth_uid Accounts.with_user_profiles Accounts.tick
                     Accounts.user_profiles Accounts.now].
      destruct (decide (Accounts.auth_uid a = Some userId)) as [Hauth|Hother]; cycle 1.
      { eexists _, _. split; [reflexivity|]. cbn. by split_and!. }
      destruct (Accounts.user_profiles a !! userId) as [r|] eqn:Hrow.
      { eexists _, _. split; [reflexivity|]. cbn. by split_and!. }
      eexists _, _. split; [reflexivity|]. cbn. split_and!.
      - intros profile [= <-]. split; [done|]. eexists.
        split; [apply lookup_insert_eq|done].
      - intros i Hi. by rewrite lookup_insert_ne.
      - by intros [? [=]]. }
    destruct (Accounts.user_profiles a !! userId) as [r|] eqn:Hrow; [|exact Hcreate].
    destruct (decide (Accounts.auth_uid a = Some userId)) as [Hauth|Hother];
      [|exact Hcreate].
    eexists _, _. split; [reflexivity|]. cbn. split_and!; try done.
    intros profile [= <-]. split; [done|]. by exists r.
  - intros Hauth Hup Hup1 Hnone. unfold UserService_getProfile at 1.
    rewrite profiles_await_reached by done. unfold user_profiles_select_single.
    rewrite Hnone. cbn [fst snd]. unfold UserService_createProfile.
    rewrite profiles_await_reached; cycle 1.
    { cbn. by rewrite head_lookup, lookup_tail. }
    unfold user_profiles_insert. cbn [Accounts.auth_uid Accounts.with_user_profiles
      Accounts.tick Accounts.user_profiles Accounts.now].
    rewrite Hauth, decide_True, Hnone by done. cbn [fst snd].
    eexists. split; [reflexivity|]. cbn. split_and!; try done.
    intros later Hsame Hauth' Hup'.
    rewrite (getProfile_existing userId later
               (ProfileRow.mk None None None (Accounts.now a) (Accounts.now a)))
      by (try done; rewrite Hsame; apply lookup_insert_eq).
    eexists. split; [reflexivity|]. by cbn.
Qed.

Lemma getProfile_creates_profile_once_witness :
  ∃ a',
    UserService_getProfile "alice" alice_account
    = (Return (Some (UserProfile.mk "alice" None None None 100 100)), a')
    ∧ Accounts.user_profiles a' = <["alice" := ProfileRow.mk None None None 100 100]> ∅.
Proof.
  destruct (proj2 (getProfile_creates_profile_once "alice" alice_account))
    as (a' & Hrun & Hstore & _).
  - reflexivity.
  - discriminate.
  - discriminate.
  - reflexivity.
  - exists a'. split; [exact Hrun|exact Hstore].
Defined.

(** X30. [updateProfile] never creates a profile and never returns [null].
    For the signed-in user whose profile exists, when the request goes
    through, it stores and returns the profile with exactly the given
    columns replaced, [created_at] kept and [updated_at] set to the
    browser's clock, and touches no other profile. When the profile does
    not exist it logs and throws the no-row error and the store is
    unchanged. *)
Theorem updateProfile_merges_or_throws (userId : uuid) (updates : ProfileUpdates.t)
    (a : Accounts.t) :
  Accounts.auth_uid a = Some userId →
  head (Accounts.outages a) ≠ Some true →
  (∀ r, Accounts.user_profiles a !! userId = Some r →
     ∃ a',
       UserService_updateProfile userId updates a
       = (Return (Some (UserProfile.of_row userId
                          (updated_profile updates (Accounts.Date_now a) r))), a')
       ∧ Accounts.user_profiles a'
         = <[userId := updated_profile updates (Accounts.Date_now a) r]>
             (Accounts.user_profiles a)
       ∧ ProfileRow.created_at (updated_profile updates (Accounts.Date_now a) r)
         = ProfileRow.created_at r
       ∧ ProfileRow.updated_at (updated_profile updates (Accounts.Date_now a) r)
         = Accounts.Date_now a
       ∧ (ProfileUpdates.full_name updates = None →
          ProfileRow.full_name (updated_profile updates (Accounts.Date_now a) r)
          = ProfileRow.full_name r)
       ∧ (ProfileUpdates.phone updates = None →
          ProfileRow.phone (updated_profile updates (Accounts.Date_now a) r)
          = ProfileRow.phone r)
       ∧ (ProfileUpdates.address updates = None →
          ProfileRow.address (updated_profile updates (Accounts.Date_now a) r)
          = ProfileRow.address r)
       ∧ (updates = ProfileUpdates.mk None None None →
          ∀ i r', Accounts.user_profiles a' !! i = Some r' →
                  ∃ r0, Accounts.user_profiles a !! i = Some r0
                        ∧ ProfileRow.full_name r' = ProfileRow.full_name r0
                        ∧ ProfileRow.phone r' = ProfileRow.phone r0
                        ∧ ProfileRow.address r' = ProfileRow.address r0))
  ∧ (Accounts.user_profiles a !! userId = None →
     ∃ a',
       UserService_updateProfile userId updates a
       = (Throw (PostgrestError no_single_row), a')
       ∧ Accounts.user_profiles a' = Accounts.user_profiles a
       ∧ Accounts.console a'
         = Accounts.console a ++ [("Error updating profile:"%string, no_single_row)])
  ∧ (∀ o a', UserService_updateProfile userId updates a = (Return o, a') → is_Some o).
Proof.
  intros Hauth Hup. unfold UserService_updateProfile.
  rewrite profiles_await_reached by done. unfold user_profiles_update.
  rewrite Hauth. split_and!.
  - intros r Hrow. rewrite Hrow, decide_True by done. cbn [fst snd].
    eexists. split; [reflexivity|]. cbn. split_and!; try done.
    + by intros ->.
    + by intros ->.
    + by intros ->.
    + intros -> i r'. rewrite lookup_insert_Some.
      intros [[<- <-]|[_ Hrow']]; eauto.
  - intros Hnone. rewrite Hnone. cbn [fst snd].
    eexists. split; [reflexivity|]. by cbn.
  - destruct (Accounts.user_profiles a !! userId) as [r|]; cbn [fst snd].
    + rewrite decide_True by done. by intros o a' [= <- _].
    + by intros o a' [=].
Qed.

Lemma updateProfile_merges_or_throws_witness :
  ∃ a',
    UserService_updateProfile "alice" (ProfileUpdates.mk None (Some "555-0100") None)
      alice_account_with_profile
    = (Return (Some (UserProfile.mk "alice" (Some "Alice") (Some "555-0100") None
                       100 205)), a').
Proof.
  destruct (updateProfile_merges_or_throws "alice"
              (ProfileUpdates.mk None (Some "555-0100") None)
              alice_account_with_profile)
    as (Hexists & _); [reflexivity|discriminate|].
  destruct (Hexists (ProfileRow.mk (Some "Alice") None None 100 100))
    as (a' & Hrun & _); [apply lookup_insert_eq|].
  exists a'. exact Hrun.
Defined.
